(** * tcp_caohejing: a shallow embedding of the congestion-control module

    The development follows [tcp_caohejing.c] function by function.  C
    integers are mathematical integers ([Z]) with every conversion and
    wrap-around written out ([u32], [u64], [s32], ...); operations that
    trap or are undefined in C (division by zero, an oversized shift)
    return a [Fault].  The target is an LP64 kernel: [long] and
    [unsigned long] are 64 bits wide. *)

From Stdlib Require Import ZArith Bool List Lia.
Import ListNotations.
Local Open Scope Z_scope.

(** ** Machine integers *)

Definition u8 (x : Z) : Z := x mod 256.
Definition u32 (x : Z) : Z := x mod 4294967296.
Definition u64 (x : Z) : Z := x mod 18446744073709551616.
Definition s32 (x : Z) : Z := (x + 2147483648) mod 4294967296 - 2147483648.
Definition s64 (x : Z) : Z :=
  (x + 9223372036854775808) mod 18446744073709551616 - 9223372036854775808.
(** A [:3] unsigned bit-field. *)
Definition bits3 (x : Z) : Z := x mod 8.

Definition is_u32 (x : Z) : Prop := 0 <= x < 4294967296.
Definition is_u64 (x : Z) : Prop := 0 <= x < 18446744073709551616.
Definition is_s32 (x : Z) : Prop := -2147483648 <= x < 2147483648.

(** ** Faults *)

Inductive fault : Set := DivideByZero | ShiftOutOfRange.

Inductive result (A : Type) : Type :=
| Ok (a : A)
| Fault (f : fault).
Arguments Ok {A} a.
Arguments Fault {A} f.

Definition bind {A B : Type} (m : result A) (k : A -> result B) : result B :=
  match m with
  | Ok a => k a
  | Fault f => Fault f
  end.

Notation "x <- m ;; k" := (bind m (fun x => k))
  (at level 61, m at next level, right associativity).

(** ** Constants of the module *)

Definition CAL_SCALE : Z := 8.
Definition CAL_UNIT : Z := Z.shiftl 1 CAL_SCALE.
Definition BW_SCALE : Z := 24.
Definition BW_UNIT : Z := Z.shiftl 1 BW_SCALE.
Definition UP : Z := 0.
Definition DOWN : Z := 1.
Definition caohejing_min_tso_rate : Z := 1200000.

(** ** Constants of the kernel headers *)

Definition TCP_CA_Open : Z := 0.
Definition TCP_CA_Disorder : Z := 1.
Definition TCP_CA_CWR : Z := 2.
Definition TCP_CA_Recovery : Z := 3.
Definition TCP_CA_Loss : Z := 4.
Definition USEC_PER_SEC : Z := 1000000.
Definition GSO_MAX_SIZE : Z := 65536.

(** ** Kernel helpers

    These come from the kernel headers the module includes, not from the
    module itself; each is written as the kernel defines it. *)

(** [do_div(n, base)]: 64-bit [n] divided by [base] taken as [uint32_t];
    the quotient is stored back in [n].  A zero divisor traps. *)
Definition do_div (n base : Z) : result Z :=
  let base32 := u32 base in
  if base32 =? 0 then Fault DivideByZero else Ok (u64 n / base32).

(** Unsigned 32-bit division [a / b]. *)
Definition udiv32 (a b : Z) : result Z :=
  if u32 b =? 0 then Fault DivideByZero else Ok (u32 a / u32 b).

(** [x >> n] on an [unsigned long].  C leaves the shift undefined for
    [n >= 64]; what a compiled kernel computes there depends on the
    target.  The model stops with [ShiftOutOfRange], which stands for
    "no defined result", not for a trap: the theorems below that speak of
    a call returning or not are stated for shifts below 64. *)
Definition shr64 (x n : Z) : result Z :=
  if (0 <=? n) && (n <? 64) then Ok (Z.shiftr (u64 x) n)
  else Fault ShiftOutOfRange.

(** [before(seq1, seq2)]: [(__s32)(seq1 - seq2) < 0]. *)
Definition before (seq1 seq2 : Z) : bool := s32 (seq1 - seq2) <? 0.

(** [tcp_stamp_us_delta(t1, t0)]: [max_t(s64, t1 - t0, 0)], returned as
    [u32]. *)
Definition tcp_stamp_us_delta (t1 t0 : Z) : Z := u32 (Z.max (s64 (t1 - t0)) 0).

(** *** The windowed max filter of [linux/win_minmax.h] *)

Module Sample.
Record minmax_sample : Set := mk { t : Z; v : Z }.
End Sample.
Definition minmax_sample : Set := Sample.minmax_sample.

Record minmax : Set := mk_minmax {
  s0 : minmax_sample;
  s1 : minmax_sample;
  s2 : minmax_sample
}.

Definition minmax_get (m : minmax) : Z := Sample.v (s0 m).

Definition minmax_reset (m : minmax) (t meas : Z) : minmax :=
  let val := Sample.mk (u32 t) (u32 meas) in
  mk_minmax val val val.

Definition minmax_subwin_update (m : minmax) (win : Z) (val : minmax_sample)
  : minmax :=
  let dt := u32 (Sample.t val - Sample.t (s0 m)) in
  if dt >? win then
    let m := mk_minmax (s1 m) (s2 m) val in
    if u32 (Sample.t val - Sample.t (s0 m)) >? win
    then mk_minmax (s1 m) (s2 m) val
    else m
  else if (Sample.t (s1 m) =? Sample.t (s0 m)) && (dt >? win / 4) then
    mk_minmax (s0 m) val val
  else if (Sample.t (s2 m) =? Sample.t (s1 m)) && (dt >? win / 2) then
    mk_minmax (s0 m) (s1 m) val
  else m.

Definition minmax_running_max (m : minmax) (win t meas : Z) : minmax :=
  let val := Sample.mk (u32 t) (u32 meas) in
  if (Sample.v val >=? Sample.v (s0 m))
     || (u32 (Sample.t val - Sample.t (s2 m)) >? win)
  then minmax_reset m t meas
  else
    let m :=
      if Sample.v val >=? Sample.v (s1 m) then mk_minmax (s0 m) val val
      else if Sample.v val >=? Sample.v (s2 m) then mk_minmax (s0 m) (s1 m) val
      else m in
    minmax_subwin_update m win val.

(** ** Data *)

(** [struct caohejing], the private area of a connection. *)
Record caohejing : Set := mk_caohejing {
  rtt : Z;
  gain : Z;
  min_rtt_us : Z;
  rtt_cnt : Z;
  next_rtt_delivered : Z;
  prior_cwnd : Z;
  bw : minmax;
  curr_bw : Z;
  last_bw : Z;
  cycle_mstamp : Z;
  prev_ca_state : Z;
  state : Z;
  packet_conservation : Z
}.

(** The fields of [struct sock], [struct inet_connection_sock] and
    [struct tcp_sock] that the module reads or writes. *)
Record sock : Set := mk_sock {
  sk_pacing_rate : Z;
  sk_max_pacing_rate : Z;
  sk_pacing_shift : Z;
  icsk_ca_state : Z;
  icsk_ca_priv : caohejing;
  snd_cwnd : Z;
  snd_cwnd_clamp : Z;
  snd_ssthresh : Z;
  delivered : Z;
  delivered_mstamp : Z;
  mss_cache : Z;
  packets_out : Z;
  sacked_out : Z;
  lost_out : Z;
  retrans_out : Z
}.

(** The fields of [struct rate_sample] that the module reads, with the
    prefix [rs_] since [delivered] is a field of the socket too. *)
Record rate_sample : Set := mk_rate_sample {
  rs_prior_delivered : Z;
  rs_delivered : Z;
  rs_interval_us : Z;
  rs_rtt_us : Z;
  rs_losses : Z;
  rs_acked_sacked : Z
}.

(** The module's variables with static storage: the two module parameters
    and the [static int start] of [tcp_caohejing_cong_control].  There is
    one of each for the whole module, whatever the number of sockets. *)
Record module_state : Set := mk_module_state {
  debug : Z;
  conservation : Z;
  start : Z
}.

Definition inet_csk_ca (sk : sock) : caohejing := icsk_ca_priv sk.

(** *** Field updates *)

Definition set_gain (x : Z) (w : caohejing) : caohejing :=
  mk_caohejing (rtt w) x (min_rtt_us w) (rtt_cnt w) (next_rtt_delivered w)
    (prior_cwnd w) (bw w) (curr_bw w) (last_bw w) (cycle_mstamp w)
    (prev_ca_state w) (state w) (packet_conservation w).
Definition set_min_rtt_us (x : Z) (w : caohejing) : caohejing :=
  mk_caohejing (rtt w) (gain w) x (rtt_cnt w) (next_rtt_delivered w)
    (prior_cwnd w) (bw w) (curr_bw w) (last_bw w) (cycle_mstamp w)
    (prev_ca_state w) (state w) (packet_conservation w).
Definition set_rtt_cnt (x : Z) (w : caohejing) : caohejing :=
  mk_caohejing (rtt w) (gain w) (min_rtt_us w) x (next_rtt_delivered w)
    (prior_cwnd w) (bw w) (curr_bw w) (last_bw w) (cycle_mstamp w)
    (prev_ca_state w) (state w) (packet_conservation w).
Definition set_next_rtt_delivered (x : Z) (w : caohejing) : caohejing :=
  mk_caohejing (rtt w) (gain w) (min_rtt_us w) (rtt_cnt w) x
    (prior_cwnd w) (bw w) (curr_bw w) (last_bw w) (cycle_mstamp w)
    (prev_ca_state w) (state w) (packet_conservation w).
Definition set_prior_cwnd (x : Z) (w : caohejing) : caohejing :=
  mk_caohejing (rtt w) (gain w) (min_rtt_us w) (rtt_cnt w)
    (next_rtt_delivered w) x (bw w) (curr_bw w) (last_bw w) (cycle_mstamp w)
    (prev_ca_state w) (state w) (packet_conservation w).
Definition set_bw (x : minmax) (w : caohejing) : caohejing :=
  mk_caohejing (rtt w) (gain w) (min_rtt_us w) (rtt_cnt w)
    (next_rtt_delivered w) (prior_cwnd w) x (curr_bw w) (last_bw w)
    (cycle_mstamp w) (prev_ca_state w) (state w) (packet_conservation w).
Definition set_curr_bw (x : Z) (w : caohejing) : caohejing :=
  mk_caohejing (rtt w) (gain w) (min_rtt_us w) (rtt_cnt w)
    (next_rtt_delivered w) (prior_cwnd w) (bw w) x (last_bw w)
    (cycle_mstamp w) (prev_ca_state w) (state w) (packet_conservation w).
Definition set_last_bw (x : Z) (w : caohejing) : caohejing :=
  mk_caohejing (rtt w) (gain w) (min_rtt_us w) (rtt_cnt w)
    (next_rtt_delivered w) (prior_cwnd w) (bw w) (curr_bw w) x
    (cycle_mstamp w) (prev_ca_state w) (state w) (packet_conservation w).
Definition set_cycle_mstamp (x : Z) (w : caohejing) : caohejing :=
  mk_caohejing (rtt w) (gain w) (min_rtt_us w) (rtt_cnt w)
    (next_rtt_delivered w) (prior_cwnd w) (bw w) (curr_bw w) (last_bw w) x
    (prev_ca_state w) (state w) (packet_conservation w).
Definition set_prev_ca_state (x : Z) (w : caohejing) : caohejing :=
  mk_caohejing (rtt w) (gain w) (min_rtt_us w) (rtt_cnt w)
    (next_rtt_delivered w) (prior_cwnd w) (bw w) (curr_bw w) (last_bw w)
    (cycle_mstamp w) x (state w) (packet_conservation w).
Definition set_state (x : Z) (w : caohejing) : caohejing :=
  mk_caohejing (rtt w) (gain w) (min_rtt_us w) (rtt_cnt w)
    (next_rtt_delivered w) (prior_cwnd w) (bw w) (curr_bw w) (last_bw w)
    (cycle_mstamp w) (prev_ca_state w) x (packet_conservation w).
Definition set_packet_conservation (x : Z) (w : caohejing) : caohejing :=
  mk_caohejing (rtt w) (gain w) (min_rtt_us w) (rtt_cnt w)
    (next_rtt_delivered w) (prior_cwnd w) (bw w) (curr_bw w) (last_bw w)
    (cycle_mstamp w) (prev_ca_state w) (state w) x.

Definition set_ca (w : caohejing) (sk : sock) : sock :=
  mk_sock (sk_pacing_rate sk) (sk_max_pacing_rate sk) (sk_pacing_shift sk)
    (icsk_ca_state sk) w (snd_cwnd sk) (snd_cwnd_clamp sk) (snd_ssthresh sk)
    (delivered sk) (delivered_mstamp sk) (mss_cache sk) (packets_out sk)
    (sacked_out sk) (lost_out sk) (retrans_out sk).
Definition set_snd_cwnd (x : Z) (sk : sock) : sock :=
  mk_sock (sk_pacing_rate sk) (sk_max_pacing_rate sk) (sk_pacing_shift sk)
    (icsk_ca_state sk) (icsk_ca_priv sk) x (snd_cwnd_clamp sk)
    (snd_ssthresh sk) (delivered sk) (delivered_mstamp sk) (mss_cache sk)
    (packets_out sk) (sacked_out sk) (lost_out sk) (retrans_out sk).
Definition set_sk_pacing_rate (x : Z) (sk : sock) : sock :=
  mk_sock x (sk_max_pacing_rate sk) (sk_pacing_shift sk)
    (icsk_ca_state sk) (icsk_ca_priv sk) (snd_cwnd sk) (snd_cwnd_clamp sk)
    (snd_ssthresh sk) (delivered sk) (delivered_mstamp sk) (mss_cache sk)
    (packets_out sk) (sacked_out sk) (lost_out sk) (retrans_out sk).
Definition set_start (x : Z) (g : module_state) : module_state :=
  mk_module_state (debug g) (conservation g) x.

(** [w->f = x] through the socket that owns [w]. *)
Definition upd_ca (f : caohejing -> caohejing) (sk : sock) : sock :=
  set_ca (f (inet_csk_ca sk)) sk.

(** [tcp_packets_in_flight(tp)], with [tcp_left_out(tp)] inlined. *)
Definition tcp_packets_in_flight (tp : sock) : Z :=
  u32 (u32 (packets_out tp - u32 (sacked_out tp + lost_out tp))
       + retrans_out tp).

(** ** The module's functions *)

Section Module_code.

(** [MAX_TCP_HEADER] depends on the kernel configuration; the code is
    verified for every value of it. *)
Variable MAX_TCP_HEADER : Z.

(** [tcp_caohejing_init]. *)
Definition tcp_caohejing_init (sk : sock) : sock :=
  let w := inet_csk_ca sk in
  let w := set_gain (CAL_UNIT * 5 / 4) w in
  let w := set_state UP w in
  let w := set_min_rtt_us 2147483647 w in
  let w := set_prev_ca_state TCP_CA_Open w in
  let w := set_packet_conservation 0 w in
  let w := set_rtt_cnt 0 w in
  let w := set_curr_bw 0 w in
  let w := set_last_bw 0 w in
  let w := set_prior_cwnd 0 w in
  let w := set_bw (minmax_reset (bw w) (rtt_cnt w) 0) w in
  let w := set_next_rtt_delivered 0 w in
  let w := set_cycle_mstamp 0 w in
  set_ca w sk.

(** [tcp_caohejing_state]. *)
Definition tcp_caohejing_state (sk : sock) (new_state : Z) : sock :=
  if u8 new_state =? TCP_CA_Loss
  then set_snd_cwnd (u32 (tcp_packets_in_flight sk + 1)) sk
  else sk.

(** [tcp_caohejing_undo_cwnd]. *)
Definition tcp_caohejing_undo_cwnd (sk : sock) : Z :=
  let w := inet_csk_ca sk in
  Z.max (u32 2) (u32 (prior_cwnd w)).

(** [tcp_caohejing_ssthresh]: the returned value and the socket after. *)
Definition tcp_caohejing_ssthresh (sk : sock) : Z * sock :=
  let sk' := upd_ca (set_prior_cwnd (snd_cwnd sk)) sk in
  (snd_ssthresh sk', sk').

(** [is_next_cycle_phase]. *)
Definition is_next_cycle_phase (sk : sock) (rs : rate_sample) : bool * sock :=
  let w := inet_csk_ca sk in
  let is_full_length :=
    tcp_stamp_us_delta (delivered_mstamp sk) (cycle_mstamp w) >? min_rtt_us w in
  if (cycle_mstamp w =? 0) || is_full_length then
    let w := set_cycle_mstamp (delivered_mstamp sk) w in
    let w := set_last_bw (curr_bw w) w in
    let w := set_curr_bw (minmax_get (bw w)) w in
    (true, set_ca w sk)
  else (false, sk).

(** [caohejing_rate_bytes_per_sec]; [gain] is an [int]. *)
Definition caohejing_rate_bytes_per_sec (sk : sock) (rate gain : Z) : Z :=
  let mss := u32 (mss_cache sk) in
  let rate := u64 (rate * mss) in
  let rate := u64 (rate * gain) in
  let rate := Z.shiftr rate CAL_SCALE in
  let rate := u64 (rate * (USEC_PER_SEC / 100 * (100 - 1))) in
  Z.shiftr rate BW_SCALE.

(** [caohejing_bw_to_pacing_rate]; [bw] is a [u32], [gain] an [int]. *)
Definition caohejing_bw_to_pacing_rate (sk : sock) (bw gain : Z) : Z :=
  let rate := u32 bw in
  let rate := caohejing_rate_bytes_per_sec sk rate (s32 gain) in
  let rate := Z.min (u64 rate) (u64 (sk_max_pacing_rate sk)) in
  rate.

(** [caohejing_set_pacing_rate]; the conversions of its [u32 bw] and
    [int gain] parameters are those of the callee. *)
Definition caohejing_set_pacing_rate (sk : sock) (bw gain : Z) : sock :=
  let rate := caohejing_bw_to_pacing_rate sk bw gain in
  set_sk_pacing_rate rate sk.

(** [caohejing_min_tso_segs]. *)
Definition caohejing_min_tso_segs (sk : sock) : Z :=
  if sk_pacing_rate sk <? Z.shiftr caohejing_min_tso_rate 3 then 1 else 2.

(** [caohejing_tso_segs_goal]. *)
Definition caohejing_tso_segs_goal (sk : sock) : result Z :=
  shifted <- shr64 (sk_pacing_rate sk) (sk_pacing_shift sk) ;;
  let bytes := u32 (Z.min shifted (u64 (GSO_MAX_SIZE - 1 - MAX_TCP_HEADER))) in
  quot <- udiv32 bytes (mss_cache sk) ;;
  let segs := Z.max (u32 quot) (u32 (caohejing_min_tso_segs sk)) in
  Ok (Z.min segs 127).

(** *** [tcp_caohejing_cong_control], in the order of its statements *)

(** Lines 153-156: the round marker and the round count. *)
Definition cc_round (sk : sock) (rs : rate_sample) : sock :=
  let w := inet_csk_ca sk in
  if negb (before (rs_prior_delivered rs) (next_rtt_delivered w)) then
    let w := set_next_rtt_delivered (delivered sk) w in
    let w := set_rtt_cnt (u32 (rtt_cnt w + 1)) w in
    set_ca w sk
  else sk.

(** Lines 158-159: the minimum RTT; [rs->rtt_us] is a [long]. *)
Definition cc_min_rtt (sk : sock) (rs : rate_sample) : sock :=
  let w := inet_csk_ca sk in
  if (rs_rtt_us rs >? 0) && (rs_rtt_us rs <=? min_rtt_us w)
  then set_ca (set_min_rtt_us (u32 (rs_rtt_us rs)) w) sk
  else sk.

(** Lines 161-162: the bandwidth of the sample; [rs->delivered] is an
    [s32], [rs->interval_us] a [long]. *)
Definition cc_sample_bw (rs : rate_sample) : result Z :=
  let bw0 := u64 (u64 (rs_delivered rs) * BW_UNIT) in
  do_div bw0 (rs_interval_us rs).

(** Lines 161-166: the bandwidth sample and the max filter. *)
Definition cc_bw_sample (sk : sock) (rs : rate_sample) : result sock :=
  let w := inet_csk_ca sk in
  bw1 <- cc_sample_bw rs ;;
  if bw1 >? minmax_get (bw w) then
    let w := set_bw (minmax_running_max (bw w) 10 (rtt_cnt w) bw1) w in
    let w := set_curr_bw (minmax_get (bw w)) w in
    Ok (set_ca w sk)
  else Ok sk.

(** Lines 172-192: the [switch] on [w->state]. *)
Definition cc_gain_switch (w : caohejing) (bw_max : Z) : caohejing :=
  if state w =? UP then
    if u64 (20 * bw_max) >? u64 (21 * last_bw w)
    then set_gain (CAL_UNIT * 5 / 4) w
    else set_state DOWN (set_gain (CAL_UNIT * 3 / 4) w)
  else if state w =? DOWN then
    if u64 (19 * last_bw w) >? u64 (20 * bw_max)
    then set_state UP (set_gain (CAL_UNIT * 5 / 4) w)
    else set_gain (CAL_UNIT * 3 / 4) w
  else w.

(** Lines 171-193: the [switch] runs when the static counter exceeds 3. *)
Definition cc_gain_cycle (start_now : Z) (w : caohejing) (bw_max : Z)
  : caohejing :=
  if start_now >? 3 then cc_gain_switch w bw_max else w.

(** Lines 195-198: the window computed from the bandwidth-delay product. *)
Definition cc_base_cwnd (sk : sock) (bw_max : Z) : result Z :=
  let w := inet_csk_ca sk in
  let bdp := u64 (u64 bw_max * min_rtt_us w) in
  let cwnd :=
    Z.max (u32 2)
      (u32 (u64 (Z.shiftr (u64 (bdp * CAL_UNIT)) CAL_SCALE + BW_UNIT - 1)
            / BW_UNIT)) in
  segs <- caohejing_tso_segs_goal sk ;;
  let cwnd := u32 (cwnd + u32 (3 * segs)) in
  Ok (Z.land (u32 (cwnd + 1)) (u32 (Z.lnot 1))).

(** Lines 202-205: a new cycle starts from an empty filter. *)
Definition cc_cycle_reset (is_next : bool) (sk : sock) : sock :=
  if is_next then
    let w := inet_csk_ca sk in
    let w := set_rtt_cnt 0 w in
    let w := set_bw (minmax_reset (bw w) (rtt_cnt w) 0) w in
    set_ca w sk
  else sk.

(** Lines 210-228: losses, the two recovery edges and packet conservation.
    [cwnd] is the local variable, [old_cwnd] on entry. *)
Definition cc_recovery (sk : sock) (rs : rate_sample)
  (cwnd prev_ca_state ca_state : Z) : sock :=
  let cwnd :=
    if rs_losses rs >? 0
    then u32 (Z.max (s32 (u32 (cwnd - rs_losses rs))) (s32 1))
    else cwnd in
  let flight_acked := u32 (tcp_packets_in_flight sk + rs_acked_sacked rs) in
  let '(cwnd, sk) :=
    if (ca_state =? TCP_CA_Recovery) && negb (prev_ca_state =? TCP_CA_Recovery)
    then
      let w := inet_csk_ca sk in
      let w := set_next_rtt_delivered (delivered sk) w in
      let w := set_packet_conservation 1 w in
      (flight_acked, set_ca w sk)
    else if (prev_ca_state >=? TCP_CA_Recovery) && (ca_state <? TCP_CA_Recovery)
    then
      let w := inet_csk_ca sk in
      let sk := set_snd_cwnd (Z.max (prior_cwnd w) flight_acked) sk in
      let w := set_state UP w in
      let w := set_gain (CAL_UNIT * 5 / 4) w in
      let w := set_packet_conservation 0 w in
      (cwnd, set_ca w sk)
    else (cwnd, sk) in
  if packet_conservation (inet_csk_ca sk) =? 1 then
    let w := inet_csk_ca sk in
    let w := set_state DOWN w in
    let w := set_gain (CAL_UNIT * 3 / 4) w in
    set_snd_cwnd (Z.max (u32 cwnd) (u32 flight_acked)) (set_ca w sk)
  else sk.

(** Lines 231-233, after the label [done]. *)
Definition cc_done (sk : sock) (bw_max ca_state : Z) : sock :=
  let sk := upd_ca (set_prev_ca_state (bits3 ca_state)) sk in
  let sk := caohejing_set_pacing_rate sk bw_max (gain (inet_csk_ca sk)) in
  set_snd_cwnd (Z.min (snd_cwnd sk) (snd_cwnd_clamp sk)) sk.

(** Lines 153-169: everything before the gain switch; gives the socket,
    [is_next] and the local [bw]. *)
Definition cc_estimate (sk : sock) (rs : rate_sample)
  : result (sock * bool * Z) :=
  let sk := cc_round sk rs in
  let sk := cc_min_rtt sk rs in
  sk <- cc_bw_sample sk rs ;;
  let '(is_next, sk) := is_next_cycle_phase sk rs in
  Ok (sk, is_next, minmax_get (bw (inet_csk_ca sk))).

(** [tcp_caohejing_cong_control].  The [printk] under [debug] writes to the
    kernel log only and is left out. *)
Definition tcp_caohejing_cong_control (g : module_state) (sk : sock)
  (rs : rate_sample) : result (module_state * sock) :=
  let prev := u8 (prev_ca_state (inet_csk_ca sk)) in
  let ca_state := u8 (icsk_ca_state sk) in
  let old_cwnd := snd_cwnd sk in
  est <- cc_estimate sk rs ;;
  let '(sk, is_next, bw_max) := est in
  let sk := upd_ca (fun w => cc_gain_cycle (start g) w bw_max) sk in
  let g := set_start (s32 (start g + 1)) g in
  cwnd <- cc_base_cwnd sk bw_max ;;
  let sk := set_snd_cwnd cwnd sk in
  let cwnd := old_cwnd in
  let sk := cc_cycle_reset is_next sk in
  let sk :=
    if conservation g =? 0 then sk
    else cc_recovery sk rs cwnd prev ca_state in
  Ok (g, cc_done sk bw_max ca_state).

(** The statements of [tcp_caohejing_cong_control] after line 169, given
    what lines 153-169 and 195-198 produced; [sk0] is the socket on entry. *)
Definition cc_after (g : module_state) (sk0 : sock) (rs : rate_sample)
  (sk1 : sock) (is_next : bool) (bw_max base : Z) : sock :=
  let sk := upd_ca (fun w => cc_gain_cycle (start g) w bw_max) sk1 in
  let sk := set_snd_cwnd base sk in
  let sk := cc_cycle_reset is_next sk in
  let sk :=
    if conservation g =? 0 then sk
    else cc_recovery sk rs (snd_cwnd sk0)
           (u8 (prev_ca_state (inet_csk_ca sk0))) (u8 (icsk_ca_state sk0)) in
  cc_done sk bw_max (u8 (icsk_ca_state sk0)).

(** ** Calls in sequence *)

(** What can happen to a socket between two looks at it: the transport
    rewrites its own fields (the private area is the module's), it calls
    one of the module's callbacks, or the module serves another socket. *)
Inductive event : Set :=
| Ev_host (h : sock)
| Ev_ssthresh
| Ev_set_state (new_state : Z)
| Ev_cong_control (rs : rate_sample)
| Ev_elsewhere (other : sock) (rs : rate_sample).

Definition step (g : module_state) (sk : sock) (e : event)
  : result (module_state * sock) :=
  match e with
  | Ev_host h => Ok (g, set_ca (inet_csk_ca sk) h)
  | Ev_ssthresh => Ok (g, snd (tcp_caohejing_ssthresh sk))
  | Ev_set_state n => Ok (g, tcp_caohejing_state sk n)
  | Ev_cong_control rs => tcp_caohejing_cong_control g sk rs
  | Ev_elsewhere other rs =>
      r <- tcp_caohejing_cong_control g other rs ;; Ok (fst r, sk)
  end.

Fixpoint run (g : module_state) (sk : sock) (evs : list event)
  : result (module_state * sock) :=
  match evs with
  | [] => Ok (g, sk)
  | e :: evs' => r <- step g sk e ;; run (fst r) (snd r) evs'
  end.

(** The calls of [tcp_caohejing_cong_control] the module serves, in order,
    each on whichever socket the transport hands in: only the static
    variables are carried from one call to the next. *)
Fixpoint cong_control_calls (g : module_state)
  (calls : list (sock * rate_sample)) : result (module_state * list sock) :=
  match calls with
  | [] => Ok (g, [])
  | (sk, rs) :: calls' =>
      r <- tcp_caohejing_cong_control g sk rs ;;
      rest <- cong_control_calls (fst r) calls' ;;
      Ok (fst rest, snd r :: snd rest)
  end.

(** ** Predicates on inputs *)

(** The inputs on which no statement of [tcp_caohejing_cong_control] traps
    or is left undefined by C. *)
Definition no_fault (sk : sock) (rs : rate_sample) : Prop :=
  u32 (rs_interval_us rs) <> 0 /\ u32 (mss_cache sk) <> 0 /\
  0 <= sk_pacing_shift sk < 64.

(** The two recovery edges of lines 213 and 217. *)
Definition recovery_entry (sk : sock) : bool :=
  (u8 (icsk_ca_state sk) =? TCP_CA_Recovery)
  && negb (u8 (prev_ca_state (inet_csk_ca sk)) =? TCP_CA_Recovery).
Definition recovery_exit (sk : sock) : bool :=
  (u8 (prev_ca_state (inet_csk_ca sk)) >=? TCP_CA_Recovery)
  && (u8 (icsk_ca_state sk) <? TCP_CA_Recovery).

(** Lines 207-228 leave the socket alone: conservative mode is off, or
    there is no edge and packet conservation is not set. *)
Definition recovery_quiet (g : module_state) (sk : sock) : bool :=
  (conservation g =? 0)
  || (negb (recovery_entry sk) && negb (recovery_exit sk)
      && negb (packet_conservation (inet_csk_ca sk) =? 1)).

(** Ranges that every reachable private area stays in. *)
Definition sample_ok (s : minmax_sample) : Prop :=
  is_u32 (Sample.t s) /\ is_u32 (Sample.v s).
Definition minmax_ok (m : minmax) : Prop :=
  sample_ok (s0 m) /\ sample_ok (s1 m) /\ sample_ok (s2 m).
Definition caohejing_ok (w : caohejing) : Prop :=
  is_u32 (min_rtt_us w) /\ minmax_ok (bw w) /\
  is_u32 (curr_bw w) /\ is_u32 (last_bw w).

(** ** The specification's formulas, as it words them *)

Definition ceil_div (a b : Z) : Z := (a + b - 1) / b.
Definition round_up_even (x : Z) : Z := 2 * ((x + 1) / 2).

(** The gain rule: (phase, gain) after, from the phase before and the
    two bandwidths compared. *)
Definition spec_gain_rule (phase bw_now bw_last : Z) : Z * Z :=
  if phase =? UP then
    if 20 * bw_now >? 21 * bw_last then (UP, 320) else (DOWN, 192)
  else
    if 19 * bw_last >? 20 * bw_now then (UP, 320) else (DOWN, 192).

(** The base window with the gain in it: max(2, ceil(bdp * gain / UNIT /
    BW_UNIT)) plus three TSO goals, rounded up to an even number. *)
Definition spec_base_cwnd (bw_max min_rtt gain_now segs : Z) : Z :=
  let bdp := bw_max * min_rtt in
  round_up_even
    (Z.max 2 (ceil_div (bdp * gain_now) (CAL_UNIT * BW_UNIT)) + 3 * segs).

(** The base window at unit gain. *)
Definition unit_gain_base_cwnd (bw_max min_rtt segs : Z) : Z :=
  round_up_even (Z.max 2 (ceil_div (bw_max * min_rtt) BW_UNIT) + 3 * segs).

(** The pacing rate in exact integers. *)
Definition spec_rate_bytes_per_sec (bw_max mss gain_now : Z) : Z :=
  Z.shiftr
    (Z.shiftr (bw_max * mss * gain_now) 8 * (USEC_PER_SEC * 99 / 100)) 24.

(** The same formula in 64-bit unsigned arithmetic. *)
Definition spec_rate_bytes_per_sec_u64 (bw_max mss gain_now : Z) : Z :=
  Z.shiftr
    (u64 (Z.shiftr (u64 (bw_max * mss * gain_now)) 8
          * (USEC_PER_SEC * 99 / 100)))
    24.

(** The largest bandwidth-delay product for which the 32-bit window
    arithmetic of lines 196-198 cannot wrap: the window stays below
    [2^32 - 3 * 127 - 1]. *)
Definition max_exact_bdp : Z := 4294966913 * BW_UNIT.

(** ** Statements of the specification that fail on the code

    Each is stated, as the specification words it, for the sockets
    reached from [tcp_caohejing_init]. *)

(** The base window follows the current gain: after the gain step it is
    [spec_base_cwnd] of the filter's maximum, the minimum RTT, the gain and
    the TSO goal. *)
Definition base_cwnd_follows_gain : Prop :=
  forall g0 sk0 evs g sk rs sk1 is_next bwm segs,
    run g0 (tcp_caohejing_init sk0) evs = Ok (g, sk) ->
    cc_estimate sk rs = Ok (sk1, is_next, bwm) ->
    caohejing_tso_segs_goal sk = Ok segs ->
    bwm * min_rtt_us (inet_csk_ca sk1) <= max_exact_bdp ->
    let w := cc_gain_cycle (start g) (inet_csk_ca sk1) bwm in
    cc_base_cwnd (set_ca w sk1) bwm =
    Ok (spec_base_cwnd bwm (min_rtt_us w) (gain w) segs).


(** A call that is not at a window boundary writes neither [curr_bw] nor
    [last_bw]. *)
Definition bw_pair_written_at_boundary_only : Prop :=
  forall g0 sk0 evs g sk rs g' sk' sk1 bwm,
    run g0 (tcp_caohejing_init sk0) evs = Ok (g, sk) ->
    tcp_caohejing_cong_control g sk rs = Ok (g', sk') ->
    cc_estimate sk rs = Ok (sk1, false, bwm) ->
    curr_bw (inet_csk_ca sk') = curr_bw (inet_csk_ca sk) /\
    last_bw (inet_csk_ca sk') = last_bw (inet_csk_ca sk).

(** After warm-up the gain step is [spec_gain_rule] on [curr_bw] and
    [last_bw]. *)
Definition gain_rule_compares_curr_bw : Prop :=
  forall g0 sk0 evs g sk rs sk1 is_next bwm,
    run g0 (tcp_caohejing_init sk0) evs = Ok (g, sk) ->
    3 < start g ->
    cc_estimate sk rs = Ok (sk1, is_next, bwm) ->
    let w := cc_gain_cycle (start g) (inet_csk_ca sk1) bwm in
    (state w, gain w) =
    spec_gain_rule (state (inet_csk_ca sk1)) (curr_bw (inet_csk_ca sk1))
      (last_bw (inet_csk_ca sk1)).

(** The warm-up is the first [k] calls the module serves: with lines
    207-228 idle, each of them leaves gain and phase alone and every later
    call runs the gain switch. *)
Definition warm_up_lasts (k : nat) : Prop :=
  forall g calls g' outs n sk rs sk',
    start g = 0 ->
    Z.of_nat (length calls) < 2147483648 ->
    cong_control_calls g calls = Ok (g', outs) ->
    nth_error calls n = Some (sk, rs) ->
    nth_error outs n = Some sk' ->
    recovery_quiet g sk = true ->
    if (n <? k)%nat then
      gain (inet_csk_ca sk') = gain (inet_csk_ca sk) /\
      state (inet_csk_ca sk') = state (inet_csk_ca sk)
    else
      exists sk1 is_next bwm,
        cc_estimate sk rs = Ok (sk1, is_next, bwm) /\
        gain (inet_csk_ca sk') = gain (cc_gain_switch (inet_csk_ca sk1) bwm) /\
        state (inet_csk_ca sk') = state (cc_gain_switch (inet_csk_ca sk1) bwm).

(** ** Sample inputs *)

(** A socket as the transport sets one up: window 10 with no cap below
    [2^32 - 1], segments of 1460 bytes, pacing shift 10, nothing in
    flight, congestion state Open, 10 packets delivered by the time
    50000000 us; the private area is initialised by
    [tcp_caohejing_init]. *)
Definition ex_private : caohejing :=
  let z := Sample.mk 0 0 in
  mk_caohejing 0 0 0 0 0 0 (mk_minmax z z z) 0 0 0 0 0 0.
Definition ex_host : sock :=
  mk_sock 0 18446744073709551615 10 TCP_CA_Open ex_private 10 4294967295
    2147483647 10 50000000 1460 0 0 0 0.
Definition ex_sk : sock := tcp_caohejing_init ex_host.

(** The transport's fields 100 us later, 30 packets delivered, in the
    congestion state [ca_state] with [flight] packets out. *)
Definition ex_host_in (ca_state flight : Z) : sock :=
  mk_sock 0 18446744073709551615 10 ca_state ex_private 10 4294967295
    2147483647 30 50000100 1460 flight 0 0 0.
Definition ex_host_later : sock := ex_host_in TCP_CA_Open 0.

(** The module as loaded (both parameters 1, no call served yet), and
    after it served four calls. *)
Definition ex_g : module_state := mk_module_state 1 1 0.
Definition ex_g_warm : module_state := mk_module_state 1 1 4.

(** Ten packets delivered in 1000 us, RTT 1000 us, no loss. *)
Definition ex_rs : rate_sample := mk_rate_sample 0 10 1000 1000 0 0.
(** The same sample with RTT 0. *)
Definition ex_rs_rtt0 : rate_sample := mk_rate_sample 0 10 1000 0 0 0.
(** Twenty packets delivered in 1000 us. *)
Definition ex_rs_faster : rate_sample := mk_rate_sample 10 20 1000 1000 0 0.
(** One packet delivered in 20 s: a bandwidth that rounds to 0. *)
Definition ex_rs_trickle : rate_sample :=
  mk_rate_sample 29 1 20000000 1000 0 0.
Definition ex_rs_acked2 : rate_sample := mk_rate_sample 20 10 1000 1000 0 2.
Definition ex_rs_acked1 : rate_sample := mk_rate_sample 20 10 1000 1000 0 1.
(** A sample with a zero interval, and the transport's marking of an
    invalid sample: delivered, interval and RTT all -1. *)
Definition ex_rs_interval0 : rate_sample := mk_rate_sample 0 10 0 1000 0 0.
Definition ex_rs_invalid : rate_sample := mk_rate_sample 0 (-1) (-1) (-1) 0 0.

(** A first call, then the transport's clock 100 us on. *)
Definition ex_first_window : list event :=
  [Ev_cong_control ex_rs; Ev_host ex_host_later].

(** Five sockets fresh from [tcp_caohejing_init], each served once. *)
Definition ex_calls : list (sock * rate_sample) := repeat (ex_sk, ex_rs) 5.

(** A socket that has just entered Recovery with 10 packets in flight,
    and one that has just left it with 5 in flight, [prior_cwnd] 20. *)
Definition ex_sk_entering : sock :=
  set_ca (inet_csk_ca ex_sk) (ex_host_in TCP_CA_Recovery 10).
Definition ex_sk_leaving : sock :=
  set_ca
    (set_prior_cwnd 20
       (set_prev_ca_state TCP_CA_Recovery
          (set_packet_conservation 1 (inet_csk_ca ex_sk))))
    (ex_host_in TCP_CA_Open 5).

(** A socket in the middle of Recovery, packet conservation set, window
    10 with 4 packets in flight; and a sample that reports 3 losses and 2
    packets newly acknowledged or SACKed. *)
Definition ex_sk_recovering : sock :=
  set_ca
    (set_prev_ca_state TCP_CA_Recovery
       (set_packet_conservation 1 (inet_csk_ca ex_sk)))
    (ex_host_in TCP_CA_Recovery 4).
Definition ex_rs_lossy : rate_sample := mk_rate_sample 20 10 1000 1000 3 2.

(** After [tcp_caohejing_ssthresh]: a call, the transport's clock 100 us
    on and a change to state Loss. *)
Definition ex_after_ssthresh : list event :=
  [Ev_cong_control ex_rs; Ev_host ex_host_later; Ev_set_state TCP_CA_Loss].

(** The module after it served [2^31 - 1] calls: the counter is at the
    largest [int]. *)
Definition ex_g_last : module_state := mk_module_state 1 1 2147483647.

(** The transport's fields [2^32 + 5] us after [ex_host], 30 packets
    delivered. *)
Definition ex_host_after_pause : sock :=
  mk_sock 0 18446744073709551615 10 TCP_CA_Open ex_private 10 4294967295
    2147483647 30 4344967301 1460 0 0 0 0.

(** [MAX_TCP_HEADER] of a common 64-bit build. *)
Definition ex_max_tcp_header : Z := 320.

(** * Proofs *)

(** ** Integers *)

Ltac break_if :=
  match goal with
  | |- context [if ?c then _ else _] => destruct c eqn:?
  | H : context [if ?c then _ else _] |- _ => destruct c eqn:?
  end.

Ltac unfold_ints :=
  unfold is_u32, is_u64, is_s32, u8, u32, u64, s32, s64, bits3 in *.

Lemma u32_small x : is_u32 x -> u32 x = x.
Proof. unfold_ints. intros H. now apply Z.mod_small. Qed.

Lemma u64_small x : is_u64 x -> u64 x = x.
Proof. unfold_ints. intros H. now apply Z.mod_small. Qed.

Lemma u32_is_u32 x : is_u32 (u32 x).
Proof. unfold_ints. apply Z.mod_pos_bound. lia. Qed.

Lemma u64_is_u64 x : is_u64 (u64 x).
Proof. unfold_ints. apply Z.mod_pos_bound. lia. Qed.

Lemma u32_idem x : u32 (u32 x) = u32 x.
Proof. apply u32_small, u32_is_u32. Qed.

Lemma is_u32_is_u64 x : is_u32 x -> is_u64 x.
Proof. unfold_ints. lia. Qed.

(** ** The shape of a call *)

Lemma cc_base_cwnd_private sk f bwm :
  min_rtt_us (f (inet_csk_ca sk)) = min_rtt_us (inet_csk_ca sk) ->
  cc_base_cwnd (upd_ca f sk) bwm = cc_base_cwnd sk bwm.
Proof.
  intros H. unfold cc_base_cwnd, upd_ca. cbn. rewrite H. reflexivity.
Qed.

Lemma cc_gain_cycle_min_rtt s w b :
  min_rtt_us (cc_gain_cycle s w b) = min_rtt_us w.
Proof.
  unfold cc_gain_cycle, cc_gain_switch. repeat break_if; reflexivity.
Qed.

Lemma cong_control_eq g sk rs :
  tcp_caohejing_cong_control g sk rs =
  (est <- cc_estimate sk rs ;;
   let '(sk1, is_next, bwm) := est in
   base <- cc_base_cwnd sk1 bwm ;;
   Ok (set_start (s32 (start g + 1)) g, cc_after g sk rs sk1 is_next bwm base)).
Proof.
  unfold tcp_caohejing_cong_control.
  destruct (cc_estimate sk rs) as [[[sk1 nx] bwm]|f]; cbn [bind]; [|reflexivity].
  rewrite cc_base_cwnd_private by (cbv beta; apply cc_gain_cycle_min_rtt).
  destruct (cc_base_cwnd sk1 bwm) as [base|f]; reflexivity.
Qed.

Lemma cong_control_inv g sk rs g' sk' :
  tcp_caohejing_cong_control g sk rs = Ok (g', sk') ->
  exists sk1 is_next bwm base,
    cc_estimate sk rs = Ok (sk1, is_next, bwm) /\
    cc_base_cwnd sk1 bwm = Ok base /\
    g' = set_start (s32 (start g + 1)) g /\
    sk' = cc_after g sk rs sk1 is_next bwm base.
Proof.
  rewrite cong_control_eq.
  destruct (cc_estimate sk rs) as [[[sk1 nx] bwm]|f] eqn:E; cbn [bind];
    [|discriminate].
  destruct (cc_base_cwnd sk1 bwm) as [base|f] eqn:B; cbn [bind]; [|discriminate].
  intros H; inversion H; subst. now exists sk1, nx, bwm, base.
Qed.

(** ** Lines 153-169 *)

Ltac cc_unfold :=
  unfold cc_estimate, cc_round, cc_min_rtt, cc_bw_sample, cc_sample_bw,
    is_next_cycle_phase, do_div, upd_ca, inet_csk_ca in *.

Ltac cc_cases :=
  cbn [bind fst snd] in *; repeat (break_if; cbn [bind fst snd] in *).

Lemma cc_estimate_returns sk rs :
  u32 (rs_interval_us rs) <> 0 ->
  exists sk1 is_next bwm, cc_estimate sk rs = Ok (sk1, is_next, bwm).
Proof.
  intros H. apply Z.eqb_neq in H. cc_unfold. rewrite H. cc_cases; eauto.
Qed.

Lemma cc_estimate_traps sk rs :
  u32 (rs_interval_us rs) = 0 -> cc_estimate sk rs = Fault DivideByZero.
Proof.
  intros H. apply Z.eqb_eq in H. cc_unfold. rewrite H. reflexivity.
Qed.

(** What lines 153-169 leave alone. *)
Lemma cc_estimate_frame sk rs sk1 is_next bwm :
  cc_estimate sk rs = Ok (sk1, is_next, bwm) ->
  sk1 = set_ca (inet_csk_ca sk1) sk /\
  bwm = minmax_get (bw (inet_csk_ca sk1)) /\
  gain (inet_csk_ca sk1) = gain (inet_csk_ca sk) /\
  state (inet_csk_ca sk1) = state (inet_csk_ca sk) /\
  packet_conservation (inet_csk_ca sk1) = packet_conservation (inet_csk_ca sk) /\
  prior_cwnd (inet_csk_ca sk1) = prior_cwnd (inet_csk_ca sk) /\
  prev_ca_state (inet_csk_ca sk1) = prev_ca_state (inet_csk_ca sk).
Proof.
  destruct sk. cc_unfold. intros H.
  cc_cases; inversion H; subst; cbn; repeat split.
Qed.

(** Lines 158-159 are the only writer of [min_rtt_us]. *)
Lemma cc_estimate_min_rtt sk rs sk1 is_next bwm :
  cc_estimate sk rs = Ok (sk1, is_next, bwm) ->
  min_rtt_us (inet_csk_ca sk1) =
  if (rs_rtt_us rs >? 0) && (rs_rtt_us rs <=? min_rtt_us (inet_csk_ca sk))
  then u32 (rs_rtt_us rs) else min_rtt_us (inet_csk_ca sk).
Proof.
  cc_unfold. intros H.
  destruct ((rs_rtt_us rs >? 0) && _) eqn:E; cbn [negb] in *;
    cc_cases; inversion H; subst; cbn in *; congruence.
Qed.

Ltac rec_simpl :=
  cbn [bind fst snd negb andb orb
       rtt gain min_rtt_us rtt_cnt next_rtt_delivered prior_cwnd bw curr_bw
       last_bw cycle_mstamp prev_ca_state state packet_conservation
       sk_pacing_rate sk_max_pacing_rate sk_pacing_shift icsk_ca_state
       icsk_ca_priv snd_cwnd snd_cwnd_clamp snd_ssthresh delivered
       delivered_mstamp mss_cache packets_out sacked_out lost_out retrans_out
       debug conservation start
       set_gain set_min_rtt_us set_rtt_cnt set_next_rtt_delivered
       set_prior_cwnd set_bw set_curr_bw set_last_bw set_cycle_mstamp
       set_prev_ca_state set_state set_packet_conservation
       set_ca set_snd_cwnd set_sk_pacing_rate set_start] in *.

(** ** Lines 171-233 *)

Lemma cc_gain_switch_shape w bwm :
  exists gn st, cc_gain_switch w bwm = set_state st (set_gain gn w).
Proof.
  exists (gain (cc_gain_switch w bwm)), (state (cc_gain_switch w bwm)).
  unfold cc_gain_switch. destruct w. rec_simpl.
  repeat break_if; reflexivity.
Qed.

(** Lines 171-193 write [gain] and [state] and nothing else. *)
Lemma cc_gain_cycle_shape s w bwm :
  exists gn st, cc_gain_cycle s w bwm = set_state st (set_gain gn w).
Proof.
  unfold cc_gain_cycle. break_if; [apply cc_gain_switch_shape|].
  exists (gain w), (state w). destruct w. reflexivity.
Qed.

Ltac after_unfold :=
  unfold cc_after, cc_done, caohejing_set_pacing_rate, cc_recovery,
    cc_cycle_reset, upd_ca, inet_csk_ca.

(** Unfolds [cc_after] with the outcome of lines 171-193 named. *)
Ltac after_open g w1 bwm :=
  let gn := fresh "gn" in
  let st := fresh "st" in
  let G := fresh "G" in
  after_unfold;
  destruct (cc_gain_cycle_shape (start g) w1 bwm) as (gn & st & G);
  unfold inet_csk_ca in *; rec_simpl; rewrite G; clear G.

Lemma cc_after_min_rtt g sk0 rs sk1 nx bwm base :
  min_rtt_us (inet_csk_ca (cc_after g sk0 rs sk1 nx bwm base)) =
  min_rtt_us (inet_csk_ca sk1).
Proof.
  after_unfold.
  destruct (cc_gain_cycle_shape (start g) (icsk_ca_priv sk1) bwm)
    as (gn & st & G); rewrite G.
  cc_cases; reflexivity.
Qed.

(** ** Lines 195-198 *)

Lemma caohejing_min_tso_segs_range sk :
  1 <= caohejing_min_tso_segs sk <= 2.
Proof. unfold caohejing_min_tso_segs. break_if; lia. Qed.

Lemma caohejing_tso_segs_goal_returns sk :
  u32 (mss_cache sk) <> 0 -> 0 <= sk_pacing_shift sk < 64 ->
  exists segs, caohejing_tso_segs_goal sk = Ok segs /\ 1 <= segs <= 127.
Proof.
  intros Hm Hs. unfold caohejing_tso_segs_goal, shr64, udiv32.
  replace ((0 <=? sk_pacing_shift sk) && (sk_pacing_shift sk <? 64)) with true
    by (symmetry; apply andb_true_iff; split; [apply Z.leb_le|apply Z.ltb_lt]; lia).
  apply Z.eqb_neq in Hm. cbn [bind]. rewrite Hm. cbn [bind].
  eexists; split; [reflexivity|].
  pose proof (caohejing_min_tso_segs_range sk) as R.
  rewrite (u32_small (caohejing_min_tso_segs sk)) by (unfold_ints; lia).
  lia.
Qed.

Lemma cc_base_cwnd_returns sk bwm :
  u32 (mss_cache sk) <> 0 -> 0 <= sk_pacing_shift sk < 64 ->
  exists base, cc_base_cwnd sk bwm = Ok base.
Proof.
  intros Hm Hs.
  destruct (caohejing_tso_segs_goal_returns sk Hm Hs) as (segs & E & _).
  unfold cc_base_cwnd. rewrite E. cbn [bind]. eauto.
Qed.

Lemma cc_base_cwnd_host sk w bwm :
  min_rtt_us w = min_rtt_us (inet_csk_ca sk) ->
  cc_base_cwnd (set_ca w sk) bwm = cc_base_cwnd sk bwm.
Proof. intros H. unfold cc_base_cwnd. cbn. rewrite H. reflexivity. Qed.

(** ** A call returns when nothing traps *)

Lemma cong_control_returns g sk rs :
  no_fault sk rs ->
  exists g' sk', tcp_caohejing_cong_control g sk rs = Ok (g', sk').
Proof.
  intros (Hi & Hm & Hs). rewrite cong_control_eq.
  destruct (cc_estimate_returns sk rs Hi) as (sk1 & nx & bwm & E).
  rewrite E. cbn [bind].
  destruct (cc_estimate_frame _ _ _ _ _ E) as (F & _).
  assert (Hm1 : u32 (mss_cache sk1) <> 0) by (rewrite F; exact Hm).
  assert (Hs1 : 0 <= sk_pacing_shift sk1 < 64) by (rewrite F; exact Hs).
  destruct (cc_base_cwnd_returns sk1 bwm Hm1 Hs1) as (base & B).
  rewrite B. cbn [bind]. eauto.
Qed.

(** ** The minimum RTT along a run *)

Lemma cong_control_min_rtt g sk rs g' sk' :
  tcp_caohejing_cong_control g sk rs = Ok (g', sk') ->
  min_rtt_us (inet_csk_ca sk') =
  if (rs_rtt_us rs >? 0) && (rs_rtt_us rs <=? min_rtt_us (inet_csk_ca sk))
  then u32 (rs_rtt_us rs) else min_rtt_us (inet_csk_ca sk).
Proof.
  intros H. apply cong_control_inv in H as (sk1 & nx & bwm & base & E & _ & _ & ->).
  rewrite cc_after_min_rtt. now apply cc_estimate_min_rtt in E.
Qed.

Lemma cong_control_min_rtt_le g sk rs g' sk' :
  is_u32 (min_rtt_us (inet_csk_ca sk)) ->
  tcp_caohejing_cong_control g sk rs = Ok (g', sk') ->
  is_u32 (min_rtt_us (inet_csk_ca sk')) /\
  min_rtt_us (inet_csk_ca sk') <= min_rtt_us (inet_csk_ca sk).
Proof.
  intros R H. rewrite (cong_control_min_rtt _ _ _ _ _ H).
  destruct ((rs_rtt_us rs >? 0) && _) eqn:E; [|split; [exact R|lia]].
  apply andb_true_iff in E as (E1 & E2).
  apply Z.gtb_lt in E1. apply Z.leb_le in E2.
  rewrite u32_small by (unfold_ints; lia). unfold_ints. lia.
Qed.

Lemma step_min_rtt_le g sk e g' sk' :
  is_u32 (min_rtt_us (inet_csk_ca sk)) ->
  step g sk e = Ok (g', sk') ->
  is_u32 (min_rtt_us (inet_csk_ca sk')) /\
  min_rtt_us (inet_csk_ca sk') <= min_rtt_us (inet_csk_ca sk).
Proof.
  intros R. destruct e as [h| |n|rs|other rs]; cbn [step].
  - intros H; inversion H; subst. split; [exact R|reflexivity].
  - intros H; inversion H; subst. split; [exact R|reflexivity].
  - intros H; inversion H; subst. unfold tcp_caohejing_state.
    break_if; (split; [exact R|reflexivity]).
  - now apply cong_control_min_rtt_le.
  - destruct (tcp_caohejing_cong_control g other rs); cbn [bind];
      intros H; inversion H; subst. split; [exact R|reflexivity].
Qed.

Lemma run_min_rtt_le evs : forall g sk g' sk',
  is_u32 (min_rtt_us (inet_csk_ca sk)) ->
  run g sk evs = Ok (g', sk') ->
  is_u32 (min_rtt_us (inet_csk_ca sk')) /\
  min_rtt_us (inet_csk_ca sk') <= min_rtt_us (inet_csk_ca sk).
Proof.
  induction evs as [|e evs IH]; intros g sk g' sk' R; cbn [run].
  - intros H; inversion H; subst. split; [exact R|lia].
  - destruct (step g sk e) as [[g1 sk1]|f] eqn:S; cbn [bind fst snd];
      [|discriminate].
    intros H. destruct (step_min_rtt_le _ _ _ _ _ R S) as (R1 & L1).
    destruct (IH _ _ _ _ R1 H) as (R2 & L2). split; [exact R2|lia].
Qed.

Lemma init_min_rtt sk :
  min_rtt_us (inet_csk_ca (tcp_caohejing_init sk)) = 2147483647.
Proof. reflexivity. Qed.

(** C7.  Along every sequence of events after [tcp_caohejing_init],
    [min_rtt_us] never increases; a call of [tcp_caohejing_cong_control]
    replaces it by the sample's [rtt_us] exactly when that is positive and
    at most the current minimum, so a sample with [rtt_us <= 0] leaves it
    as it is. *)
Theorem min_rtt_us_non_increasing :
  forall g sk evs g1 sk1 evs' g2 sk2 rs g3 sk3,
    run g (tcp_caohejing_init sk) evs = Ok (g1, sk1) ->
    run g1 sk1 evs' = Ok (g2, sk2) ->
    tcp_caohejing_cong_control g2 sk2 rs = Ok (g3, sk3) ->
    min_rtt_us (inet_csk_ca sk2) <= min_rtt_us (inet_csk_ca sk1) /\
    min_rtt_us (inet_csk_ca sk3) <= min_rtt_us (inet_csk_ca sk2) /\
    min_rtt_us (inet_csk_ca sk3) =
      (if (0 <? rs_rtt_us rs)
          && (rs_rtt_us rs <=? min_rtt_us (inet_csk_ca sk2))
       then rs_rtt_us rs else min_rtt_us (inet_csk_ca sk2)) /\
    (rs_rtt_us rs <= 0 ->
     min_rtt_us (inet_csk_ca sk3) = min_rtt_us (inet_csk_ca sk2)).
Proof.
  intros g sk evs g1 sk1 evs' g2 sk2 rs g3 sk3 R1 R2 C.
  assert (I0 : is_u32 (min_rtt_us (inet_csk_ca (tcp_caohejing_init sk))))
    by (rewrite init_min_rtt; unfold_ints; lia).
  destruct (run_min_rtt_le _ _ _ _ _ I0 R1) as (I1 & _).
  destruct (run_min_rtt_le _ _ _ _ _ I1 R2) as (I2 & L2).
  destruct (cong_control_min_rtt_le _ _ _ _ _ I2 C) as (_ & L3).
  pose proof (cong_control_min_rtt _ _ _ _ _ C) as E.
  rewrite Z.gtb_ltb in E.
  assert (E' : min_rtt_us (inet_csk_ca sk3) =
               if (0 <? rs_rtt_us rs)
                  && (rs_rtt_us rs <=? min_rtt_us (inet_csk_ca sk2))
               then rs_rtt_us rs else min_rtt_us (inet_csk_ca sk2)).
  { rewrite E. destruct ((0 <? rs_rtt_us rs) && _) eqn:B; [|reflexivity].
    apply andb_true_iff in B as (B1 & B2).
    apply Z.ltb_lt in B1. apply Z.leb_le in B2.
    apply u32_small. unfold_ints. lia. }
  repeat split; try assumption.
  intros Hn. rewrite E'.
  replace (0 <? rs_rtt_us rs) with false by (symmetry; apply Z.ltb_ge; lia).
  reflexivity.
Qed.

(** ** The recovery edges *)

Lemma cc_estimate_host sk rs sk1 is_next bwm :
  cc_estimate sk rs = Ok (sk1, is_next, bwm) ->
  exists w1, sk1 = set_ca w1 sk.
Proof.
  intros E. apply cc_estimate_frame in E as (F & _). eauto.
Qed.

(** A call on inputs that do not trap, opened up to its two halves. *)
Lemma cong_control_open g sk rs :
  no_fault sk rs ->
  exists w1 is_next bwm base,
    cc_estimate sk rs = Ok (set_ca w1 sk, is_next, bwm) /\
    cc_base_cwnd (set_ca w1 sk) bwm = Ok base /\
    tcp_caohejing_cong_control g sk rs =
      Ok (set_start (s32 (start g + 1)) g,
          cc_after g sk rs (set_ca w1 sk) is_next bwm base).
Proof.
  intros NF. destruct (cong_control_returns g sk rs NF) as (g' & sk' & C).
  destruct (cong_control_inv _ _ _ _ _ C) as (sk1 & nx & bwm & base & E & B & -> & ->).
  destruct (cc_estimate_host _ _ _ _ _ E) as (w1 & ->).
  now exists w1, nx, bwm, base.
Qed.

Lemma u32_max_self x : Z.max (u32 (u32 x)) (u32 (u32 x)) = u32 x.
Proof. rewrite u32_idem. apply Z.max_id. Qed.

(** C8.  With conservative mode enabled, a call that finds the congestion
    state at Recovery when the previous call did not: sets the window to
    packets in flight plus the sample's acked+SACKed count (and then, like
    every call, caps it at [snd_cwnd_clamp]), restarts the round marker at
    the delivered counter and sets [packet_conservation]. *)
Theorem recovery_entry_edge :
  forall g sk rs,
    conservation g <> 0 ->
    u8 (icsk_ca_state sk) = TCP_CA_Recovery ->
    u8 (prev_ca_state (inet_csk_ca sk)) <> TCP_CA_Recovery ->
    no_fault sk rs ->
    exists g' sk',
      tcp_caohejing_cong_control g sk rs = Ok (g', sk') /\
      snd_cwnd sk' =
        Z.min (u32 (tcp_packets_in_flight sk + rs_acked_sacked rs))
              (snd_cwnd_clamp sk) /\
      next_rtt_delivered (inet_csk_ca sk') = delivered sk /\
      packet_conservation (inet_csk_ca sk') = 1 /\
      (is_u32 (tcp_packets_in_flight sk + rs_acked_sacked rs) ->
       tcp_packets_in_flight sk + rs_acked_sacked rs <= snd_cwnd_clamp sk ->
       snd_cwnd sk' = tcp_packets_in_flight sk + rs_acked_sacked rs).
Proof.
  intros g sk rs Hc Hca Hprev NF.
  destruct (cong_control_open g sk rs NF) as (w1 & nx & bwm & base & E & B & C).
  eexists _, _. split; [exact C|].
  apply Z.eqb_neq in Hc. apply Z.eqb_neq in Hprev.
  assert (S : snd_cwnd (cc_after g sk rs (set_ca w1 sk) nx bwm base) =
              Z.min (u32 (tcp_packets_in_flight sk + rs_acked_sacked rs))
                    (snd_cwnd_clamp sk)).
  { clear E B C. after_open g w1 bwm.
    rewrite Hc, Hca, Hprev, Z.eqb_refl. rec_simpl.
    unfold tcp_packets_in_flight. rec_simpl. destruct nx; rec_simpl;
      rewrite u32_max_self; reflexivity. }
  split; [exact S|]. split; [|split].
  - clear E B C S. after_open g w1 bwm.
    rewrite Hc, Hca, Hprev, Z.eqb_refl. rec_simpl. destruct nx; reflexivity.
  - clear E B C S. after_open g w1 bwm.
    rewrite Hc, Hca, Hprev, Z.eqb_refl. rec_simpl. destruct nx; reflexivity.
  - intros R L. rewrite S, u32_small by exact R. lia.
Qed.

(** C9.  With conservative mode enabled, a call that finds the congestion
    state below Recovery when the previous call saw Recovery or worse: sets
    the window to the larger of [prior_cwnd] and packets in flight plus
    acked+SACKed (capped at [snd_cwnd_clamp] like every call), sets the
    phase to PROBE_UP with gain 320 and clears [packet_conservation]. *)
Theorem recovery_exit_edge :
  forall g sk rs,
    conservation g <> 0 ->
    u8 (prev_ca_state (inet_csk_ca sk)) >= TCP_CA_Recovery ->
    u8 (icsk_ca_state sk) < TCP_CA_Recovery ->
    no_fault sk rs ->
    exists g' sk',
      tcp_caohejing_cong_control g sk rs = Ok (g', sk') /\
      snd_cwnd sk' =
        Z.min (Z.max (prior_cwnd (inet_csk_ca sk))
                     (u32 (tcp_packets_in_flight sk + rs_acked_sacked rs)))
              (snd_cwnd_clamp sk) /\
      state (inet_csk_ca sk') = UP /\
      gain (inet_csk_ca sk') = 320 /\
      packet_conservation (inet_csk_ca sk') = 0 /\
      (is_u32 (tcp_packets_in_flight sk + rs_acked_sacked rs) ->
       Z.max (prior_cwnd (inet_csk_ca sk))
             (tcp_packets_in_flight sk + rs_acked_sacked rs)
         <= snd_cwnd_clamp sk ->
       snd_cwnd sk' =
         Z.max (prior_cwnd (inet_csk_ca sk))
               (tcp_packets_in_flight sk + rs_acked_sacked rs)).
Proof.
  intros g sk rs Hc Hprev Hca NF.
  destruct (cong_control_open g sk rs NF) as (w1 & nx & bwm & base & E & B & C).
  eexists _, _. split; [exact C|].
  destruct (cc_estimate_frame _ _ _ _ _ E) as (_ & _ & _ & _ & _ & Fp & _).
  unfold inet_csk_ca in Fp; rec_simpl.
  apply Z.eqb_neq in Hc.
  assert (Hne : (u8 (icsk_ca_state sk) =? TCP_CA_Recovery) = false)
    by (apply Z.eqb_neq; lia).
  apply Z.ge_le, Z.geb_le in Hprev. apply Z.ltb_lt in Hca.
  assert (S : snd_cwnd (cc_after g sk rs (set_ca w1 sk) nx bwm base) =
              Z.min (Z.max (prior_cwnd (inet_csk_ca sk))
                       (u32 (tcp_packets_in_flight sk + rs_acked_sacked rs)))
                    (snd_cwnd_clamp sk)).
  { clear E B C. after_open g w1 bwm. rewrite Hc, Hne, Hprev, Hca. rec_simpl.
    unfold tcp_packets_in_flight. rec_simpl.
    destruct nx; rec_simpl; rewrite Fp; reflexivity. }
  split; [exact S|].
  split; [|split; [|split]];
    try (clear E B C S; after_open g w1 bwm;
         rewrite Hc, Hne, Hprev, Hca; rec_simpl; destruct nx; reflexivity).
  intros R L. rewrite S, u32_small by exact R. lia.
Qed.

(** ** The pacing rate *)

Lemma shiftr_u64_is_u64 x n : 0 <= n -> is_u64 (Z.shiftr (u64 x) n).
Proof.
  intros Hn. pose proof (u64_is_u64 x) as R. unfold is_u64 in *.
  rewrite Z.shiftr_div_pow2 by exact Hn.
  assert (0 < 2 ^ n) by (apply Z.pow_pos_nonneg; lia).
  split; [apply Z.div_pos; lia|].
  apply Z.le_lt_trans with (u64 x); [|lia].
  apply Z.div_le_upper_bound; nia.
Qed.

Lemma caohejing_rate_bytes_per_sec_u64 sk rate gn :
  caohejing_rate_bytes_per_sec sk rate gn =
  spec_rate_bytes_per_sec_u64 rate (u32 (mss_cache sk)) gn.
Proof.
  unfold caohejing_rate_bytes_per_sec, spec_rate_bytes_per_sec_u64.
  replace (u64 (u64 (rate * u32 (mss_cache sk)) * gn))
    with (u64 (rate * u32 (mss_cache sk) * gn))
    by (unfold u64; now rewrite Z.mul_mod_idemp_l).
  reflexivity.
Qed.

Lemma spec_rate_bytes_per_sec_fits bwm mss gn :
  0 <= bwm * mss * gn ->
  Z.shiftr (bwm * mss * gn) 8 * (USEC_PER_SEC * 99 / 100)
    < 18446744073709551616 ->
  spec_rate_bytes_per_sec_u64 bwm mss gn = spec_rate_bytes_per_sec bwm mss gn.
Proof.
  intros Hp Hf. unfold spec_rate_bytes_per_sec_u64, spec_rate_bytes_per_sec.
  change (USEC_PER_SEC * 99 / 100) with 990000 in *.
  rewrite Z.shiftr_div_pow2 in Hf by lia. change (2 ^ 8) with 256 in Hf.
  assert (Hq : 0 <= bwm * mss * gn / 256) by (apply Z.div_pos; lia).
  assert (Hs : bwm * mss * gn < 18446744073709551616).
  { pose proof (Z.mul_div_le (bwm * mss * gn) 256 ltac:(lia)).
    pose proof (Z.mod_pos_bound (bwm * mss * gn) 256 ltac:(lia)).
    pose proof (Z.div_mod (bwm * mss * gn) 256 ltac:(lia)). lia. }
  rewrite (u64_small (bwm * mss * gn)) by (unfold is_u64; lia).
  rewrite u64_small; [reflexivity|].
  rewrite Z.shiftr_div_pow2 by lia. change (2 ^ 8) with 256.
  unfold is_u64. lia.
Qed.

Lemma cc_after_pacing_rate g sk rs w1 nx bwm base :
  sk_pacing_rate (cc_after g sk rs (set_ca w1 sk) nx bwm base) =
  caohejing_bw_to_pacing_rate sk bwm
    (gain (inet_csk_ca (cc_after g sk rs (set_ca w1 sk) nx bwm base))).
Proof.
  after_open g w1 bwm.
  unfold caohejing_bw_to_pacing_rate, caohejing_rate_bytes_per_sec.
  cc_cases; reflexivity.
Qed.

(** C10.  For every bandwidth [bw_max], gain and segment size the rate is
    [((bw_max * mss * gain) >> 8) * (USEC_PER_SEC * 99 / 100) >> 24] in the
    64-bit unsigned arithmetic of the code, which is the exact integer
    value whenever the product fits 64 bits; the pacing rate is that value
    capped at [sk_max_pacing_rate], and it is what a call stores, computed
    from the filter's maximum and the gain the call ends with. *)
Theorem pacing_rate_formula :
  forall sk bw_max gain_now,
    is_u32 bw_max -> is_s32 gain_now ->
    is_u32 (mss_cache sk) -> is_u64 (sk_max_pacing_rate sk) ->
    caohejing_rate_bytes_per_sec sk bw_max gain_now =
      spec_rate_bytes_per_sec_u64 bw_max (mss_cache sk) gain_now /\
    caohejing_bw_to_pacing_rate sk bw_max gain_now =
      Z.min (spec_rate_bytes_per_sec_u64 bw_max (mss_cache sk) gain_now)
            (sk_max_pacing_rate sk) /\
    (0 <= gain_now ->
     Z.shiftr (bw_max * mss_cache sk * gain_now) 8 * (USEC_PER_SEC * 99 / 100)
       < 18446744073709551616 ->
     caohejing_bw_to_pacing_rate sk bw_max gain_now =
       Z.min (spec_rate_bytes_per_sec bw_max (mss_cache sk) gain_now)
             (sk_max_pacing_rate sk)) /\
    (forall g rs g' sk',
       tcp_caohejing_cong_control g sk rs = Ok (g', sk') ->
       exists sk1 is_next bwm,
         cc_estimate sk rs = Ok (sk1, is_next, bwm) /\
         sk_pacing_rate sk' =
           caohejing_bw_to_pacing_rate sk bwm (gain (inet_csk_ca sk'))).
Proof.
  intros sk bwm gn Rb Rg Rm Rx.
  assert (E1 : caohejing_rate_bytes_per_sec sk bwm gn =
               spec_rate_bytes_per_sec_u64 bwm (mss_cache sk) gn).
  { rewrite caohejing_rate_bytes_per_sec_u64, (u32_small _ Rm). reflexivity. }
  assert (E2 : caohejing_bw_to_pacing_rate sk bwm gn =
               Z.min (spec_rate_bytes_per_sec_u64 bwm (mss_cache sk) gn)
                     (sk_max_pacing_rate sk)).
  { unfold caohejing_bw_to_pacing_rate.
    rewrite (u32_small _ Rb), (u64_small _ Rx).
    replace (s32 gn) with gn
      by (unfold_ints; symmetry; rewrite Z.mod_small; lia).
    rewrite E1. rewrite u64_small; [reflexivity|].
    unfold spec_rate_bytes_per_sec_u64. apply shiftr_u64_is_u64. lia. }
  split; [exact E1|]. split; [exact E2|]. split.
  - intros Hg Hf. rewrite E2, spec_rate_bytes_per_sec_fits; [reflexivity| |exact Hf].
    unfold_ints. apply Z.mul_nonneg_nonneg; [apply Z.mul_nonneg_nonneg|]; lia.
  - intros g rs g' sk' C.
    destruct (cong_control_inv _ _ _ _ _ C) as (sk1 & nx & bwm' & base & E & B & -> & ->).
    destruct (cc_estimate_host _ _ _ _ _ E) as (w1 & ->).
    exists (set_ca w1 sk), nx, bwm'. split; [exact E|].
    apply cc_after_pacing_rate.
Qed.

(** ** Ranges kept by every call *)

Lemma sample_ok_mk t v : sample_ok (Sample.mk (u32 t) (u32 v)).
Proof. split; apply u32_is_u32. Qed.

Lemma minmax_reset_ok m t meas : minmax_ok (minmax_reset m t meas).
Proof. repeat split; apply u32_is_u32. Qed.

Lemma minmax_running_max_ok m win t meas :
  minmax_ok m -> minmax_ok (minmax_running_max m win t meas).
Proof.
  intros (A & B & C).
  pose proof (sample_ok_mk t meas) as V.
  unfold minmax_running_max, minmax_subwin_update, minmax_reset.
  repeat break_if; cbn [s0 s1 s2]; unfold minmax_ok; cbn [s0 s1 s2]; auto.
Qed.

Lemma minmax_get_ok m : minmax_ok m -> is_u32 (minmax_get m).
Proof. intros ((_ & V) & _). exact V. Qed.

Lemma cc_estimate_ok sk rs sk1 is_next bwm :
  caohejing_ok (inet_csk_ca sk) ->
  cc_estimate sk rs = Ok (sk1, is_next, bwm) ->
  caohejing_ok (inet_csk_ca sk1) /\ is_u32 bwm.
Proof.
  intros (Rm & Rf & Rc & Rl) E.
  assert (K : caohejing_ok (inet_csk_ca sk1)).
  { revert E. cc_unfold. intros E.
    pose proof (u32_is_u32 (rs_rtt_us rs)) as Ru.
    cc_cases; inversion E; subst; unfold caohejing_ok; rec_simpl;
      repeat match goal with
             | |- _ /\ _ => split
             | |- minmax_ok (minmax_running_max _ _ _ _) =>
                 apply minmax_running_max_ok
             | |- is_u32 (minmax_get _) => apply minmax_get_ok
             end; auto. }
  split; [exact K|].
  apply cc_estimate_frame in E as (_ & -> & _).
  apply minmax_get_ok, K.
Qed.

Lemma cc_after_ok g sk0 rs sk1 nx bwm base :
  caohejing_ok (inet_csk_ca sk1) ->
  caohejing_ok (inet_csk_ca (cc_after g sk0 rs sk1 nx bwm base)).
Proof.
  intros (Rm & Rf & Rc & Rl). after_unfold.
  destruct (cc_gain_cycle_shape (start g) (icsk_ca_priv sk1) bwm)
    as (gn & st & G); rewrite G.
  unfold inet_csk_ca in *.
  cc_cases; unfold caohejing_ok; rec_simpl;
    (split; [|split; [|split]]); auto using minmax_reset_ok.
Qed.

Lemma cong_control_ok g sk rs g' sk' :
  caohejing_ok (inet_csk_ca sk) ->
  tcp_caohejing_cong_control g sk rs = Ok (g', sk') ->
  caohejing_ok (inet_csk_ca sk').
Proof.
  intros K C.
  destruct (cong_control_inv _ _ _ _ _ C) as (sk1 & nx & bwm & base & E & B & -> & ->).
  apply cc_after_ok. now apply (cc_estimate_ok _ _ _ _ _ K E).
Qed.

Lemma init_ok sk : caohejing_ok (inet_csk_ca (tcp_caohejing_init sk)).
Proof. cbn. unfold caohejing_ok, minmax_ok, sample_ok. cbn. unfold_ints. lia. Qed.

Lemma step_ok g sk e g' sk' :
  caohejing_ok (inet_csk_ca sk) -> step g sk e = Ok (g', sk') ->
  caohejing_ok (inet_csk_ca sk').
Proof.
  intros K. destruct e as [h| |n|rs|other rs]; cbn [step].
  - intros H; inversion H; subst. exact K.
  - intros H; inversion H; subst. exact K.
  - intros H; inversion H; subst. unfold tcp_caohejing_state.
    break_if; exact K.
  - now apply cong_control_ok.
  - destruct (tcp_caohejing_cong_control g other rs); cbn [bind];
      intros H; inversion H; subst. exact K.
Qed.

(** Every private area reached from [tcp_caohejing_init] is in range. *)
Lemma run_ok evs : forall g sk g' sk',
  caohejing_ok (inet_csk_ca sk) -> run g sk evs = Ok (g', sk') ->
  caohejing_ok (inet_csk_ca sk').
Proof.
  induction evs as [|e evs IH]; intros g sk g' sk' K; cbn [run].
  - intros H; inversion H; subst. exact K.
  - destruct (step g sk e) as [[g1 sk1]|f] eqn:S; cbn [bind fst snd];
      [|discriminate].
    intros H. eapply IH; [|exact H]. eapply step_ok; eauto.
Qed.

(** ** The base window *)

Lemma land_clear_bit0 y :
  is_u32 y -> Z.land y (u32 (Z.lnot 1)) = 2 * (y / 2).
Proof.
  intros R. change (u32 (Z.lnot 1)) with 4294967294. unfold is_u32 in R.
  apply Z.bits_inj'. intros n Hn.
  rewrite Z.land_spec.
  destruct (Z.eq_dec n 0) as [->|Hz].
  - rewrite Z.testbit_even_0. apply andb_false_r.
  - replace (Z.testbit (2 * (y / 2)) n) with (Z.testbit y n).
    2:{ replace n with (Z.succ (n - 1)) at 2 by lia.
        rewrite Z.testbit_even_succ by lia.
        rewrite <- Z.div2_div, Z.div2_spec, Z.shiftr_spec by lia.
        f_equal. lia. }
    destruct (Z.ltb_spec n 32).
    + change 4294967294 with (Z.shiftl (Z.ones 31) 1).
      rewrite Z.shiftl_spec, Z.ones_spec_low by lia. apply andb_true_r.
    + rewrite <- (Z.mod_small y (2 ^ 32))
        by (change (2 ^ 32) with 4294967296; lia).
      rewrite Z.mod_pow2_bits_high by lia. reflexivity.
Qed.

Lemma land_mask_even a : Z.even (Z.land a (u32 (Z.lnot 1))) = true.
Proof.
  change (u32 (Z.lnot 1)) with 4294967294.
  rewrite <- Z.negb_odd, <- Z.bit0_odd, Z.land_spec.
  change (Z.testbit 4294967294 0) with false. now rewrite andb_false_r.
Qed.

(** Line 198 always leaves an even number. *)
Lemma cc_base_cwnd_even sk bwm base :
  cc_base_cwnd sk bwm = Ok base -> Z.even base = true.
Proof.
  unfold cc_base_cwnd. destruct (caohejing_tso_segs_goal sk); cbn [bind];
    [|discriminate].
  intros H.
  apply (f_equal (fun r => match r with Ok b => Z.even b | Fault _ => true end))
    in H.
  cbv beta iota in H. rewrite <- H. apply land_mask_even.
Qed.


Lemma round_up_even_ge x : x <= round_up_even x <= x + 1.
Proof. unfold round_up_even. Z.div_mod_to_equations. lia. Qed.

Lemma ceil_div_bw_unit_bound bdp :
  0 <= bdp <= max_exact_bdp -> 0 <= ceil_div bdp BW_UNIT <= 4294966913.
Proof.
  unfold max_exact_bdp, ceil_div. change BW_UNIT with 16777216.
  intros R. Z.div_mod_to_equations. lia.
Qed.

(** Lines 195-198 without wrap-around: the window at unit gain. *)
Lemma cc_base_cwnd_exact sk bwm segs :
  caohejing_tso_segs_goal sk = Ok segs -> 1 <= segs <= 127 ->
  is_u32 bwm -> is_u32 (min_rtt_us (inet_csk_ca sk)) ->
  bwm * min_rtt_us (inet_csk_ca sk) <= max_exact_bdp ->
  cc_base_cwnd sk bwm =
  Ok (unit_gain_base_cwnd bwm (min_rtt_us (inet_csk_ca sk)) segs).
Proof.
  intros T Rs Rb Rm Hb. unfold cc_base_cwnd. rewrite T. cbn [bind]. f_equal.
  set (m := min_rtt_us (inet_csk_ca sk)) in *.
  assert (P : 0 <= bwm * m) by (unfold is_u32 in *; nia).
  pose proof (ceil_div_bw_unit_bound (bwm * m) (conj P Hb)) as C.
  unfold max_exact_bdp in Hb. unfold unit_gain_base_cwnd, ceil_div in *.
  change BW_UNIT with 16777216 in *. change CAL_UNIT with 256.
  change CAL_SCALE with 8. change (u32 2) with 2.
  rewrite (u64_small bwm) by (apply is_u32_is_u64; exact Rb).
  rewrite (u64_small (bwm * m)) by (unfold is_u64; lia).
  rewrite (u64_small (bwm * m * 256)) by (unfold is_u64; lia).
  rewrite Z.shiftr_div_pow2 by lia. change (2 ^ 8) with 256.
  rewrite Z.div_mul by lia.
  rewrite (u64_small (bwm * m + 16777216 - 1)) by (unfold is_u64; lia).
  set (c := (bwm * m + 16777216 - 1) / 16777216) in *.
  rewrite (u32_small c) by (unfold is_u32; lia).
  rewrite (u32_small (3 * segs)) by (unfold is_u32; lia).
  rewrite (u32_small (Z.max 2 c + 3 * segs)) by (unfold is_u32; lia).
  rewrite (u32_small (Z.max 2 c + 3 * segs + 1)) by (unfold is_u32; lia).
  rewrite land_clear_bit0 by (unfold is_u32; lia).
  reflexivity.
Qed.


(** When lines 207-228 leave the socket alone, the stored window is the
    base window under the cap. *)
Lemma cc_after_quiet_cwnd g sk rs w1 nx bwm base :
  recovery_quiet g sk = true ->
  packet_conservation w1 = packet_conservation (inet_csk_ca sk) ->
  snd_cwnd (cc_after g sk rs (set_ca w1 sk) nx bwm base) =
  Z.min base (snd_cwnd_clamp sk).
Proof.
  intros Q Fp. unfold recovery_quiet, recovery_entry, recovery_exit in Q.
  after_open g w1 bwm.
  destruct (conservation g =? 0) eqn:Hc.
  - destruct nx; reflexivity.
  - cbn [orb] in Q. apply andb_true_iff in Q as (Q & Q3).
    apply andb_true_iff in Q as (Q1 & Q2).
    apply negb_true_iff in Q1, Q2, Q3.
    rewrite Q1, Q2. destruct nx; rec_simpl; rewrite Fp, Q3; reflexivity.
Qed.

Lemma caohejing_tso_segs_goal_range sk segs :
  caohejing_tso_segs_goal sk = Ok segs -> 1 <= segs <= 127.
Proof.
  unfold caohejing_tso_segs_goal.
  destruct (shr64 _ _); cbn [bind]; [|discriminate].
  destruct (udiv32 _ _); cbn [bind]; [|discriminate].
  intros H; inversion H; subst.
  pose proof (caohejing_min_tso_segs_range sk) as R.
  rewrite (u32_small (caohejing_min_tso_segs sk)) by (unfold_ints; lia).
  lia.
Qed.

Lemma cong_control_quiet g sk rs sk1 nx bwm base :
  cc_estimate sk rs = Ok (sk1, nx, bwm) ->
  cc_base_cwnd sk1 bwm = Ok base ->
  recovery_quiet g sk = true ->
  exists g' sk',
    tcp_caohejing_cong_control g sk rs = Ok (g', sk') /\
    snd_cwnd sk' = Z.min base (snd_cwnd_clamp sk).
Proof.
  intros E B Q. rewrite cong_control_eq, E. cbn [bind]. rewrite B. cbn [bind].
  eexists _, _. split; [reflexivity|].
  destruct (cc_estimate_frame _ _ _ _ _ E) as (_ & _ & _ & _ & Fp & _).
  destruct (cc_estimate_host _ _ _ _ _ E) as (w1 & ->).
  apply cc_after_quiet_cwnd; assumption.
Qed.

(** C1, as the code has it.  After the gain step the base window is
    computed at unit gain, whatever the current gain: with [bwm] the
    filter's maximum and [bdp = bwm * min_rtt_us] it is
    [max(2, ceil(bdp / BW_UNIT))] plus three TSO goals, rounded up to an
    even number (for a product that does not wrap the 32-bit window); it
    is the window the call stores, under the cap, when lines 207-228 are
    idle. *)
Theorem base_cwnd_at_unit_gain :
  forall g sk rs sk1 is_next bwm segs,
    caohejing_ok (inet_csk_ca sk) ->
    cc_estimate sk rs = Ok (sk1, is_next, bwm) ->
    caohejing_tso_segs_goal sk = Ok segs ->
    bwm * min_rtt_us (inet_csk_ca sk1) <= max_exact_bdp ->
    bwm = minmax_get (bw (inet_csk_ca sk1)) /\
    (let w := cc_gain_cycle (start g) (inet_csk_ca sk1) bwm in
     cc_base_cwnd (set_ca w sk1) bwm =
     Ok (unit_gain_base_cwnd bwm (min_rtt_us (inet_csk_ca sk1)) segs)) /\
    (recovery_quiet g sk = true ->
     exists g' sk',
       tcp_caohejing_cong_control g sk rs = Ok (g', sk') /\
       snd_cwnd sk' =
         Z.min (unit_gain_base_cwnd bwm (min_rtt_us (inet_csk_ca sk1)) segs)
               (snd_cwnd_clamp sk)).
Proof.
  intros g sk rs sk1 nx bwm segs K E T Hb.
  destruct (cc_estimate_ok _ _ _ _ _ K E) as ((Rm & _) & Rb).
  pose proof (caohejing_tso_segs_goal_range _ _ T) as Rs.
  destruct (cc_estimate_frame _ _ _ _ _ E) as (F & Fb & _).
  assert (T1 : caohejing_tso_segs_goal sk1 = Ok segs) by (rewrite F; exact T).
  pose proof (cc_base_cwnd_exact sk1 bwm segs T1 Rs Rb Rm Hb) as B.
  split; [exact Fb|]. split.
  - cbv zeta. rewrite cc_base_cwnd_host by apply cc_gain_cycle_min_rtt.
    exact B.
  - intros Q. exact (cong_control_quiet g sk rs sk1 nx bwm _ E B Q).
Qed.


(** ** The bandwidth pair *)

Lemma cc_after_bw_pair g sk0 rs sk1 nx bwm base :
  curr_bw (inet_csk_ca (cc_after g sk0 rs sk1 nx bwm base)) =
    curr_bw (inet_csk_ca sk1) /\
  last_bw (inet_csk_ca (cc_after g sk0 rs sk1 nx bwm base)) =
    last_bw (inet_csk_ca sk1).
Proof.
  after_unfold.
  destruct (cc_gain_cycle_shape (start g) (icsk_ca_priv sk1) bwm)
    as (gn & st & G); rewrite G.
  cc_cases; split; reflexivity.
Qed.

Lemma cc_estimate_bw_pair sk rs sk1 nx bwm :
  cc_estimate sk rs = Ok (sk1, nx, bwm) ->
  exists sample,
    cc_sample_bw rs = Ok sample /\
    nx = (cycle_mstamp (inet_csk_ca sk) =? 0)
         || (tcp_stamp_us_delta (delivered_mstamp sk)
               (cycle_mstamp (inet_csk_ca sk))
             >? min_rtt_us (inet_csk_ca sk1)) /\
    curr_bw (inet_csk_ca sk1) =
      (if nx || (sample >? minmax_get (bw (inet_csk_ca sk)))
       then bwm else curr_bw (inet_csk_ca sk)) /\
    last_bw (inet_csk_ca sk1) =
      (if nx
       then if sample >? minmax_get (bw (inet_csk_ca sk))
            then bwm else curr_bw (inet_csk_ca sk)
       else last_bw (inet_csk_ca sk)).
Proof.
  cc_unfold. intros H.
  destruct (u32 (rs_interval_us rs) =? 0) eqn:Hi; cbn [bind] in *;
    [discriminate|].
  eexists. split; [reflexivity|]. cbv beta zeta in *.
  cc_cases; inversion H; subst; rec_simpl; try congruence;
    repeat match goal with
           | Hb : _ = true |- _ => rewrite Hb
           | Hb : _ = false |- _ => rewrite Hb
           end; cbn [orb]; repeat split; reflexivity.
Qed.

(** C5, as the code has it.  [last_bw] is written at window boundaries
    only; [curr_bw] is written at window boundaries and, besides, by line
    165 whenever the sample's bandwidth exceeds the filter's maximum, at a
    boundary or not.  [is_next] is the boundary test: no window started
    yet, or more than [min_rtt_us] elapsed since [cycle_mstamp]. *)
Theorem bw_pair_writes :
  forall g sk rs g' sk' sk1 is_next bwm,
    tcp_caohejing_cong_control g sk rs = Ok (g', sk') ->
    cc_estimate sk rs = Ok (sk1, is_next, bwm) ->
    exists sample,
      cc_sample_bw rs = Ok sample /\
      is_next = (cycle_mstamp (inet_csk_ca sk) =? 0)
                || (tcp_stamp_us_delta (delivered_mstamp sk)
                      (cycle_mstamp (inet_csk_ca sk))
                    >? min_rtt_us (inet_csk_ca sk')) /\
      last_bw (inet_csk_ca sk') =
        (if is_next
         then if sample >? minmax_get (bw (inet_csk_ca sk))
              then bwm else curr_bw (inet_csk_ca sk)
         else last_bw (inet_csk_ca sk)) /\
      curr_bw (inet_csk_ca sk') =
        (if is_next || (sample >? minmax_get (bw (inet_csk_ca sk)))
         then bwm else curr_bw (inet_csk_ca sk)).
Proof.
  intros g sk rs g' sk' sk1 nx bwm C E.
  destruct (cong_control_inv _ _ _ _ _ C) as (sk1' & nx' & bwm' & base & E' & B & -> & ->).
  rewrite E in E'. inversion E'; subst sk1' nx' bwm'.
  destruct (cc_estimate_bw_pair _ _ _ _ _ E) as (sample & S & N & Cu & La).
  destruct (cc_after_bw_pair g sk rs sk1 nx bwm base) as (Fc & Fl).
  exists sample. rewrite Fc, Fl, cc_after_min_rtt. auto.
Qed.

(** ** The gain cycle *)

Lemma cc_gain_switch_rule w bwm :
  is_u32 bwm -> is_u32 (last_bw w) -> state w = UP \/ state w = DOWN ->
  (state (cc_gain_switch w bwm), gain (cc_gain_switch w bwm)) =
  spec_gain_rule (state w) bwm (last_bw w).
Proof.
  intros Rb Rl S. unfold cc_gain_switch, spec_gain_rule.
  rewrite (u64_small (20 * bwm)), (u64_small (21 * last_bw w)),
    (u64_small (19 * last_bw w)) by (unfold_ints; lia).
  destruct S as [S|S]; rewrite S.
  - change (UP =? UP) with true. cbv iota.
    destruct (20 * bwm >? 21 * last_bw w); rec_simpl; rewrite ?S; reflexivity.
  - change (DOWN =? UP) with false. change (DOWN =? DOWN) with true. cbv iota.
    destruct (19 * last_bw w >? 20 * bwm); rec_simpl; rewrite ?S; reflexivity.
Qed.

(** When lines 207-228 leave the socket alone, a call ends with the gain
    and the phase that lines 171-193 gave it. *)
Lemma cc_after_quiet_gain g sk rs w1 nx bwm base :
  recovery_quiet g sk = true ->
  packet_conservation w1 = packet_conservation (inet_csk_ca sk) ->
  gain (inet_csk_ca (cc_after g sk rs (set_ca w1 sk) nx bwm base)) =
    gain (cc_gain_cycle (start g) w1 bwm) /\
  state (inet_csk_ca (cc_after g sk rs (set_ca w1 sk) nx bwm base)) =
    state (cc_gain_cycle (start g) w1 bwm).
Proof.
  intros Q Fp. unfold recovery_quiet, recovery_entry, recovery_exit in Q.
  after_open g w1 bwm.
  destruct (conservation g =? 0) eqn:Hc.
  - destruct nx; split; reflexivity.
  - cbn [orb] in Q. apply andb_true_iff in Q as (Q & Q3).
    apply andb_true_iff in Q as (Q1 & Q2).
    apply negb_true_iff in Q1, Q2, Q3.
    rewrite Q1, Q2. destruct nx; rec_simpl; rewrite Fp, Q3; split; reflexivity.
Qed.

Lemma cong_control_quiet_gain g sk rs g' sk' :
  tcp_caohejing_cong_control g sk rs = Ok (g', sk') ->
  recovery_quiet g sk = true ->
  exists sk1 nx bwm,
    cc_estimate sk rs = Ok (sk1, nx, bwm) /\
    gain (inet_csk_ca sk') = gain (cc_gain_cycle (start g) (inet_csk_ca sk1) bwm) /\
    state (inet_csk_ca sk') = state (cc_gain_cycle (start g) (inet_csk_ca sk1) bwm).
Proof.
  intros C Q.
  destruct (cong_control_inv _ _ _ _ _ C) as (sk1 & nx & bwm & base & E & B & -> & ->).
  destruct (cc_estimate_frame _ _ _ _ _ E) as (_ & _ & _ & _ & Fp & _).
  destruct (cc_estimate_host _ _ _ _ _ E) as (w1 & ->).
  exists (set_ca w1 sk), nx, bwm. split; [exact E|].
  apply cc_after_quiet_gain; assumption.
Qed.

(** C6, as the code has it.  After warm-up (the static counter above 3)
    the gain step is the rule of the specification with the filter's
    maximum [bwm], read after the boundary test, in the place of
    [curr_bw]: in PROBE_UP, [20 * bwm > 21 * last_bw] keeps PROBE_UP at
    320 and anything else gives DRAIN_DOWN at 192; in DRAIN_DOWN,
    [19 * last_bw > 20 * bwm] gives PROBE_UP at 320 and anything else
    keeps DRAIN_DOWN at 192.  With lines 207-228 idle this is the phase
    and gain the call ends with. *)
Theorem gain_rule_compares_filter_max :
  forall g sk rs sk1 is_next bwm,
    caohejing_ok (inet_csk_ca sk) ->
    3 < start g ->
    state (inet_csk_ca sk) = UP \/ state (inet_csk_ca sk) = DOWN ->
    cc_estimate sk rs = Ok (sk1, is_next, bwm) ->
    bwm = minmax_get (bw (inet_csk_ca sk1)) /\
    (let w := cc_gain_cycle (start g) (inet_csk_ca sk1) bwm in
     (state w, gain w) =
     spec_gain_rule (state (inet_csk_ca sk)) bwm (last_bw (inet_csk_ca sk1))) /\
    (forall g' sk',
       recovery_quiet g sk = true ->
       tcp_caohejing_cong_control g sk rs = Ok (g', sk') ->
       (state (inet_csk_ca sk'), gain (inet_csk_ca sk')) =
       spec_gain_rule (state (inet_csk_ca sk)) bwm (last_bw (inet_csk_ca sk1))).
Proof.
  intros g sk rs sk1 nx bwm K Hs S E.
  destruct (cc_estimate_ok _ _ _ _ _ K E) as ((_ & _ & _ & Rl) & Rb).
  destruct (cc_estimate_frame _ _ _ _ _ E) as (_ & Fb & _ & Fs & _).
  assert (R : (state (cc_gain_cycle (start g) (inet_csk_ca sk1) bwm),
               gain (cc_gain_cycle (start g) (inet_csk_ca sk1) bwm)) =
              spec_gain_rule (state (inet_csk_ca sk)) bwm
                (last_bw (inet_csk_ca sk1))).
  { unfold cc_gain_cycle.
    replace (start g >? 3) with true by (symmetry; apply Z.gtb_lt; lia).
    rewrite <- Fs. apply cc_gain_switch_rule; [exact Rb|exact Rl|].
    rewrite Fs. exact S. }
  split; [exact Fb|]. split; [exact R|].
  intros g' sk' Q C.
  destruct (cong_control_quiet_gain _ _ _ _ _ C Q) as (sk1' & nx' & bwm' & E' & Gg & Gs).
  rewrite E in E'. inversion E'; subst sk1' nx' bwm'.
  rewrite Gg, Gs. exact R.
Qed.

(** ** The warm-up counter *)

Lemma cong_control_statics g sk rs g' sk' :
  tcp_caohejing_cong_control g sk rs = Ok (g', sk') ->
  start g' = s32 (start g + 1) /\ conservation g' = conservation g /\
  debug g' = debug g.
Proof.
  intros C.
  destruct (cong_control_inv _ _ _ _ _ C) as (? & ? & ? & ? & _ & _ & -> & _).
  repeat split.
Qed.

Lemma cong_control_calls_cons g sk0 rs0 calls g' outs :
  cong_control_calls g ((sk0, rs0) :: calls) = Ok (g', outs) ->
  exists g1 sk1 outs1,
    tcp_caohejing_cong_control g sk0 rs0 = Ok (g1, sk1) /\
    cong_control_calls g1 calls = Ok (g', outs1) /\
    outs = sk1 :: outs1.
Proof.
  cbn [cong_control_calls].
  destruct (tcp_caohejing_cong_control g sk0 rs0) as [[g1 sk1]|f];
    cbn [bind fst snd]; [|discriminate].
  destruct (cong_control_calls g1 calls) as [[g2 outs2]|f] eqn:R2;
    cbn [bind fst snd]; [|discriminate].
  intros R; inversion R; subst. now exists g1, sk1, outs2.
Qed.

(** The counter after a sequence of calls is the number of calls. *)
Lemma cong_control_calls_start calls : forall g g' outs,
  0 <= start g ->
  start g + Z.of_nat (length calls) < 2147483648 ->
  cong_control_calls g calls = Ok (g', outs) ->
  start g' = start g + Z.of_nat (length calls).
Proof.
  induction calls as [|[sk0 rs0] calls IH]; intros g g' outs P L R.
  - inversion R; subst. cbn. lia.
  - apply cong_control_calls_cons in R as (g1 & sk1 & outs1 & C & R & ->).
    cbn [length] in *.
    destruct (cong_control_statics _ _ _ _ _ C) as (S1 & _).
    assert (S1' : start g1 = start g + 1)
      by (rewrite S1; unfold s32; rewrite Z.mod_small; lia).
    assert (L1 : start g1 + Z.of_nat (length calls) < 2147483648) by lia.
    pose proof (IH g1 g' outs1 ltac:(lia) L1 R). lia.
Qed.

(** The [n]-th call of a sequence runs with the counter at [start + n]. *)
Lemma cong_control_calls_nth calls : forall g g' outs n sk rs sk',
  0 <= start g ->
  start g + Z.of_nat (length calls) < 2147483648 ->
  cong_control_calls g calls = Ok (g', outs) ->
  nth_error calls n = Some (sk, rs) ->
  nth_error outs n = Some sk' ->
  exists gn gn',
    start gn = start g + Z.of_nat n /\
    conservation gn = conservation g /\
    tcp_caohejing_cong_control gn sk rs = Ok (gn', sk').
Proof.
  induction calls as [|[sk0 rs0] calls IH];
    intros g g' outs n sk rs sk' P L R Nc No.
  - destruct n; discriminate.
  - apply cong_control_calls_cons in R as (g1 & sk1 & outs1 & C & R & ->).
    cbn [length] in L.
    destruct (cong_control_statics _ _ _ _ _ C) as (S1 & C1 & _).
    assert (S1' : start g1 = start g + 1)
      by (rewrite S1; unfold s32; rewrite Z.mod_small; lia).
    destruct n as [|n]; cbn [nth_error] in Nc, No.
    + inversion Nc; inversion No; subst.
      exists g, g1. repeat split; [lia|exact C].
    + destruct (IH g1 g' outs1 n sk rs sk') as (gn & gn' & Sn & Cn & Cc);
        try assumption; try lia.
      exists gn, gn'. repeat split; [lia|congruence|exact Cc].
Qed.

Lemma recovery_quiet_statics g1 g2 sk :
  conservation g1 = conservation g2 ->
  recovery_quiet g1 sk = recovery_quiet g2 sk.
Proof. intros H. unfold recovery_quiet. now rewrite H. Qed.

Lemma s32_is_s32 x : is_s32 (s32 x).
Proof.
  unfold is_s32, s32.
  pose proof (Z.mod_pos_bound (x + 2147483648) 4294967296 ltac:(lia)). lia.
Qed.

Lemma s32_small x : is_s32 x -> s32 x = x.
Proof.
  unfold is_s32, s32. intros R.
  rewrite (Z.mod_small (x + 2147483648)) by lia. lia.
Qed.

Lemma s32_add_idem_l a b : s32 (s32 a + b) = s32 (a + b).
Proof.
  unfold s32. f_equal.
  replace ((a + 2147483648) mod 4294967296 - 2147483648 + b + 2147483648)
    with ((a + 2147483648) mod 4294967296 + b) by lia.
  rewrite Zplus_mod_idemp_l. f_equal. lia.
Qed.

(** The counter after a sequence of calls of any length: the number of
    calls, wrapped to 32 signed bits by the increments. *)
Lemma cong_control_calls_start_wraps calls : forall g g' outs,
  is_s32 (start g) ->
  cong_control_calls g calls = Ok (g', outs) ->
  start g' = s32 (start g + Z.of_nat (length calls)).
Proof.
  induction calls as [|[sk0 rs0] calls IH]; intros g g' outs P R.
  - inversion R; subst. cbn [length Z.of_nat]. rewrite Z.add_0_r.
    symmetry. now apply s32_small.
  - apply cong_control_calls_cons in R as (g1 & sk1 & outs1 & C & R & ->).
    destruct (cong_control_statics _ _ _ _ _ C) as (S1 & _).
    assert (P1 : is_s32 (start g1)) by (rewrite S1; apply s32_is_s32).
    rewrite (IH g1 g' outs1 P1 R), S1, s32_add_idem_l.
    f_equal. cbn [length]. lia.
Qed.

(** The [n]-th call of a sequence of any length runs with the counter at
    [start + n], wrapped to 32 signed bits. *)
Lemma cong_control_calls_nth_wraps calls : forall g g' outs n sk rs sk',
  is_s32 (start g) ->
  cong_control_calls g calls = Ok (g', outs) ->
  nth_error calls n = Some (sk, rs) ->
  nth_error outs n = Some sk' ->
  exists gn gn',
    start gn = s32 (start g + Z.of_nat n) /\
    conservation gn = conservation g /\
    tcp_caohejing_cong_control gn sk rs = Ok (gn', sk').
Proof.
  induction calls as [|[sk0 rs0] calls IH];
    intros g g' outs n sk rs sk' P R Nc No.
  - destruct n; discriminate.
  - apply cong_control_calls_cons in R as (g1 & sk1 & outs1 & C & R & ->).
    destruct (cong_control_statics _ _ _ _ _ C) as (S1 & C1 & _).
    assert (P1 : is_s32 (start g1)) by (rewrite S1; apply s32_is_s32).
    destruct n as [|n]; cbn [nth_error] in Nc, No.
    + inversion Nc; inversion No; subst.
      exists g, g1. split; [|split; [reflexivity|exact C]].
      cbn [Z.of_nat]. rewrite Z.add_0_r. symmetry. now apply s32_small.
    + destruct (IH g1 g' outs1 n sk rs sk' P1 R Nc No)
        as (gn & gn' & Sn & Cn & Cc).
      exists gn, gn'. split; [|split; [congruence|exact Cc]].
      rewrite Sn, S1, s32_add_idem_l. f_equal. lia.
Qed.

(** C3, as the code has it.  The static counter starts at 0 and goes up
    by one per call whatever the socket; it is a signed 32-bit [int] that
    is never reset, so the call number [n + 1] the module serves runs with
    the counter at [n] wrapped to 32 signed bits, for sequences of any
    length.  The gain switch runs when the counter exceeds 3.  Hence the
    warm-up is the first four calls, all sockets together; from the fifth
    call to call number [2^31] the switch runs; then the counter has
    wrapped to [-2^31] and calls number [2^31 + 1] to [2^32 + 4] skip the
    switch again.  A call that skips it has lines 171-193 change
    nothing; so, with lines 207-228 idle, it leaves gain and phase as
    they were (320 and PROBE_UP after [tcp_caohejing_init]), and a call
    that runs it ends with the gain and phase the switch gives. *)
Theorem warm_up_is_four_calls :
  forall g calls g' outs n sk rs sk',
    start g = 0 ->
    cong_control_calls g calls = Ok (g', outs) ->
    nth_error calls n = Some (sk, rs) ->
    nth_error outs n = Some sk' ->
    let counter := s32 (Z.of_nat n) in
    start g' = s32 (Z.of_nat (length calls)) /\
    (Z.of_nat n < 2147483648 ->
     counter = Z.of_nat n /\ (counter >? 3) = negb (n <? 4)%nat) /\
    (2147483648 <= Z.of_nat n < 4294967296 + 4 -> (counter >? 3) = false) /\
    (exists gn gn',
       start gn = counter /\
       tcp_caohejing_cong_control gn sk rs = Ok (gn', sk') /\
       forall w b,
         cc_gain_cycle (start gn) w b =
         if counter >? 3 then cc_gain_switch w b else w) /\
    (recovery_quiet g sk = true ->
     if counter >? 3 then
       exists sk1 is_next bwm,
         cc_estimate sk rs = Ok (sk1, is_next, bwm) /\
         gain (inet_csk_ca sk') = gain (cc_gain_switch (inet_csk_ca sk1) bwm) /\
         state (inet_csk_ca sk') = state (cc_gain_switch (inet_csk_ca sk1) bwm)
     else
       gain (inet_csk_ca sk') = gain (inet_csk_ca sk) /\
       state (inet_csk_ca sk') = state (inet_csk_ca sk)).
Proof.
  intros g calls g' outs n sk rs sk' S0 R Nc No. cbv zeta.
  assert (P : is_s32 (start g)) by (rewrite S0; unfold is_s32; lia).
  split.
  { rewrite (cong_control_calls_start_wraps calls g g' outs P R), S0.
    reflexivity. }
  split.
  { intros B. rewrite s32_small by (unfold is_s32; lia). split; [reflexivity|].
    destruct (Nat.ltb_spec n 4) as [Hn|Hn]; cbn [negb].
    - rewrite Z.gtb_ltb. apply Z.ltb_ge. lia.
    - apply Z.gtb_lt. lia. }
  split.
  { intros B. rewrite Z.gtb_ltb. apply Z.ltb_ge. unfold s32.
    replace (Z.of_nat n + 2147483648)
      with (Z.of_nat n - 2147483648 + 1 * 4294967296) by lia.
    rewrite Z.mod_add by lia.
    rewrite Z.mod_small by lia. lia. }
  destruct (cong_control_calls_nth_wraps calls g g' outs n sk rs sk' P R Nc No)
    as (gn & gn' & Sn & Cn & C).
  rewrite S0, Z.add_0_l in Sn.
  assert (G : forall w b,
             cc_gain_cycle (start gn) w b =
             if s32 (Z.of_nat n) >? 3 then cc_gain_switch w b else w).
  { intros w b. unfold cc_gain_cycle. rewrite Sn. reflexivity. }
  split.
  { exists gn, gn'. split; [exact Sn|]. split; [exact C|exact G]. }
  intros Q. rewrite (recovery_quiet_statics g gn sk) in Q by congruence.
  destruct (cong_control_quiet_gain _ _ _ _ _ C Q) as (sk1 & nx & bwm & E & Gg & Gs).
  destruct (cc_estimate_frame _ _ _ _ _ E) as (_ & _ & Fg & Fs & _).
  rewrite G in Gg, Gs. destruct (s32 (Z.of_nat n) >? 3).
  - exists sk1, nx, bwm. auto.
  - split; congruence.
Qed.

(** ** Further properties of the callbacks and of a call *)

Lemma cc_base_cwnd_inv sk bwm base :
  cc_base_cwnd sk bwm = Ok base -> u32 (mss_cache sk) <> 0.
Proof.
  unfold cc_base_cwnd, caohejing_tso_segs_goal, shr64, udiv32.
  destruct ((0 <=? sk_pacing_shift sk) && (sk_pacing_shift sk <? 64));
    cbn [bind]; [|discriminate].
  destruct (u32 (mss_cache sk) =? 0) eqn:M; cbn [bind]; [discriminate|].
  intros _. now apply Z.eqb_neq in M.
Qed.

(** With a pacing shift below 64, a segment size of zero stops the call
    at the division of line 138. *)
Lemma cong_control_traps_mss g sk rs :
  0 <= sk_pacing_shift sk < 64 ->
  u32 (rs_interval_us rs) <> 0 ->
  u32 (mss_cache sk) = 0 ->
  tcp_caohejing_cong_control g sk rs = Fault DivideByZero.
Proof.
  intros Hs Hi Hm. rewrite cong_control_eq.
  destruct (cc_estimate_returns sk rs Hi) as (sk1 & nx & bwm & E).
  rewrite E. cbn [bind].
  destruct (cc_estimate_frame _ _ _ _ _ E) as (F & _).
  unfold cc_base_cwnd, caohejing_tso_segs_goal, shr64, udiv32.
  rewrite F. change (sk_pacing_shift (set_ca ?w sk)) with (sk_pacing_shift sk).
  change (mss_cache (set_ca ?w sk)) with (mss_cache sk).
  replace ((0 <=? sk_pacing_shift sk) && (sk_pacing_shift sk <? 64)) with true
    by (symmetry; apply andb_true_iff; split; [apply Z.leb_le|apply Z.ltb_lt]; lia).
  cbn [bind]. apply Z.eqb_eq in Hm. rewrite Hm. reflexivity.
Qed.

(** X2.  For a pacing shift below 64, where the shift of line 137 is
    defined: a call returns a result exactly when neither of its two
    divisions has a zero divisor, that is when the sample's interval, as
    the [u32] that [do_div] takes, and the segment size are not zero; a
    zero divisor stops the call in a division by zero.  Nothing is said
    of a pacing shift of 64 or more. *)
Theorem cong_control_returns_iff :
  forall g sk rs,
    0 <= sk_pacing_shift sk < 64 ->
    ((exists g' sk', tcp_caohejing_cong_control g sk rs = Ok (g', sk'))
     <-> u32 (rs_interval_us rs) <> 0 /\ u32 (mss_cache sk) <> 0) /\
    (u32 (rs_interval_us rs) = 0 \/ u32 (mss_cache sk) = 0 ->
     tcp_caohejing_cong_control g sk rs = Fault DivideByZero).
Proof.
  intros g sk rs Hs. split; [split|].
  - intros (g' & sk' & C).
    destruct (cong_control_inv _ _ _ _ _ C) as (sk1 & nx & bwm & base & E & B & _).
    pose proof (cc_base_cwnd_inv _ _ _ B) as M.
    destruct (cc_estimate_frame _ _ _ _ _ E) as (F & _).
    rewrite F in M. split; [|exact M].
    intros Z0. rewrite (cc_estimate_traps sk rs Z0) in E. discriminate.
  - intros (Hi & Hm). apply cong_control_returns.
    split; [exact Hi|]. split; [exact Hm|exact Hs].
  - intros D.
    destruct (Z.eq_dec (u32 (rs_interval_us rs)) 0) as [Z0|N0].
    + rewrite cong_control_eq, (cc_estimate_traps sk rs Z0). reflexivity.
    + destruct D as [D|D]; [contradiction|].
      now apply cong_control_traps_mss.
Qed.

(** A sample whose interval is zero in its low 32 bits stops the call at
    the division of line 162. *)
Lemma cong_control_traps g sk rs :
  u32 (rs_interval_us rs) = 0 ->
  tcp_caohejing_cong_control g sk rs = Fault DivideByZero.
Proof.
  intros Z0. rewrite cong_control_eq, (cc_estimate_traps sk rs Z0). reflexivity.
Qed.

(** Phase and gain as a pair: PROBE_UP at 320 or DRAIN_DOWN at 192. *)
Definition phase_gain_ok (w : caohejing) : Prop :=
  (state w = UP /\ gain w = 320) \/ (state w = DOWN /\ gain w = 192).

Lemma cc_gain_cycle_phase_gain s w bwm :
  phase_gain_ok w -> phase_gain_ok (cc_gain_cycle s w bwm).
Proof.
  unfold phase_gain_ok, cc_gain_cycle, cc_gain_switch.
  change (CAL_UNIT * 5 / 4) with 320. change (CAL_UNIT * 3 / 4) with 192.
  intros K. destruct (s >? 3); [|exact K].
  destruct K as [(S & G)|(S & G)]; rewrite S.
  - change (UP =? UP) with true. cbv iota.
    destruct (_ >? _); rec_simpl; auto.
  - change (DOWN =? UP) with false. change (DOWN =? DOWN) with true. cbv iota.
    destruct (_ >? _); rec_simpl; auto.
Qed.

Lemma cc_after_phase_gain g sk0 rs sk1 nx bwm base :
  phase_gain_ok (inet_csk_ca sk1) ->
  phase_gain_ok (inet_csk_ca (cc_after g sk0 rs sk1 nx bwm base)).
Proof.
  intros K.
  apply (cc_gain_cycle_phase_gain (start g) _ bwm) in K.
  after_unfold. unfold inet_csk_ca in K. revert K.
  generalize (cc_gain_cycle (start g) (icsk_ca_priv sk1) bwm) as w.
  intros w K. unfold phase_gain_ok in *.
  change (CAL_UNIT * 5 / 4) with 320. change (CAL_UNIT * 3 / 4) with 192.
  destruct (conservation g =? 0); destruct nx; rec_simpl; auto;
    repeat (break_if; rec_simpl); auto.
Qed.

Lemma step_phase_gain g sk e g' sk' :
  phase_gain_ok (inet_csk_ca sk) -> step g sk e = Ok (g', sk') ->
  phase_gain_ok (inet_csk_ca sk').
Proof.
  intros K. destruct e as [h| |n|rs|other rs]; cbn [step].
  - intros H; inversion H; subst. exact K.
  - intros H; inversion H; subst. exact K.
  - intros H; inversion H; subst. unfold tcp_caohejing_state.
    break_if; exact K.
  - intros C.
    destruct (cong_control_inv _ _ _ _ _ C) as (sk1 & nx & bwm & base & E & B & -> & ->).
    apply cc_after_phase_gain.
    destruct (cc_estimate_frame _ _ _ _ _ E) as (_ & _ & Fg & Fs & _).
    unfold phase_gain_ok. rewrite Fg, Fs. exact K.
  - destruct (tcp_caohejing_cong_control g other rs); cbn [bind];
      intros H; inversion H; subst. exact K.
Qed.

(** X1.  After [tcp_caohejing_init] and whatever follows, warm-up
    included, the gain is 320 in PROBE_UP and 192 in DRAIN_DOWN, and there
    is no other phase or gain. *)
Theorem phase_and_gain_consistent :
  forall evs g sk g' sk',
    run g (tcp_caohejing_init sk) evs = Ok (g', sk') ->
    (state (inet_csk_ca sk') = UP /\ gain (inet_csk_ca sk') = 320) \/
    (state (inet_csk_ca sk') = DOWN /\ gain (inet_csk_ca sk') = 192).
Proof.
  intros evs g sk.
  assert (K : phase_gain_ok (inet_csk_ca (tcp_caohejing_init sk)))
    by (left; split; reflexivity).
  revert K. generalize (tcp_caohejing_init sk) as sk0. revert g.
  induction evs as [|e evs IH]; intros g sk0 K g' sk'; cbn [run].
  - intros H; inversion H; subst. exact K.
  - destruct (step g sk0 e) as [[g1 sk1]|f] eqn:S; cbn [bind fst snd];
      [|discriminate].
    intros H. eapply IH; [|exact H]. eapply step_phase_gain; eauto.
Qed.

(** X3.  [tcp_caohejing_ssthresh] snapshots the window into [prior_cwnd]
    and hands back the transport's own threshold; a second call at once
    changes nothing more. *)
Theorem ssthresh_snapshot_idempotent :
  forall sk,
    let (r1, sk1) := tcp_caohejing_ssthresh sk in
    let (r2, sk2) := tcp_caohejing_ssthresh sk1 in
    prior_cwnd (inet_csk_ca sk1) = snd_cwnd sk /\
    r1 = snd_ssthresh sk /\ snd_cwnd sk1 = snd_cwnd sk /\
    sk2 = sk1 /\ r2 = r1.
Proof.
  intros sk. destruct sk as [? ? ? ? w ? ? ? ? ? ? ? ? ? ?]. destruct w.
  cbn. repeat split.
Qed.

(** ** What a call writes, field by field *)

(** Lines 153-156, 161-166 and 91-92 on the round count, the round marker,
    the filter and the start of the window. *)
Lemma cc_estimate_round sk rs sk1 nx bwm :
  cc_estimate sk rs = Ok (sk1, nx, bwm) ->
  exists sample,
    cc_sample_bw rs = Ok sample /\
    rtt_cnt (inet_csk_ca sk1) =
      (if negb (before (rs_prior_delivered rs)
                  (next_rtt_delivered (inet_csk_ca sk)))
       then u32 (rtt_cnt (inet_csk_ca sk) + 1) else rtt_cnt (inet_csk_ca sk)) /\
    next_rtt_delivered (inet_csk_ca sk1) =
      (if negb (before (rs_prior_delivered rs)
                  (next_rtt_delivered (inet_csk_ca sk)))
       then delivered sk else next_rtt_delivered (inet_csk_ca sk)) /\
    bw (inet_csk_ca sk1) =
      (if sample >? minmax_get (bw (inet_csk_ca sk))
       then minmax_running_max (bw (inet_csk_ca sk)) 10
              (rtt_cnt (inet_csk_ca sk1)) sample
       else bw (inet_csk_ca sk)) /\
    cycle_mstamp (inet_csk_ca sk1) =
      (if nx then delivered_mstamp sk else cycle_mstamp (inet_csk_ca sk)).
Proof.
  cc_unfold. intros H.
  destruct (u32 (rs_interval_us rs) =? 0) eqn:Hi; cbn [bind] in *;
    [discriminate|].
  eexists. split; [reflexivity|]. cbv beta zeta in *.
  cc_cases; inversion H; subst; rec_simpl; try congruence;
    repeat match goal with
           | Hb : _ = true |- _ => rewrite Hb
           | Hb : _ = false |- _ => rewrite Hb
           end; cbn [orb]; repeat split; reflexivity.
Qed.

(** Lines 171-233 on the private area, but for phase, gain and the
    bandwidth pair. *)
Lemma cc_after_private g sk rs w1 nx bwm base :
  let w' := inet_csk_ca (cc_after g sk rs (set_ca w1 sk) nx bwm base) in
  let on := negb (conservation g =? 0) in
  rtt_cnt w' = (if nx then 0 else rtt_cnt w1) /\
  bw w' = (if nx then minmax_reset (bw w1) 0 0 else bw w1) /\
  cycle_mstamp w' = cycle_mstamp w1 /\
  prior_cwnd w' = prior_cwnd w1 /\
  prev_ca_state w' = bits3 (u8 (icsk_ca_state sk)) /\
  next_rtt_delivered w' =
    (if on && recovery_entry sk then delivered sk
     else next_rtt_delivered w1) /\
  packet_conservation w' =
    (if on && recovery_entry sk then 1
     else if on && recovery_exit sk then 0 else packet_conservation w1).
Proof.
  cbv zeta. unfold recovery_entry, recovery_exit. after_open g w1 bwm.
  destruct (conservation g =? 0); destruct nx; rec_simpl;
    repeat (break_if; rec_simpl;
            change (1 =? 1) with true in *; change (0 =? 1) with false in *;
            cbv iota in *);
    repeat split; try reflexivity; try discriminate.
Qed.

(** A property of the private area that every call keeps and that does
    not depend on [prior_cwnd] holds along every run. *)
Lemma run_preserves (P : caohejing -> Prop) :
  (forall g sk rs g' sk',
     P (inet_csk_ca sk) ->
     tcp_caohejing_cong_control g sk rs = Ok (g', sk') ->
     P (inet_csk_ca sk')) ->
  (forall w x, P w -> P (set_prior_cwnd x w)) ->
  forall evs g sk g' sk',
    P (inet_csk_ca sk) -> run g sk evs = Ok (g', sk') -> P (inet_csk_ca sk').
Proof.
  intros Hc Hp.
  induction evs as [|e evs IH]; intros g sk g' sk' K; cbn [run].
  - intros H; inversion H; subst. exact K.
  - destruct (step g sk e) as [[g1 sk1]|f] eqn:S; cbn [bind fst snd];
      [|discriminate].
    intros H. eapply IH; [|exact H]. clear H IH.
    destruct e as [h| |n|rs|other rs]; cbn [step] in S.
    + inversion S; subst. exact K.
    + inversion S; subst. apply Hp. exact K.
    + inversion S; subst. unfold tcp_caohejing_state. break_if; exact K.
    + eapply Hc; eauto.
    + destruct (tcp_caohejing_cong_control g other rs); cbn [bind] in S;
        inversion S; subst. exact K.
Qed.

(** ** The minimum RTT stays a valid one *)

Lemma cong_control_min_rtt_range g sk rs g' sk' :
  1 <= min_rtt_us (inet_csk_ca sk) <= 2147483647 ->
  tcp_caohejing_cong_control g sk rs = Ok (g', sk') ->
  1 <= min_rtt_us (inet_csk_ca sk') <= 2147483647.
Proof.
  intros R H. rewrite (cong_control_min_rtt _ _ _ _ _ H).
  destruct ((rs_rtt_us rs >? 0) && _) eqn:E; [|exact R].
  apply andb_true_iff in E as (E1 & E2).
  apply Z.gtb_lt in E1. apply Z.leb_le in E2.
  rewrite u32_small by (unfold_ints; lia). lia.
Qed.

(** X4.  From [tcp_caohejing_init] on, whatever the transport and the
    samples do, [min_rtt_us] is between 1 and [0x7fffffff]: line 159 stores
    positive values only, so the window test and the bandwidth-delay
    product never see a zero RTT. *)
Theorem min_rtt_us_in_range :
  forall evs g sk g' sk',
    run g (tcp_caohejing_init sk) evs = Ok (g', sk') ->
    1 <= min_rtt_us (inet_csk_ca sk') <= 2147483647.
Proof.
  intros evs g sk g' sk'.
  apply (run_preserves (fun w => 1 <= min_rtt_us w <= 2147483647)).
  - intros. eapply cong_control_min_rtt_range; eauto.
  - intros w x K. exact K.
  - cbn. lia.
Qed.

(** A call that returns, opened at the outcome of its lines 153-169. *)
Lemma cong_control_at g sk rs g' sk' sk1 nx bwm :
  tcp_caohejing_cong_control g sk rs = Ok (g', sk') ->
  cc_estimate sk rs = Ok (sk1, nx, bwm) ->
  exists w1 base,
    sk1 = set_ca w1 sk /\ inet_csk_ca sk1 = w1 /\
    cc_base_cwnd sk1 bwm = Ok base /\
    sk' = cc_after g sk rs (set_ca w1 sk) nx bwm base.
Proof.
  intros C E.
  destruct (cong_control_inv _ _ _ _ _ C)
    as (sk1' & nx' & bwm' & base & E' & B & -> & ->).
  rewrite E in E'. inversion E'; subst sk1' nx' bwm'.
  destruct (cc_estimate_host _ _ _ _ _ E) as (w1 & ->).
  exists w1, base. repeat split. exact B.
Qed.

(** ** The bandwidth sample and the filter *)

Lemma cc_sample_bw_nonneg rs sample :
  cc_sample_bw rs = Ok sample -> 0 <= sample.
Proof.
  unfold cc_sample_bw, do_div. break_if; [discriminate|].
  intros H; inversion H; subst.
  pose proof (u32_is_u32 (rs_interval_us rs)) as R.
  pose proof (u64_is_u64 (u64 (u64 (rs_delivered rs) * BW_UNIT))) as R'.
  unfold is_u32, is_u64 in *. apply Z.div_pos; lia.
Qed.

(** X5.  Lines 161-162 on a sample with a delivered count that is not
    negative: the bandwidth is [delivered * BW_UNIT / interval] rounded
    down, with the interval taken in its low 32 bits, which is the interval
    itself below [2^32] us; nothing wraps, and the result fits the 32 bits
    of the filter exactly when fewer than 256 packets per microsecond were
    delivered. *)
Theorem sample_bw_is_delivery_rate :
  forall rs,
    0 <= rs_delivered rs < 2147483648 ->
    u32 (rs_interval_us rs) <> 0 ->
    exists sample,
      cc_sample_bw rs = Ok sample /\
      sample = rs_delivered rs * BW_UNIT / u32 (rs_interval_us rs) /\
      (is_u32 (rs_interval_us rs) ->
       sample = rs_delivered rs * BW_UNIT / rs_interval_us rs) /\
      (sample < 4294967296 <->
       rs_delivered rs < 256 * u32 (rs_interval_us rs)).
Proof.
  intros rs Rd Hi.
  pose proof (u32_is_u32 (rs_interval_us rs)) as Ri.
  assert (V : cc_sample_bw rs =
              Ok (rs_delivered rs * BW_UNIT / u32 (rs_interval_us rs))).
  { unfold cc_sample_bw, do_div. apply Z.eqb_neq in Hi. rewrite Hi.
    change BW_UNIT with 16777216.
    rewrite (u64_small (rs_delivered rs)) by (unfold is_u64; lia).
    rewrite !(u64_small (rs_delivered rs * 16777216)) by (unfold is_u64; lia).
    reflexivity. }
  eexists. split; [exact V|]. split; [reflexivity|]. split.
  - intros R. now rewrite (u32_small _ R).
  - change BW_UNIT with 16777216. unfold is_u32 in Ri.
    split; intros H.
    + apply Z.nle_gt. intros A.
      apply Z.lt_nge in H. apply H.
      apply Z.div_le_lower_bound; lia.
    + apply Z.div_lt_upper_bound; lia.
Qed.

(** X6.  Lines 163-166 with a sample that fits 32 bits: the filter's
    maximum after them is the larger of its maximum before and the sample.
    A sample that is not larger leaves the filter as it was; a larger one
    replaces all three of its entries, stamped with the round count. *)
Theorem filter_keeps_running_max :
  forall sk rs sk1 is_next bwm sample,
    cc_estimate sk rs = Ok (sk1, is_next, bwm) ->
    cc_sample_bw rs = Ok sample ->
    sample < 4294967296 ->
    bwm = Z.max (minmax_get (bw (inet_csk_ca sk))) sample /\
    (sample <= minmax_get (bw (inet_csk_ca sk)) ->
     bw (inet_csk_ca sk1) = bw (inet_csk_ca sk)) /\
    (minmax_get (bw (inet_csk_ca sk)) < sample ->
     let e := Sample.mk (u32 (rtt_cnt (inet_csk_ca sk1))) sample in
     bw (inet_csk_ca sk1) = mk_minmax e e e).
Proof.
  intros sk rs sk1 nx bwm sample E S Hs.
  pose proof (cc_sample_bw_nonneg _ _ S) as Hp.
  destruct (cc_estimate_frame _ _ _ _ _ E) as (_ & -> & _).
  destruct (cc_estimate_round _ _ _ _ _ E) as (sample' & S' & _ & _ & Fb & _).
  rewrite S in S'. inversion S'; subst sample'. rewrite Fb.
  destruct (Z.gtb_spec sample (minmax_get (bw (inet_csk_ca sk)))) as [G|G].
  - assert (R : minmax_running_max (bw (inet_csk_ca sk)) 10
                  (rtt_cnt (inet_csk_ca sk1)) sample =
                let e := Sample.mk (u32 (rtt_cnt (inet_csk_ca sk1))) sample in
                mk_minmax e e e).
    { unfold minmax_running_max, minmax_reset, minmax_get in *.
      cbn [Sample.v Sample.t]. rewrite (u32_small sample) by (unfold is_u32; lia).
      replace (sample >=? Sample.v (s0 (bw (inet_csk_ca sk)))) with true
        by (symmetry; apply Z.geb_le; lia).
      reflexivity. }
    rewrite R. cbv zeta. unfold minmax_get at 1. cbn [s0 Sample.v].
    split; [lia|]. split; [lia|]. intros _. reflexivity.
  - split; [lia|]. split; [reflexivity|]. lia.
Qed.

(** ** Window boundaries *)

(** X7.  What a call leaves behind at a window boundary and away from
    one.  At a boundary the window starts at the transport's delivery
    time, the round count is 0, the filter holds three zero entries and
    [curr_bw] holds the maximum [bwm] the filter had before it was
    emptied.  Away from a boundary the start of the window and [last_bw]
    are kept and the filter's maximum is [bwm]. *)
Theorem window_boundary_restarts_filter :
  forall g sk rs g' sk' sk1 is_next bwm,
    tcp_caohejing_cong_control g sk rs = Ok (g', sk') ->
    cc_estimate sk rs = Ok (sk1, is_next, bwm) ->
    (is_next = true ->
     cycle_mstamp (inet_csk_ca sk') = delivered_mstamp sk /\
     rtt_cnt (inet_csk_ca sk') = 0 /\
     bw (inet_csk_ca sk') =
       (let z := Sample.mk 0 0 in mk_minmax z z z) /\
     curr_bw (inet_csk_ca sk') = bwm) /\
    (is_next = false ->
     cycle_mstamp (inet_csk_ca sk') = cycle_mstamp (inet_csk_ca sk) /\
     last_bw (inet_csk_ca sk') = last_bw (inet_csk_ca sk) /\
     bw (inet_csk_ca sk') = bw (inet_csk_ca sk1) /\
     minmax_get (bw (inet_csk_ca sk')) = bwm).
Proof.
  intros g sk rs g' sk' sk1 nx bwm C E.
  destruct (cong_control_at _ _ _ _ _ _ _ _ C E) as (w1 & base & -> & W & B & ->).
  destruct (cc_after_private g sk rs w1 nx bwm base)
    as (Fr & Ff & Fc & _).
  destruct (cc_after_bw_pair g sk rs (set_ca w1 sk) nx bwm base) as (Pc & Pl).
  destruct (cc_estimate_round _ _ _ _ _ E) as (sample & S & _ & _ & _ & Ec).
  destruct (cc_estimate_bw_pair _ _ _ _ _ E) as (sample' & _ & _ & Eu & El).
  destruct (cc_estimate_frame _ _ _ _ _ E) as (_ & Fb & _).
  rewrite W in *. rewrite Fr, Ff, Fc, Pc, Pl, Ec, Eu, El. clear Fr Ff Fc Pc Pl.
  split; intros ->; cbn [orb]; repeat split; auto.
Qed.

Lemma tcp_stamp_us_delta_small t1 t0 :
  - 9223372036854775808 <= t1 - t0 < 4294967296 ->
  tcp_stamp_us_delta t1 t0 = Z.max (t1 - t0) 0.
Proof.
  intros R. unfold tcp_stamp_us_delta, s64, u32.
  rewrite (Z.mod_small (t1 - t0 + 9223372036854775808)) by lia.
  replace (t1 - t0 + 9223372036854775808 - 9223372036854775808)
    with (t1 - t0) by lia.
  apply Z.mod_small. lia.
Qed.

(** X8.  Two calls in a row on a socket, the first at a window boundary.
    The second is at a boundary exactly when [tcp_stamp_us_delta] of the
    two delivery times exceeds [min_rtt_us] as the second call has it.
    For a gap below [2^32] us that is: more than [min_rtt_us] elapsed, so
    a window lasts longer than the minimum RTT, and a clock that went
    backwards counts as no time elapsed.  [tcp_stamp_us_delta] returns a
    [u32]: a gap of [2^32] us or more counts modulo [2^32] us.  The
    exception is a first call at delivery time 0: it leaves [cycle_mstamp]
    at 0, which means that no window has started, and the second call is
    at a boundary whatever the time. *)
Theorem window_lasts_min_rtt :
  forall g sk rs g' sk' sk1 bwm h rs2 sk2 is_next2 bwm2,
    caohejing_ok (inet_csk_ca sk) ->
    tcp_caohejing_cong_control g sk rs = Ok (g', sk') ->
    cc_estimate sk rs = Ok (sk1, true, bwm) ->
    cc_estimate (set_ca (inet_csk_ca sk') h) rs2 = Ok (sk2, is_next2, bwm2) ->
    let elapsed := delivered_mstamp h - delivered_mstamp sk in
    is_next2 =
      (delivered_mstamp sk =? 0)
      || (tcp_stamp_us_delta (delivered_mstamp h) (delivered_mstamp sk)
          >? min_rtt_us (inet_csk_ca sk2)) /\
    (- 9223372036854775808 <= elapsed < 4294967296 ->
     is_next2 =
       (delivered_mstamp sk =? 0)
       || (elapsed >? min_rtt_us (inet_csk_ca sk2))) /\
    (4294967296 <= elapsed < 9223372036854775808 ->
     is_next2 =
       (delivered_mstamp sk =? 0)
       || (elapsed mod 4294967296 >? min_rtt_us (inet_csk_ca sk2))).
Proof.
  intros g sk rs g' sk' sk1 bwm h rs2 sk2 nx2 bwm2 K C E E2. cbv zeta.
  pose proof (cong_control_ok _ _ _ _ _ K C) as K'.
  destruct (cc_estimate_ok (set_ca (inet_csk_ca sk') h) _ _ _ _ K' E2)
    as ((Rm & _) & _).
  destruct (cc_estimate_bw_pair _ _ _ _ _ E2) as (s2 & _ & N & _).
  destruct (cong_control_at _ _ _ _ _ _ _ _ C E) as (w1 & base & -> & W & B & ->).
  destruct (cc_after_private g sk rs w1 true bwm base) as (_ & _ & Fc & _).
  destruct (cc_estimate_round _ _ _ _ _ E) as (s & _ & _ & _ & _ & Ec).
  rewrite W in Ec. cbv zeta in Fc.
  change (inet_csk_ca (set_ca ?w h)) with w in N.
  change (delivered_mstamp (set_ca ?w h)) with (delivered_mstamp h) in N.
  rewrite Fc, Ec in N.
  split; [exact N|]. split; intros R; rewrite N; f_equal.
  - rewrite tcp_stamp_us_delta_small by exact R.
    unfold is_u32 in Rm.
    destruct (Z.gtb_spec (Z.max (delivered_mstamp h - delivered_mstamp sk) 0)
                (min_rtt_us (inet_csk_ca sk2)));
      destruct (Z.gtb_spec (delivered_mstamp h - delivered_mstamp sk)
                  (min_rtt_us (inet_csk_ca sk2))); try reflexivity; lia.
  - unfold tcp_stamp_us_delta, s64, u32.
    rewrite (Z.mod_small (delivered_mstamp h - delivered_mstamp sk
                          + 9223372036854775808)) by lia.
    rewrite Z.max_l by lia. do 2 f_equal. lia.
Qed.

(** ** Rounds *)

Lemma before_wraps a b :
  negb (before a b) = (u32 (a - b) <? 2147483648).
Proof.
  unfold before, s32, u32.
  destruct (Z.ltb_spec ((a - b + 2147483648) mod 4294967296 - 2147483648) 0);
    destruct (Z.ltb_spec ((a - b) mod 4294967296) 2147483648);
    try reflexivity; exfalso; Z.div_mod_to_equations; lia.
Qed.

(** X9.  The round count and the round marker over a call.  A round ends
    when the sample's [prior_delivered] has reached the marker, compared
    as sequence numbers (the difference, in 32 bits, is below [2^31]);
    the count then goes up by one and the marker moves to the delivered
    counter.  A window boundary sets the count back to 0, and the entry
    edge of recovery moves the marker as well. *)
Theorem round_counting :
  forall g sk rs g' sk' sk1 is_next bwm,
    tcp_caohejing_cong_control g sk rs = Ok (g', sk') ->
    cc_estimate sk rs = Ok (sk1, is_next, bwm) ->
    let w := inet_csk_ca sk in
    let ended :=
      u32 (rs_prior_delivered rs - next_rtt_delivered w) <? 2147483648 in
    rtt_cnt (inet_csk_ca sk') =
      (if is_next then 0
       else if ended then u32 (rtt_cnt w + 1) else rtt_cnt w) /\
    next_rtt_delivered (inet_csk_ca sk') =
      (if ended || (negb (conservation g =? 0) && recovery_entry sk)
       then delivered sk else next_rtt_delivered w).
Proof.
  intros g sk rs g' sk' sk1 nx bwm C E. cbv zeta.
  destruct (cong_control_at _ _ _ _ _ _ _ _ C E) as (w1 & base & -> & W & B & ->).
  destruct (cc_after_private g sk rs w1 nx bwm base)
    as (Fr & _ & _ & _ & _ & Fn & _).
  destruct (cc_estimate_round _ _ _ _ _ E) as (s & _ & Er & En & _).
  rewrite W in *. cbv zeta in Fn. rewrite Fr, Fn, Er, En, before_wraps.
  split; [reflexivity|].
  destruct (_ <? _); destruct (_ && _); reflexivity.
Qed.

(** ** Packet conservation *)

(** X10.  The [packet_conservation] flag and [prev_ca_state] over a call.
    With conservative mode off the flag is never written.  With it on,
    the entry edge sets the flag, the exit edge clears it and every other
    call keeps it.  Every call ends with [prev_ca_state] at the congestion
    state it saw, in three bits. *)
Theorem packet_conservation_flag :
  forall g sk rs g' sk',
    tcp_caohejing_cong_control g sk rs = Ok (g', sk') ->
    packet_conservation (inet_csk_ca sk') =
      (if conservation g =? 0 then packet_conservation (inet_csk_ca sk)
       else if recovery_entry sk then 1
       else if recovery_exit sk then 0
       else packet_conservation (inet_csk_ca sk)) /\
    prev_ca_state (inet_csk_ca sk') = bits3 (u8 (icsk_ca_state sk)).
Proof.
  intros g sk rs g' sk' C.
  destruct (cong_control_inv _ _ _ _ _ C)
    as (sk1 & nx & bwm & base & E & B & -> & ->).
  destruct (cc_estimate_frame _ _ _ _ _ E) as (_ & _ & _ & _ & Fp & _).
  destruct (cc_estimate_host _ _ _ _ _ E) as (w1 & ->).
  destruct (cc_after_private g sk rs w1 nx bwm base)
    as (_ & _ & _ & _ & Fs & _ & Fc).
  cbv zeta in Fc. change (inet_csk_ca (set_ca w1 sk)) with w1 in Fp.
  rewrite Fc, Fs, Fp. split; [|reflexivity].
  destruct (conservation g =? 0); reflexivity.
Qed.

(** X11.  An edge of recovery is seen once.  After a call, for as long as
    the transport reports the congestion state that call saw, neither the
    entry edge nor the exit edge holds at the next call. *)
Theorem recovery_edge_seen_once :
  forall g sk rs g' sk' h,
    tcp_caohejing_cong_control g sk rs = Ok (g', sk') ->
    0 <= icsk_ca_state sk < 8 ->
    icsk_ca_state h = icsk_ca_state sk ->
    recovery_entry (set_ca (inet_csk_ca sk') h) = false /\
    recovery_exit (set_ca (inet_csk_ca sk') h) = false.
Proof.
  intros g sk rs g' sk' h C R Hh.
  destruct (cong_control_inv _ _ _ _ _ C)
    as (sk1 & nx & bwm & base & E & B & -> & ->).
  destruct (cc_estimate_host _ _ _ _ _ E) as (w1 & ->).
  destruct (cc_after_private g sk rs w1 nx bwm base)
    as (_ & _ & _ & _ & Fs & _).
  unfold recovery_entry, recovery_exit.
  change (inet_csk_ca (set_ca ?w h)) with w.
  change (icsk_ca_state (set_ca ?w h)) with (icsk_ca_state h).
  rewrite Fs, Hh.
  assert (A : u8 (icsk_ca_state sk) = icsk_ca_state sk)
    by (unfold u8; apply Z.mod_small; lia).
  assert (A' : bits3 (icsk_ca_state sk) = icsk_ca_state sk)
    by (unfold bits3; apply Z.mod_small; lia).
  rewrite !A, A', A. split.
  - destruct (icsk_ca_state sk =? TCP_CA_Recovery); reflexivity.
  - unfold TCP_CA_Recovery.
    destruct (Z.geb_spec (icsk_ca_state sk) 3);
      destruct (Z.ltb_spec (icsk_ca_state sk) 3); try reflexivity; lia.
Qed.

Lemma s32_u32_small x : is_s32 x -> s32 (u32 x) = x.
Proof.
  unfold is_s32, s32, u32. intros R.
  rewrite Zplus_mod_idemp_l.
  rewrite (Z.mod_small (x + 2147483648)) by lia. lia.
Qed.

(** X12.  Packet conservation, lines 210-212 and 224-228.  With
    conservative mode on and the flag set, a call that is on neither edge
    keeps the flag, ends in DRAIN_DOWN at gain 192 and stores, under the
    cap, the larger of two windows: the window it found, less the
    sample's losses but not below 1, and packets in flight plus the
    sample's acked+SACKed count.  The base window of lines 195-198 is not
    used. *)
Theorem packet_conservation_window :
  forall g sk rs,
    conservation g <> 0 ->
    packet_conservation (inet_csk_ca sk) = 1 ->
    recovery_entry sk = false ->
    recovery_exit sk = false ->
    no_fault sk rs ->
    0 <= snd_cwnd sk < 2147483648 ->
    0 <= rs_losses rs < 2147483648 ->
    exists g' sk',
      tcp_caohejing_cong_control g sk rs = Ok (g', sk') /\
      packet_conservation (inet_csk_ca sk') = 1 /\
      state (inet_csk_ca sk') = DOWN /\
      gain (inet_csk_ca sk') = 192 /\
      snd_cwnd sk' =
        Z.min
          (Z.max
             (if rs_losses rs =? 0 then snd_cwnd sk
              else Z.max (snd_cwnd sk - rs_losses rs) 1)
             (u32 (tcp_packets_in_flight sk + rs_acked_sacked rs)))
          (snd_cwnd_clamp sk).
Proof.
  intros g sk rs Hc Hp Hen Hex NF Rc Rl.
  destruct (cong_control_open g sk rs NF) as (w1 & nx & bwm & base & E & B & C).
  eexists _, _. split; [exact C|].
  destruct (cc_estimate_frame _ _ _ _ _ E) as (_ & _ & _ & _ & Fp & _).
  change (inet_csk_ca (set_ca w1 sk)) with w1 in Fp. rewrite Hp in Fp.
  apply Z.eqb_neq in Hc. unfold recovery_entry, recovery_exit in Hen, Hex.
  assert (L : u32 (if rs_losses rs >? 0
                   then u32 (Z.max (s32 (u32 (snd_cwnd sk - rs_losses rs)))
                               (s32 1))
                   else snd_cwnd sk) =
              if rs_losses rs =? 0 then snd_cwnd sk
              else Z.max (snd_cwnd sk - rs_losses rs) 1).
  { change (s32 1) with 1.
    destruct (Z.eqb_spec (rs_losses rs) 0) as [Z0|Z0].
    - rewrite Z0. change (0 >? 0) with false. cbv iota.
      apply u32_small. unfold is_u32. lia.
    - replace (rs_losses rs >? 0) with true by (symmetry; apply Z.gtb_lt; lia).
      rewrite s32_u32_small by (unfold is_s32; lia).
      rewrite u32_idem. apply u32_small. unfold is_u32. lia. }
  clear E B C. after_open g w1 bwm.
  rewrite Hc, Hen, Hex. change (CAL_UNIT * 3 / 4) with 192.
  destruct nx; rec_simpl; rewrite Fp; change (1 =? 1) with true; cbv iota;
    rec_simpl; unfold tcp_packets_in_flight in *; rec_simpl;
    rewrite L, u32_idem, ?Fp; repeat split; reflexivity.
Qed.

(** ** What a call leaves to the transport *)

Lemma cc_after_host g sk rs w1 nx bwm base :
  exists w c r,
    cc_after g sk rs (set_ca w1 sk) nx bwm base =
    set_snd_cwnd c (set_sk_pacing_rate r (set_ca w sk)) /\
    c <= snd_cwnd_clamp sk.
Proof.
  after_open g w1 bwm. destruct sk.
  destruct (conservation g =? 0); destruct nx; rec_simpl;
    repeat (break_if; rec_simpl);
    eexists _, _, _; (split; [reflexivity|apply Z.le_min_r]).
Qed.

(** X13.  Of the transport's fields a call writes the window and the
    pacing rate, and no other.  The window it leaves is never above
    [snd_cwnd_clamp] and the pacing rate never above
    [sk_max_pacing_rate]. *)
Theorem call_writes_window_and_rate :
  forall g sk rs g' sk',
    tcp_caohejing_cong_control g sk rs = Ok (g', sk') ->
    sk' = set_snd_cwnd (snd_cwnd sk')
            (set_sk_pacing_rate (sk_pacing_rate sk')
               (set_ca (inet_csk_ca sk') sk)) /\
    snd_cwnd sk' <= snd_cwnd_clamp sk /\
    0 <= sk_pacing_rate sk' <= u64 (sk_max_pacing_rate sk).
Proof.
  intros g sk rs g' sk' C.
  destruct (cong_control_inv _ _ _ _ _ C)
    as (sk1 & nx & bwm & base & E & B & -> & ->).
  destruct (cc_estimate_host _ _ _ _ _ E) as (w1 & ->).
  split; [|split].
  - destruct (cc_after_host g sk rs w1 nx bwm base) as (w & c & r & -> & _).
    destruct sk. reflexivity.
  - destruct (cc_after_host g sk rs w1 nx bwm base) as (w & c & r & -> & L).
    exact L.
  - rewrite cc_after_pacing_rate. unfold caohejing_bw_to_pacing_rate.
    pose proof (u64_is_u64 (sk_max_pacing_rate sk)) as R1.
    match goal with
    | |- context [Z.min (u64 ?x) _] => pose proof (u64_is_u64 x) as R2
    end.
    unfold is_u64 in *. lia.
Qed.

(** ** The pacing rate in numbers *)

Lemma caohejing_rate_bytes_per_sec_exact sk bwm gn :
  0 <= bwm -> 0 <= gn ->
  Z.shiftr (bwm * u32 (mss_cache sk) * gn) 8 * 990000
    < 18446744073709551616 ->
  caohejing_rate_bytes_per_sec sk bwm gn =
  bwm * u32 (mss_cache sk) * gn / 256 * 990000 / 16777216.
Proof.
  intros Hb Hg Hf.
  pose proof (u32_is_u32 (mss_cache sk)) as Rm. unfold is_u32 in Rm.
  rewrite caohejing_rate_bytes_per_sec_u64, spec_rate_bytes_per_sec_fits;
    [|nia|exact Hf].
  unfold spec_rate_bytes_per_sec.
  change (USEC_PER_SEC * 99 / 100) with 990000.
  rewrite !Z.shiftr_div_pow2 by lia. reflexivity.
Qed.

(** X14.  [caohejing_rate_bytes_per_sec] under-paces.  With
    [x = bw * mss * gain], which is [2^32] times the bytes per microsecond
    at that gain, the rate [r] in bytes per second satisfies
    [r * 2^32 <= 990000 * x]: it is never above 99% of the bandwidth times
    the gain, and the two roundings cost less than one byte per second
    plus [255 * 990000 / 2^32]. *)
Theorem pacing_rate_under_paces :
  forall sk bwm gn,
    0 <= bwm -> 0 <= gn ->
    Z.shiftr (bwm * u32 (mss_cache sk) * gn) 8 * 990000
      < 18446744073709551616 ->
    let x := bwm * u32 (mss_cache sk) * gn in
    let r := caohejing_rate_bytes_per_sec sk bwm gn in
    0 <= r /\
    r * 4294967296 <= 990000 * x /\
    990000 * x < (r + 1) * 4294967296 + 255 * 990000.
Proof.
  intros sk bwm gn Hb Hg Hf. cbv zeta.
  rewrite caohejing_rate_bytes_per_sec_exact by assumption.
  pose proof (u32_is_u32 (mss_cache sk)) as Rm. unfold is_u32 in Rm.
  assert (P : 0 <= bwm * u32 (mss_cache sk) * gn) by nia.
  revert P. generalize (bwm * u32 (mss_cache sk) * gn) as x. intros x P.
  Z.div_mod_to_equations. lia.
Qed.

(** X15.  [caohejing_rate_bytes_per_sec] is monotone: more bandwidth or
    more gain never gives a lower rate, as long as the larger product fits
    64 bits.  In particular the rate at gain 192 is not above the rate at
    gain 320. *)
Theorem pacing_rate_monotone :
  forall sk b1 b2 g1 g2,
    0 <= b1 <= b2 -> 0 <= g1 <= g2 ->
    Z.shiftr (b2 * u32 (mss_cache sk) * g2) 8 * 990000
      < 18446744073709551616 ->
    caohejing_rate_bytes_per_sec sk b1 g1
    <= caohejing_rate_bytes_per_sec sk b2 g2.
Proof.
  intros sk b1 b2 g1 g2 Hb Hg Hf.
  pose proof (u32_is_u32 (mss_cache sk)) as Rm. unfold is_u32 in Rm.
  assert (P1 : 0 <= b1 * u32 (mss_cache sk) * g1) by nia.
  assert (L : b1 * u32 (mss_cache sk) * g1 <= b2 * u32 (mss_cache sk) * g2).
  { apply Z.mul_le_mono_nonneg; try lia; nia. }
  assert (Q : b1 * u32 (mss_cache sk) * g1 / 256
              <= b2 * u32 (mss_cache sk) * g2 / 256)
    by (apply Z.div_le_mono; lia).
  assert (Hf1 : Z.shiftr (b1 * u32 (mss_cache sk) * g1) 8 * 990000
                < 18446744073709551616).
  { rewrite Z.shiftr_div_pow2 in * by lia. change (2 ^ 8) with 256 in *. lia. }
  rewrite !caohejing_rate_bytes_per_sec_exact by (assumption || lia).
  apply Z.div_le_mono; lia.
Qed.

(** ** The TSO goal and the floor of the base window *)

(** X16.  [caohejing_tso_segs_goal], when it returns: between 1 and 127
    segments; at least 2 once the pacing rate has reached
    [caohejing_min_tso_rate >> 3], that is 150000 bytes per second; and
    for a pacing rate that gives less than one segment per
    [2^sk_pacing_shift]-th of a second, the goal is the minimum of
    [caohejing_min_tso_segs]. *)
Theorem tso_segs_goal_bounds :
  forall sk segs,
    caohejing_tso_segs_goal sk = Ok segs ->
    1 <= segs <= 127 /\
    (150000 <= sk_pacing_rate sk -> 2 <= segs) /\
    (is_u64 (sk_pacing_rate sk) ->
     Z.shiftr (sk_pacing_rate sk) (sk_pacing_shift sk) < u32 (mss_cache sk) ->
     segs = caohejing_min_tso_segs sk).
Proof.
  intros sk segs T.
  split; [exact (caohejing_tso_segs_goal_range _ _ T)|].
  pose proof (caohejing_min_tso_segs_range sk) as R.
  pose proof (u32_is_u32 (mss_cache sk)) as Rm. unfold is_u32 in Rm.
  revert T. unfold caohejing_tso_segs_goal, shr64, udiv32.
  destruct ((0 <=? sk_pacing_shift sk) && (sk_pacing_shift sk <? 64)) eqn:S;
    cbn [bind]; [|discriminate].
  destruct (u32 (mss_cache sk) =? 0) eqn:M; cbn [bind]; [discriminate|].
  intros T.
  apply (f_equal (fun r => match r with Ok b => b | Fault _ => segs end)) in T.
  cbv beta iota in T. subst segs.
  rewrite (u32_small (caohejing_min_tso_segs sk)) by (unfold_ints; lia).
  split.
  - intros H. unfold caohejing_min_tso_segs in *.
    change (Z.shiftr caohejing_min_tso_rate 3) with 150000 in *.
    replace (sk_pacing_rate sk <? 150000) with false
      by (symmetry; apply Z.ltb_ge; lia). lia.
  - intros Rr Hl. rewrite (u64_small _ Rr) in *.
    apply andb_true_iff in S as (S1 & _). apply Z.leb_le in S1.
    assert (Hp : 0 <= Z.shiftr (sk_pacing_rate sk) (sk_pacing_shift sk))
      by (apply Z.shiftr_nonneg; unfold is_u64 in Rr; lia).
    pose proof (u64_is_u64 (GSO_MAX_SIZE - 1 - MAX_TCP_HEADER)) as Rg.
    unfold is_u64 in Rg.
    set (bytes := Z.min (Z.shiftr _ _) _).
    assert (Rb : 0 <= bytes < u32 (mss_cache sk)) by (subst bytes; lia).
    rewrite u32_idem, (u32_small bytes) by (unfold is_u32; lia).
    rewrite Z.div_small by lia. change (u32 0) with 0. lia.
Qed.

(** X17.  The base window of lines 195-198, for a bandwidth-delay product
    that does not wrap the 32-bit window: it is at least 6 segments, at
    least 3 above the product in segments (rounded up) and at most 382
    above the larger of 2 and that product. *)
Theorem base_cwnd_bounds :
  forall sk bwm base,
    cc_base_cwnd sk bwm = Ok base ->
    is_u32 bwm -> is_u32 (min_rtt_us (inet_csk_ca sk)) ->
    bwm * min_rtt_us (inet_csk_ca sk) <= max_exact_bdp ->
    let segments := ceil_div (bwm * min_rtt_us (inet_csk_ca sk)) BW_UNIT in
    6 <= base /\
    segments + 3 <= base <= Z.max 2 segments + 382.
Proof.
  intros sk bwm base B Rb Rm Hb. cbv zeta.
  destruct (caohejing_tso_segs_goal sk) as [segs|f] eqn:T.
  2:{ unfold cc_base_cwnd in B. rewrite T in B. discriminate. }
  pose proof (caohejing_tso_segs_goal_range _ _ T) as Rs.
  rewrite (cc_base_cwnd_exact sk bwm segs T Rs Rb Rm Hb) in B.
  apply (f_equal (fun r => match r with Ok b => b | Fault _ => base end)) in B.
  cbv beta iota in B. subst base. unfold unit_gain_base_cwnd.
  pose proof (round_up_even_ge
                (Z.max 2 (ceil_div (bwm * min_rtt_us (inet_csk_ca sk)) BW_UNIT)
                 + 3 * segs)) as G.
  revert G. generalize (ceil_div (bwm * min_rtt_us (inet_csk_ca sk)) BW_UNIT).
  intros c G. unfold round_up_even in *. Z.div_mod_to_equations. lia.
Qed.

(** ** The window snapshot *)

Lemma cong_control_prior_cwnd g sk rs g' sk' :
  tcp_caohejing_cong_control g sk rs = Ok (g', sk') ->
  prior_cwnd (inet_csk_ca sk') = prior_cwnd (inet_csk_ca sk).
Proof.
  intros C.
  destruct (cong_control_inv _ _ _ _ _ C)
    as (sk1 & nx & bwm & base & E & B & -> & ->).
  destruct (cc_estimate_frame _ _ _ _ _ E) as (_ & _ & _ & _ & _ & Fp & _).
  destruct (cc_estimate_host _ _ _ _ _ E) as (w1 & ->).
  destruct (cc_after_private g sk rs w1 nx bwm base) as (_ & _ & _ & Fa & _).
  cbv zeta in Fa. rewrite Fa. exact Fp.
Qed.

Lemma run_prior_cwnd evs : forall g sk g' sk',
  ~ In Ev_ssthresh evs -> run g sk evs = Ok (g', sk') ->
  prior_cwnd (inet_csk_ca sk') = prior_cwnd (inet_csk_ca sk).
Proof.
  induction evs as [|e evs IH]; intros g sk g' sk' N; cbn [run].
  - intros H; inversion H; subst. reflexivity.
  - destruct (step g sk e) as [[g1 sk1]|f] eqn:S; cbn [bind fst snd];
      [|discriminate].
    intros H. rewrite (IH _ _ _ _ (fun I => N (or_intror I)) H). clear H IH.
    destruct e as [h| |n|rs|other rs]; cbn [step] in S.
    + inversion S; subst. reflexivity.
    + exfalso. apply N. left. reflexivity.
    + inversion S; subst. unfold tcp_caohejing_state. break_if; reflexivity.
    + eapply cong_control_prior_cwnd; eauto.
    + destruct (tcp_caohejing_cong_control g other rs); cbn [bind] in S;
        inversion S; subst. reflexivity.
Qed.

(** X22.  [tcp_caohejing_ssthresh] and [tcp_caohejing_undo_cwnd] as a
    pair.  [tcp_caohejing_ssthresh] hands back the transport's own
    threshold and leaves the window alone; whatever happens afterwards
    short of another [tcp_caohejing_ssthresh] (calls of
    [tcp_caohejing_cong_control], state changes, the transport rewriting
    its fields), [tcp_caohejing_undo_cwnd] gives the window that
    [tcp_caohejing_ssthresh] found, or 2 if that was smaller. *)
Theorem undo_restores_snapshot :
  forall evs g sk g' sk',
    ~ In Ev_ssthresh evs ->
    run g (snd (tcp_caohejing_ssthresh sk)) evs = Ok (g', sk') ->
    fst (tcp_caohejing_ssthresh sk) = snd_ssthresh sk /\
    snd_cwnd (snd (tcp_caohejing_ssthresh sk)) = snd_cwnd sk /\
    tcp_caohejing_undo_cwnd sk' = Z.max 2 (u32 (snd_cwnd sk)) /\
    (is_u32 (snd_cwnd sk) ->
     tcp_caohejing_undo_cwnd sk' = Z.max 2 (snd_cwnd sk)).
Proof.
  intros evs g sk g' sk' N R.
  pose proof (run_prior_cwnd _ _ _ _ _ N R) as P.
  unfold tcp_caohejing_undo_cwnd. rewrite P.
  destruct sk as [? ? ? ? w ? ? ? ? ? ? ? ? ? ?]. destruct w. cbn.
  repeat split. intros U. change (u32 2) with 2.
  now rewrite (u32_small _ U).
Qed.

(** ** The window on entry *)

Lemma cc_estimate_set_snd_cwnd c sk rs :
  cc_estimate (set_snd_cwnd c sk) rs =
  match cc_estimate sk rs with
  | Ok (sk1, nx, bwm) => Ok (set_snd_cwnd c sk1, nx, bwm)
  | Fault f => Fault f
  end.
Proof.
  destruct sk. cc_unfold. rec_simpl.
  destruct (u32 (rs_interval_us rs) =? 0); cbn [bind]; [reflexivity|].
  repeat (break_if; rec_simpl); try reflexivity; congruence.
Qed.

Lemma cc_after_set_snd_cwnd c g sk rs w1 nx bwm base :
  recovery_quiet g sk = true ->
  packet_conservation w1 = packet_conservation (inet_csk_ca sk) ->
  cc_after g (set_snd_cwnd c sk) rs (set_snd_cwnd c (set_ca w1 sk)) nx bwm base =
  cc_after g sk rs (set_ca w1 sk) nx bwm base.
Proof.
  intros Q Fp. unfold recovery_quiet, recovery_entry, recovery_exit in Q.
  after_open g w1 bwm.
  destruct (conservation g =? 0) eqn:Hc.
  - destruct nx; reflexivity.
  - cbn [orb] in Q. apply andb_true_iff in Q as (Q & Q3).
    apply andb_true_iff in Q as (Q1 & Q2).
    apply negb_true_iff in Q1, Q2, Q3.
    rewrite Q1, Q2. destruct nx; rec_simpl; rewrite Fp, Q3; reflexivity.
Qed.

(** X18.  [tcp_caohejing_state] and the call that follows it.  For any
    state but Loss it leaves the socket as it is; for Loss it sets the
    window to packets in flight plus one and touches nothing else.  When
    lines 207-228 of the next call are idle, which they are in state Loss
    unless packet conservation is set, that call gives the same result as
    it would without [tcp_caohejing_state]: it overwrites the window with
    the base window, and the window of [tcp_caohejing_state] is lost. *)
Theorem loss_window_not_kept :
  forall g sk rs n,
    recovery_quiet g sk = true ->
    (u8 n <> TCP_CA_Loss -> tcp_caohejing_state sk n = sk) /\
    (u8 n = TCP_CA_Loss ->
     tcp_caohejing_state sk n =
     set_snd_cwnd (u32 (tcp_packets_in_flight sk + 1)) sk) /\
    tcp_caohejing_cong_control g (tcp_caohejing_state sk n) rs =
    tcp_caohejing_cong_control g sk rs.
Proof.
  intros g sk rs n Q. unfold tcp_caohejing_state.
  destruct (Z.eqb_spec (u8 n) TCP_CA_Loss) as [L|L].
  2:{ repeat split; intros; congruence. }
  split; [intros; congruence|]. split; [reflexivity|].
  generalize (u32 (tcp_packets_in_flight sk + 1)) as c. intros c.
  rewrite !cong_control_eq, cc_estimate_set_snd_cwnd.
  destruct (cc_estimate sk rs) as [[[sk1 nx] bwm]|f] eqn:E; cbn [bind];
    [|reflexivity].
  destruct (cc_estimate_frame _ _ _ _ _ E) as (_ & _ & _ & _ & Fp & _).
  destruct (cc_estimate_host _ _ _ _ _ E) as (w1 & ->).
  change (cc_base_cwnd (set_snd_cwnd c (set_ca w1 sk)) bwm)
    with (cc_base_cwnd (set_ca w1 sk) bwm).
  destruct (cc_base_cwnd (set_ca w1 sk) bwm) as [base|f]; cbn [bind];
    [|reflexivity].
  rewrite cc_after_set_snd_cwnd by assumption. reflexivity.
Qed.

(** ** The first call on a socket *)

(** X19.  The first call after [tcp_caohejing_init], whatever the
    transport did to its own fields in between, is at a window boundary
    and ends with [last_bw] and [curr_bw] both at the filter's maximum
    [bwm] of that call.  So when the gain step runs in it (the static
    counter is above 3 because of calls served before, for this socket or
    another) and lines 207-228 are idle, it finds no growth and the socket
    leaves its first call in DRAIN_DOWN at gain 192. *)
Theorem first_call_after_init :
  forall g sk rs g' sk',
    tcp_caohejing_cong_control g (tcp_caohejing_init sk) rs = Ok (g', sk') ->
    exists sk1 bwm,
      cc_estimate (tcp_caohejing_init sk) rs = Ok (sk1, true, bwm) /\
      cycle_mstamp (inet_csk_ca sk') = delivered_mstamp sk /\
      last_bw (inet_csk_ca sk') = bwm /\
      curr_bw (inet_csk_ca sk') = bwm /\
      (3 < start g ->
       recovery_quiet g (tcp_caohejing_init sk) = true ->
       state (inet_csk_ca sk') = DOWN /\ gain (inet_csk_ca sk') = 192).
Proof.
  intros g sk rs g' sk' C.
  destruct (cong_control_inv _ _ _ _ _ C)
    as (sk1 & nx & bwm & base & E & B & _ & _).
  destruct (cong_control_at _ _ _ _ _ _ _ _ C E)
    as (w1 & base' & -> & _ & _ & F').
  pose proof (init_ok sk) as K.
  destruct (cc_estimate_ok _ _ _ _ _ K E) as (K1 & Rb).
  destruct (cc_estimate_bw_pair _ _ _ _ _ E) as (sample & S & N & Eu & El).
  destruct (cc_estimate_round _ _ _ _ _ E) as (s' & S' & _ & _ & Fb & Ec).
  destruct (cc_estimate_frame _ _ _ _ _ E) as (_ & Eb & _ & Fs & _).
  rewrite S in S'. inversion S'; subst s'. clear S'.
  change (inet_csk_ca (set_ca w1 (tcp_caohejing_init sk))) with w1 in *.
  change (cycle_mstamp (inet_csk_ca (tcp_caohejing_init sk)) =? 0)
    with true in N.
  cbn [orb] in N. subst nx. cbn [orb] in Eu.
  change (curr_bw (inet_csk_ca (tcp_caohejing_init sk))) with 0 in El.
  change (delivered_mstamp (tcp_caohejing_init sk))
    with (delivered_mstamp sk) in Ec.
  change (state (inet_csk_ca (tcp_caohejing_init sk))) with UP in Fs.
  assert (L : last_bw w1 = bwm).
  { rewrite El.
    destruct (sample >? minmax_get (bw (inet_csk_ca (tcp_caohejing_init sk))))
      eqn:G; [reflexivity|].
    rewrite Eb, Fb. reflexivity. }
  destruct (cc_after_bw_pair g (tcp_caohejing_init sk) rs
              (set_ca w1 (tcp_caohejing_init sk)) true bwm base') as (Pc & Pl).
  destruct (cc_after_private g (tcp_caohejing_init sk) rs w1 true bwm base')
    as (_ & _ & Fc & _).
  cbv zeta in Fc.
  change (inet_csk_ca (set_ca w1 (tcp_caohejing_init sk))) with w1 in *.
  exists (set_ca w1 (tcp_caohejing_init sk)), bwm. split; [exact E|].
  split; [rewrite F', Fc; exact Ec|].
  split; [rewrite F', Pl; exact L|].
  split; [rewrite F', Pc; exact Eu|].
  intros Hs Q.
  destruct (cong_control_quiet_gain _ _ _ _ _ C Q)
    as (sk1' & nx' & bwm' & E' & Gg & Gs).
  rewrite E in E'. inversion E'; subst sk1' nx' bwm'.
  change (inet_csk_ca (set_ca w1 (tcp_caohejing_init sk))) with w1 in *.
  assert (R : (state (cc_gain_cycle (start g) w1 bwm),
               gain (cc_gain_cycle (start g) w1 bwm)) = (DOWN, 192)).
  { unfold cc_gain_cycle.
    replace (start g >? 3) with true by (symmetry; apply Z.gtb_lt; lia).
    destruct K1 as (_ & _ & _ & Rl).
    rewrite cc_gain_switch_rule; [|exact Rb|exact Rl|left; exact Fs].
    rewrite Fs, L.
    unfold spec_gain_rule. change (UP =? UP) with true. cbv iota.
    replace (20 * bwm >? 21 * bwm) with false; [reflexivity|].
    symmetry. rewrite Z.gtb_ltb. apply Z.ltb_ge. unfold is_u32 in Rb. lia. }
  injection R as R1 R2. rewrite Gg, Gs, R1, R2. split; reflexivity.
Qed.

(** ** Packet conservation, whatever the edge *)

Lemma cc_after_conserving g sk rs w1 nx bwm base :
  (conservation g =? 0) = false ->
  packet_conservation
    (inet_csk_ca (cc_after g sk rs (set_ca w1 sk) nx bwm base)) = 1 ->
  state (inet_csk_ca (cc_after g sk rs (set_ca w1 sk) nx bwm base)) = DOWN /\
  gain (inet_csk_ca (cc_after g sk rs (set_ca w1 sk) nx bwm base)) = 192 /\
  Z.min (u32 (tcp_packets_in_flight sk + rs_acked_sacked rs))
        (snd_cwnd_clamp sk)
  <= snd_cwnd (cc_after g sk rs (set_ca w1 sk) nx bwm base).
Proof.
  intros Hc. after_open g w1 bwm. rewrite Hc.
  change (CAL_UNIT * 3 / 4) with 192.
  unfold tcp_packets_in_flight; rec_simpl.
  destruct nx; rec_simpl;
    repeat (break_if; rec_simpl;
            change (1 =? 1) with true in *; change (0 =? 1) with false in *;
            cbv iota in *; rec_simpl);
    intros P; try discriminate P;
    try (exfalso;
         match goal with
         | H : (_ =? 1) = false |- _ => apply Z.eqb_neq in H; apply H; exact P
         end);
    (split; [reflexivity|split; [reflexivity|]]);
    rewrite ?u32_idem; lia.
Qed.

(** X20.  In conservative mode, a call that ends with [packet_conservation]
    set, on the entry edge or after it, ends in DRAIN_DOWN at gain 192
    whatever the gain step decided, and with a window that is not below
    packets in flight plus the sample's acked+SACKed count, unless the cap
    is lower. *)
Theorem packet_conservation_pins_drain_down :
  forall g sk rs g' sk',
    tcp_caohejing_cong_control g sk rs = Ok (g', sk') ->
    conservation g <> 0 ->
    packet_conservation (inet_csk_ca sk') = 1 ->
    state (inet_csk_ca sk') = DOWN /\
    gain (inet_csk_ca sk') = 192 /\
    Z.min (u32 (tcp_packets_in_flight sk + rs_acked_sacked rs))
          (snd_cwnd_clamp sk)
    <= snd_cwnd sk'.
Proof.
  intros g sk rs g' sk' C Hc.
  destruct (cong_control_inv _ _ _ _ _ C)
    as (sk1 & nx & bwm & base & E & B & -> & ->).
  destruct (cc_estimate_host _ _ _ _ _ E) as (w1 & ->).
  apply cc_after_conserving. now apply Z.eqb_neq.
Qed.

(** ** A filter without a sample *)

(** X21.  A call whose filter maximum is 0 (the filter was emptied at the
    last boundary and no sample with a positive bandwidth came since)
    sets the pacing rate to 0, whatever the gain and the segment size; the
    next TSO goal then starts from the minimum of 1 segment. *)
Theorem zero_bandwidth_stops_pacing :
  forall g sk rs g' sk' sk1 is_next,
    tcp_caohejing_cong_control g sk rs = Ok (g', sk') ->
    cc_estimate sk rs = Ok (sk1, is_next, 0) ->
    sk_pacing_rate sk' = 0 /\ caohejing_min_tso_segs sk' = 1.
Proof.
  intros g sk rs g' sk' sk1 nx C E.
  destruct (cong_control_at _ _ _ _ _ _ _ _ C E) as (w1 & base & -> & _ & _ & ->).
  assert (R : sk_pacing_rate (cc_after g sk rs (set_ca w1 sk) nx 0 base) = 0).
  { rewrite cc_after_pacing_rate.
    unfold caohejing_bw_to_pacing_rate, caohejing_rate_bytes_per_sec.
    change (u32 0) with 0.
    repeat first [rewrite Z.mul_0_l | rewrite Z.shiftr_0_l
                 | progress change (u64 0) with 0].
    pose proof (u64_is_u64 (sk_max_pacing_rate sk)) as M. unfold is_u64 in M.
    lia. }
  split; [exact R|]. unfold caohejing_min_tso_segs. rewrite R. reflexivity.
Qed.

End Module_code.



(** * The theorems at sample inputs *)

Ltac by_computation :=
  vm_compute; repeat split; first [reflexivity | discriminate].

Ltac split_first_part :=
  match goal with
  | |- ?A /\ _ =>
      let H := fresh "H" in
      assert (H : A); [|split; [exact H|]]
  end.

(** C1 on the first call of a fresh socket: ten packets in 1000 us with
    RTT 1000 us. *)
Lemma base_cwnd_at_unit_gain_witness :
  exists sk1 is_next bwm segs,
    (caohejing_ok (inet_csk_ca ex_sk) /\
     cc_estimate ex_sk ex_rs = Ok (sk1, is_next, bwm) /\
     caohejing_tso_segs_goal ex_max_tcp_header ex_sk = Ok segs /\
     bwm * min_rtt_us (inet_csk_ca sk1) <= max_exact_bdp) /\
    bwm = minmax_get (bw (inet_csk_ca sk1)) /\
    (let w := cc_gain_cycle (start ex_g) (inet_csk_ca sk1) bwm in
     cc_base_cwnd ex_max_tcp_header (set_ca w sk1) bwm =
     Ok (unit_gain_base_cwnd bwm (min_rtt_us (inet_csk_ca sk1)) segs)) /\
    (recovery_quiet ex_g ex_sk = true ->
     exists g' sk',
       tcp_caohejing_cong_control ex_max_tcp_header ex_g ex_sk ex_rs
         = Ok (g', sk') /\
       snd_cwnd sk' =
         Z.min (unit_gain_base_cwnd bwm (min_rtt_us (inet_csk_ca sk1)) segs)
               (snd_cwnd_clamp ex_sk)).
Proof.
  eexists _, _, _, _. split_first_part.
  { split; [by_computation|].
    split; [by_computation|]. split; [by_computation|by_computation]. }
  destruct H as (K & E & T & Hb).
  exact (base_cwnd_at_unit_gain ex_max_tcp_header ex_g ex_sk ex_rs
           _ _ _ _ K E T Hb).
Defined.

(** C1 as worded fails on that call: the filter's maximum is 167772, the
    minimum RTT 1000, the gain 320 and the TSO goal 1; the code computes
    the window 14 where the formula with the gain in it gives 16. *)
Lemma base_cwnd_ignores_gain :
  ~ base_cwnd_follows_gain ex_max_tcp_header.
Proof.
  intros H.
  eassert (E : cc_estimate ex_sk ex_rs = Ok (_, _, _)) by by_computation.
  eassert (T : caohejing_tso_segs_goal ex_max_tcp_header ex_sk = Ok _)
    by by_computation.
  pose proof (H ex_g ex_host [] ex_g ex_sk ex_rs _ _ _ _ eq_refl E T
                ltac:(by_computation)) as A.
  vm_compute in A. discriminate.
Qed.

(** C2.  The interval is not guarded.  On a fresh socket a sample with
    [interval_us = 0] makes line 162 divide by zero.  With the transport's
    marking of an invalid sample (delivered and interval both -1) line 162
    divides by [0xFFFFFFFF]; the quotient [2^32] passes the test of line
    163 and, in the middle of a window, [minmax_running_max] is fed the
    truncated sample 0 and line 165 takes [curr_bw] from 167772 to 0. *)
Theorem degenerate_interval_not_guarded :
  tcp_caohejing_cong_control ex_max_tcp_header ex_g ex_sk ex_rs_interval0
    = Fault DivideByZero /\
  cc_sample_bw ex_rs_invalid = Ok 4294967296 /\
  exists g sk sk1 bwm g' sk',
    run ex_max_tcp_header ex_g ex_sk ex_first_window = Ok (g, sk) /\
    cc_estimate sk ex_rs_invalid = Ok (sk1, false, bwm) /\
    tcp_caohejing_cong_control ex_max_tcp_header g sk ex_rs_invalid
      = Ok (g', sk') /\
    curr_bw (inet_csk_ca sk) = 167772 /\
    curr_bw (inet_csk_ca sk') = 0.
Proof.
  split; [by_computation|]. split; [by_computation|].
  eexists _, _, _, _, _, _.
  split; [by_computation|]. split; [by_computation|].
  split; [by_computation|]. split; [by_computation|by_computation].
Qed.

(** C3 on five fresh sockets served once each: the fifth call is the
    first to run the gain switch. *)
Lemma warm_up_is_four_calls_witness :
  exists g' outs sk',
    (start ex_g = 0 /\
     cong_control_calls ex_max_tcp_header ex_g ex_calls = Ok (g', outs) /\
     nth_error ex_calls 4 = Some (ex_sk, ex_rs) /\
     nth_error outs 4 = Some sk') /\
    start g' = s32 (Z.of_nat (length ex_calls)) /\
    (Z.of_nat 4 < 2147483648 ->
     s32 (Z.of_nat 4) = Z.of_nat 4 /\
     (s32 (Z.of_nat 4) >? 3) = negb (4 <? 4)%nat) /\
    (2147483648 <= Z.of_nat 4 < 4294967296 + 4 ->
     (s32 (Z.of_nat 4) >? 3) = false) /\
    (exists gn gn',
       start gn = s32 (Z.of_nat 4) /\
       tcp_caohejing_cong_control ex_max_tcp_header gn ex_sk ex_rs
         = Ok (gn', sk') /\
       forall w b, cc_gain_cycle (start gn) w b = cc_gain_switch w b) /\
    (recovery_quiet ex_g ex_sk = true ->
     exists sk1 is_next bwm,
       cc_estimate ex_sk ex_rs = Ok (sk1, is_next, bwm) /\
       gain (inet_csk_ca sk') = gain (cc_gain_switch (inet_csk_ca sk1) bwm) /\
       state (inet_csk_ca sk') = state (cc_gain_switch (inet_csk_ca sk1) bwm)).
Proof.
  eexists _, _, _. split_first_part.
  { split; [reflexivity|]. split; [by_computation|]. split; reflexivity. }
  destruct H as (S0 & R & Nc & No).
  exact (warm_up_is_four_calls ex_max_tcp_header ex_g ex_calls _ _ 4%nat
           ex_sk ex_rs _ S0 R Nc No).
Defined.

(** The counter at the largest [int]: the call that finds it there runs
    the gain switch and leaves it at [-2^31], and the next call the
    module serves is in a warm-up again. *)
Example warm_up_counter_wraps :
  exists g' sk',
    tcp_caohejing_cong_control ex_max_tcp_header ex_g_last ex_sk ex_rs
      = Ok (g', sk') /\
    start g' = -2147483648 /\
    (forall w b, cc_gain_cycle (start ex_g_last) w b = cc_gain_switch w b) /\
    (forall w b, cc_gain_cycle (start g') w b = w).
Proof.
  eexists _, _. split; [by_computation|]. split; [reflexivity|].
  split; intros w b; reflexivity.
Qed.

(** C3 as worded fails on the fourth call of that sequence: the switch
    would take the fresh socket, whose [last_bw] and filter maximum are
    both 167772 by then, to DRAIN_DOWN at 192, and the call leaves it at
    PROBE_UP and 320. *)
Lemma fourth_call_is_warm_up :
  ~ warm_up_lasts ex_max_tcp_header 3.
Proof.
  intros H.
  eassert (R : cong_control_calls ex_max_tcp_header ex_g ex_calls = Ok (_, _))
    by by_computation.
  pose proof (H ex_g ex_calls _ _ 3%nat ex_sk ex_rs _ eq_refl
                ltac:(by_computation) R eq_refl eq_refl
                ltac:(by_computation)) as A.
  cbv beta iota delta [Nat.ltb Nat.leb] in A.
  destruct A as (sk1 & nx & bwm & E & G & _).
  vm_compute in E. injection E as <- <- <-.
  vm_compute in G. discriminate.
Qed.



(** C5 on a call in the middle of the first window whose sample is a new
    maximum. *)
Lemma bw_pair_writes_witness :
  exists g sk g' sk' sk1 is_next bwm,
    run ex_max_tcp_header ex_g ex_sk ex_first_window = Ok (g, sk) /\
    (tcp_caohejing_cong_control ex_max_tcp_header g sk ex_rs_faster
       = Ok (g', sk') /\
     cc_estimate sk ex_rs_faster = Ok (sk1, is_next, bwm)) /\
    exists sample,
      cc_sample_bw ex_rs_faster = Ok sample /\
      is_next = (cycle_mstamp (inet_csk_ca sk) =? 0)
                || (tcp_stamp_us_delta (delivered_mstamp sk)
                      (cycle_mstamp (inet_csk_ca sk))
                    >? min_rtt_us (inet_csk_ca sk')) /\
      last_bw (inet_csk_ca sk') =
        (if is_next
         then if sample >? minmax_get (bw (inet_csk_ca sk))
              then bwm else curr_bw (inet_csk_ca sk)
         else last_bw (inet_csk_ca sk)) /\
      curr_bw (inet_csk_ca sk') =
        (if is_next || (sample >? minmax_get (bw (inet_csk_ca sk)))
         then bwm else curr_bw (inet_csk_ca sk)).
Proof.
  eexists _, _, _, _, _, _, _. split; [by_computation|]. split_first_part.
  { split; [by_computation|by_computation]. }
  destruct H as (C & E).
  exact (bw_pair_writes ex_max_tcp_header _ _ ex_rs_faster _ _ _ _ _ C E).
Defined.

(** C5 as worded fails on that call: it is not at a window boundary
    (100 us into a window of 1000 us) and it takes [curr_bw] from 167772
    to 335544. *)
Lemma curr_bw_written_mid_window :
  ~ bw_pair_written_at_boundary_only ex_max_tcp_header.
Proof.
  intros H.
  eassert (R : run ex_max_tcp_header ex_g (tcp_caohejing_init ex_host)
                 ex_first_window = Ok (_, _)) by by_computation.
  match type of R with
  | _ = Ok (?g, ?sk) =>
      eassert (C : tcp_caohejing_cong_control ex_max_tcp_header g sk
                     ex_rs_faster = Ok (_, _)) by by_computation
  end.
  pose proof (H ex_g ex_host ex_first_window _ _ ex_rs_faster _ _ _ _ R C
                ltac:(by_computation)) as (A & _).
  vm_compute in A. discriminate.
Qed.

(** C6 on the first call of a fresh socket when the module has served
    four calls before. *)
Lemma gain_rule_compares_filter_max_witness :
  exists sk1 is_next bwm,
    (caohejing_ok (inet_csk_ca ex_sk) /\
     3 < start ex_g_warm /\
     (state (inet_csk_ca ex_sk) = UP \/ state (inet_csk_ca ex_sk) = DOWN) /\
     cc_estimate ex_sk ex_rs = Ok (sk1, is_next, bwm)) /\
    bwm = minmax_get (bw (inet_csk_ca sk1)) /\
    (let w := cc_gain_cycle (start ex_g_warm) (inet_csk_ca sk1) bwm in
     (state w, gain w) =
     spec_gain_rule (state (inet_csk_ca ex_sk)) bwm
       (last_bw (inet_csk_ca sk1))) /\
    (forall g' sk',
       recovery_quiet ex_g_warm ex_sk = true ->
       tcp_caohejing_cong_control ex_max_tcp_header ex_g_warm ex_sk ex_rs
         = Ok (g', sk') ->
       (state (inet_csk_ca sk'), gain (inet_csk_ca sk')) =
       spec_gain_rule (state (inet_csk_ca ex_sk)) bwm
         (last_bw (inet_csk_ca sk1))).
Proof.
  eexists _, _, _. split_first_part.
  { split; [by_computation|]. split; [by_computation|].
    split; [left; reflexivity|]. by_computation. }
  destruct H as (K & Hs & S & E).
  exact (gain_rule_compares_filter_max ex_max_tcp_header ex_g_warm ex_sk ex_rs
           _ _ _ K Hs S E).
Defined.

(** C6 as worded fails after warm-up on a sample of one packet in 20 s,
    in the middle of a window started in DRAIN_DOWN with [curr_bw] and
    [last_bw] both 167772: the filter, emptied at the boundary, reports 0,
    so the code goes to PROBE_UP at 320 where the rule on [curr_bw] stays
    in DRAIN_DOWN at 192. *)
Lemma gain_rule_ignores_curr_bw :
  ~ gain_rule_compares_curr_bw ex_max_tcp_header.
Proof.
  intros H.
  eassert (R : run ex_max_tcp_header ex_g_warm (tcp_caohejing_init ex_host)
                 ex_first_window = Ok (_, _)) by by_computation.
  pose proof (H ex_g_warm ex_host ex_first_window _ _
                ex_rs_trickle _ _ _ R ltac:(by_computation)
                ltac:(by_computation)) as A.
  vm_compute in A. discriminate.
Qed.

(** C7 on a first call, a pause, and a sample with RTT 0: the minimum
    stays at 1000. *)
Lemma min_rtt_us_non_increasing_witness :
  exists g1 sk1 g2 sk2 g3 sk3,
    (run ex_max_tcp_header ex_g (tcp_caohejing_init ex_host)
       [Ev_cong_control ex_rs] = Ok (g1, sk1) /\
     run ex_max_tcp_header g1 sk1 [Ev_host ex_host_later] = Ok (g2, sk2) /\
     tcp_caohejing_cong_control ex_max_tcp_header g2 sk2 ex_rs_rtt0
       = Ok (g3, sk3)) /\
    min_rtt_us (inet_csk_ca sk2) <= min_rtt_us (inet_csk_ca sk1) /\
    min_rtt_us (inet_csk_ca sk3) <= min_rtt_us (inet_csk_ca sk2) /\
    min_rtt_us (inet_csk_ca sk3) =
      (if (0 <? rs_rtt_us ex_rs_rtt0)
          && (rs_rtt_us ex_rs_rtt0 <=? min_rtt_us (inet_csk_ca sk2))
       then rs_rtt_us ex_rs_rtt0 else min_rtt_us (inet_csk_ca sk2)) /\
    (rs_rtt_us ex_rs_rtt0 <= 0 ->
     min_rtt_us (inet_csk_ca sk3) = min_rtt_us (inet_csk_ca sk2)).
Proof.
  eexists _, _, _, _, _, _. split_first_part.
  { split; [by_computation|]. split; [by_computation|by_computation]. }
  destruct H as (R1 & R2 & C).
  exact (min_rtt_us_non_increasing ex_max_tcp_header ex_g ex_host
           [Ev_cong_control ex_rs] _ _ [Ev_host ex_host_later] _ _
           ex_rs_rtt0 _ _ R1 R2 C).
Defined.

(** C8 on a socket that enters Recovery with 10 packets in flight when
    the sample acknowledges 2. *)
Lemma recovery_entry_edge_witness :
  (conservation ex_g <> 0 /\
   u8 (icsk_ca_state ex_sk_entering) = TCP_CA_Recovery /\
   u8 (prev_ca_state (inet_csk_ca ex_sk_entering)) <> TCP_CA_Recovery /\
   no_fault ex_sk_entering ex_rs_acked2) /\
  exists g' sk',
    tcp_caohejing_cong_control ex_max_tcp_header ex_g ex_sk_entering
      ex_rs_acked2 = Ok (g', sk') /\
    snd_cwnd sk' =
      Z.min (u32 (tcp_packets_in_flight ex_sk_entering
                  + rs_acked_sacked ex_rs_acked2))
            (snd_cwnd_clamp ex_sk_entering) /\
    next_rtt_delivered (inet_csk_ca sk') = delivered ex_sk_entering /\
    packet_conservation (inet_csk_ca sk') = 1 /\
    (is_u32 (tcp_packets_in_flight ex_sk_entering
             + rs_acked_sacked ex_rs_acked2) ->
     tcp_packets_in_flight ex_sk_entering + rs_acked_sacked ex_rs_acked2
       <= snd_cwnd_clamp ex_sk_entering ->
     snd_cwnd sk' =
       tcp_packets_in_flight ex_sk_entering + rs_acked_sacked ex_rs_acked2).
Proof.
  split_first_part.
  { split; [by_computation|]. split; [by_computation|].
    split; [by_computation|by_computation]. }
  destruct H as (Hc & Hca & Hprev & NF).
  exact (recovery_entry_edge ex_max_tcp_header ex_g ex_sk_entering
           ex_rs_acked2 Hc Hca Hprev NF).
Defined.

(** The scenario of the specification: 10 in flight and 2 acknowledged
    give the window 12 and packet conservation. *)
Example recovery_entry_scenario :
  exists g' sk',
    tcp_caohejing_cong_control ex_max_tcp_header ex_g ex_sk_entering
      ex_rs_acked2 = Ok (g', sk') /\
    snd_cwnd sk' = 12 /\ packet_conservation (inet_csk_ca sk') = 1.
Proof. eexists _, _. by_computation. Qed.

(** C9 on a socket that leaves Recovery with [prior_cwnd] 20 and 5
    packets in flight when the sample acknowledges 1. *)
Lemma recovery_exit_edge_witness :
  (conservation ex_g <> 0 /\
   u8 (prev_ca_state (inet_csk_ca ex_sk_leaving)) >= TCP_CA_Recovery /\
   u8 (icsk_ca_state ex_sk_leaving) < TCP_CA_Recovery /\
   no_fault ex_sk_leaving ex_rs_acked1) /\
  exists g' sk',
    tcp_caohejing_cong_control ex_max_tcp_header ex_g ex_sk_leaving
      ex_rs_acked1 = Ok (g', sk') /\
    snd_cwnd sk' =
      Z.min (Z.max (prior_cwnd (inet_csk_ca ex_sk_leaving))
                   (u32 (tcp_packets_in_flight ex_sk_leaving
                         + rs_acked_sacked ex_rs_acked1)))
            (snd_cwnd_clamp ex_sk_leaving) /\
    state (inet_csk_ca sk') = UP /\
    gain (inet_csk_ca sk') = 320 /\
    packet_conservation (inet_csk_ca sk') = 0 /\
    (is_u32 (tcp_packets_in_flight ex_sk_leaving
             + rs_acked_sacked ex_rs_acked1) ->
     Z.max (prior_cwnd (inet_csk_ca ex_sk_leaving))
           (tcp_packets_in_flight ex_sk_leaving
            + rs_acked_sacked ex_rs_acked1)
       <= snd_cwnd_clamp ex_sk_leaving ->
     snd_cwnd sk' =
       Z.max (prior_cwnd (inet_csk_ca ex_sk_leaving))
             (tcp_packets_in_flight ex_sk_leaving
              + rs_acked_sacked ex_rs_acked1)).
Proof.
  split_first_part.
  { split; [by_computation|]. split; [by_computation|].
    split; [by_computation|by_computation]. }
  destruct H as (Hc & Hprev & Hca & NF).
  exact (recovery_exit_edge ex_max_tcp_header ex_g ex_sk_leaving
           ex_rs_acked1 Hc Hprev Hca NF).
Defined.

(** The scenario of the specification: [prior_cwnd] 20, 5 in flight and
    1 acknowledged give the window 20, PROBE_UP and gain 320. *)
Example recovery_exit_scenario :
  exists g' sk',
    tcp_caohejing_cong_control ex_max_tcp_header ex_g ex_sk_leaving
      ex_rs_acked1 = Ok (g', sk') /\
    snd_cwnd sk' = 20 /\ state (inet_csk_ca sk') = UP /\
    gain (inet_csk_ca sk') = 320.
Proof. eexists _, _. by_computation. Qed.

(** C10 at bandwidth 1000, segments of 1460 bytes and gain 320. *)
Lemma pacing_rate_formula_witness :
  (is_u32 1000 /\ is_s32 320 /\ is_u32 (mss_cache ex_sk) /\
   is_u64 (sk_max_pacing_rate ex_sk)) /\
  caohejing_rate_bytes_per_sec ex_sk 1000 320 =
    spec_rate_bytes_per_sec_u64 1000 (mss_cache ex_sk) 320 /\
  caohejing_bw_to_pacing_rate ex_sk 1000 320 =
    Z.min (spec_rate_bytes_per_sec_u64 1000 (mss_cache ex_sk) 320)
          (sk_max_pacing_rate ex_sk) /\
  (0 <= 320 ->
   Z.shiftr (1000 * mss_cache ex_sk * 320) 8 * (USEC_PER_SEC * 99 / 100)
     < 18446744073709551616 ->
   caohejing_bw_to_pacing_rate ex_sk 1000 320 =
     Z.min (spec_rate_bytes_per_sec 1000 (mss_cache ex_sk) 320)
           (sk_max_pacing_rate ex_sk)) /\
  (forall g rs g' sk',
     tcp_caohejing_cong_control ex_max_tcp_header g ex_sk rs = Ok (g', sk') ->
     exists sk1 is_next bwm,
       cc_estimate ex_sk rs = Ok (sk1, is_next, bwm) /\
       sk_pacing_rate sk' =
         caohejing_bw_to_pacing_rate ex_sk bwm (gain (inet_csk_ca sk'))).
Proof.
  split_first_part.
  { split; [by_computation|]. split; [by_computation|].
    split; [by_computation|by_computation]. }
  destruct H as (Rb & Rg & Rm & Rx).
  exact (pacing_rate_formula ex_max_tcp_header ex_sk 1000 320 Rb Rg Rm Rx).
Defined.

(** The scenario of the specification: the rate is 107690 bytes per
    second, in the code and in exact integers. *)
Example pacing_rate_scenario :
  caohejing_bw_to_pacing_rate ex_sk 1000 320 = 107690 /\
  spec_rate_bytes_per_sec 1000 1460 320 = 107690.
Proof. by_computation. Qed.

(** X1 after a first call, a pause and a faster sample. *)
Lemma phase_and_gain_consistent_witness :
  exists g' sk',
    run ex_max_tcp_header ex_g (tcp_caohejing_init ex_host)
      (ex_first_window ++ [Ev_cong_control ex_rs_faster]) = Ok (g', sk') /\
    ((state (inet_csk_ca sk') = UP /\ gain (inet_csk_ca sk') = 320) \/
     (state (inet_csk_ca sk') = DOWN /\ gain (inet_csk_ca sk') = 192)).
Proof.
  eexists _, _. split_first_part.
  { by_computation. }
  exact (phase_and_gain_consistent ex_max_tcp_header _ ex_g ex_host _ _ H).
Defined.

(** X2 on the first call of a socket, pacing shift 10. *)
Lemma cong_control_returns_iff_witness :
  0 <= sk_pacing_shift ex_sk < 64 /\
  ((exists g' sk',
      tcp_caohejing_cong_control ex_max_tcp_header ex_g ex_sk ex_rs
        = Ok (g', sk'))
   <-> u32 (rs_interval_us ex_rs) <> 0 /\ u32 (mss_cache ex_sk) <> 0) /\
  (u32 (rs_interval_us ex_rs) = 0 \/ u32 (mss_cache ex_sk) = 0 ->
   tcp_caohejing_cong_control ex_max_tcp_header ex_g ex_sk ex_rs
     = Fault DivideByZero).
Proof.
  split_first_part.
  { by_computation. }
  exact (cong_control_returns_iff ex_max_tcp_header ex_g ex_sk ex_rs H).
Defined.

(** A zero interval and a zero segment size on that call. *)
Example cong_control_divides_by_zero :
  tcp_caohejing_cong_control ex_max_tcp_header ex_g ex_sk ex_rs_interval0
    = Fault DivideByZero /\
  tcp_caohejing_cong_control ex_max_tcp_header ex_g
    (mk_sock 0 18446744073709551615 10 TCP_CA_Open (inet_csk_ca ex_sk) 10
       4294967295 2147483647 10 50000000 0 0 0 0 0) ex_rs
    = Fault DivideByZero.
Proof. split; [by_computation|by_computation]. Qed.

(** X4 after a first call, a pause and a sample without a valid RTT. *)
Lemma min_rtt_us_in_range_witness :
  exists g' sk',
    run ex_max_tcp_header ex_g (tcp_caohejing_init ex_host)
      (ex_first_window ++ [Ev_cong_control ex_rs_rtt0]) = Ok (g', sk') /\
    1 <= min_rtt_us (inet_csk_ca sk') <= 2147483647.
Proof.
  eexists _, _. split_first_part.
  { by_computation. }
  exact (min_rtt_us_in_range ex_max_tcp_header _ ex_g ex_host _ _ H).
Defined.

(** X5 on ten packets in 1000 us. *)
Lemma sample_bw_is_delivery_rate_witness :
  (0 <= rs_delivered ex_rs < 2147483648 /\ u32 (rs_interval_us ex_rs) <> 0) /\
  exists sample,
    cc_sample_bw ex_rs = Ok sample /\
    sample = rs_delivered ex_rs * BW_UNIT / u32 (rs_interval_us ex_rs) /\
    (is_u32 (rs_interval_us ex_rs) ->
     sample = rs_delivered ex_rs * BW_UNIT / rs_interval_us ex_rs) /\
    (sample < 4294967296 <->
     rs_delivered ex_rs < 256 * u32 (rs_interval_us ex_rs)).
Proof.
  split_first_part.
  { split; [by_computation|by_computation]. }
  destruct H as (A & B).
  exact (sample_bw_is_delivery_rate ex_rs A B).
Defined.

(** Ten packets in 1000 us are the bandwidth 167772. *)
Example sample_bw_scenario : cc_sample_bw ex_rs = Ok 167772.
Proof. by_computation. Qed.

(** X6 on the first sample of a socket. *)
Lemma filter_keeps_running_max_witness :
  exists sk1 is_next bwm sample,
    (cc_estimate ex_sk ex_rs = Ok (sk1, is_next, bwm) /\
     cc_sample_bw ex_rs = Ok sample /\
     sample < 4294967296) /\
    bwm = Z.max (minmax_get (bw (inet_csk_ca ex_sk))) sample /\
    (sample <= minmax_get (bw (inet_csk_ca ex_sk)) ->
     bw (inet_csk_ca sk1) = bw (inet_csk_ca ex_sk)) /\
    (minmax_get (bw (inet_csk_ca ex_sk)) < sample ->
     let e := Sample.mk (u32 (rtt_cnt (inet_csk_ca sk1))) sample in
     bw (inet_csk_ca sk1) = mk_minmax e e e).
Proof.
  eexists _, _, _, _. split_first_part.
  { split; [by_computation|]. split; [by_computation|by_computation]. }
  destruct H as (E & S & L).
  exact (filter_keeps_running_max ex_sk ex_rs _ _ _ _ E S L).
Defined.

(** X7 on the first call of a socket, which is at a boundary. *)
Lemma window_boundary_restarts_filter_witness :
  exists g' sk' sk1 is_next bwm,
    (tcp_caohejing_cong_control ex_max_tcp_header ex_g ex_sk ex_rs
       = Ok (g', sk') /\
     cc_estimate ex_sk ex_rs = Ok (sk1, is_next, bwm)) /\
    (is_next = true ->
     cycle_mstamp (inet_csk_ca sk') = delivered_mstamp ex_sk /\
     rtt_cnt (inet_csk_ca sk') = 0 /\
     bw (inet_csk_ca sk') =
       (let z := Sample.mk 0 0 in mk_minmax z z z) /\
     curr_bw (inet_csk_ca sk') = bwm) /\
    (is_next = false ->
     cycle_mstamp (inet_csk_ca sk') = cycle_mstamp (inet_csk_ca ex_sk) /\
     last_bw (inet_csk_ca sk') = last_bw (inet_csk_ca ex_sk) /\
     bw (inet_csk_ca sk') = bw (inet_csk_ca sk1) /\
     minmax_get (bw (inet_csk_ca sk')) = bwm).
Proof.
  eexists _, _, _, _, _. split_first_part.
  { split; [by_computation|by_computation]. }
  destruct H as (C & E).
  exact (window_boundary_restarts_filter ex_max_tcp_header
           ex_g ex_sk ex_rs _ _ _ _ _ C E).
Defined.

(** X8 on a first call and a second one 100 us later, with a minimum RTT
    of 1000 us: the second call is not at a boundary. *)
Lemma window_lasts_min_rtt_witness :
  exists g' sk' sk1 bwm sk2 is_next2 bwm2,
    (caohejing_ok (inet_csk_ca ex_sk) /\
     tcp_caohejing_cong_control ex_max_tcp_header ex_g ex_sk ex_rs
       = Ok (g', sk') /\
     cc_estimate ex_sk ex_rs = Ok (sk1, true, bwm) /\
     cc_estimate (set_ca (inet_csk_ca sk') ex_host_later) ex_rs_faster
       = Ok (sk2, is_next2, bwm2)) /\
    is_next2 =
      (delivered_mstamp ex_sk =? 0)
      || (tcp_stamp_us_delta (delivered_mstamp ex_host_later)
            (delivered_mstamp ex_sk)
          >? min_rtt_us (inet_csk_ca sk2)) /\
    (- 9223372036854775808
     <= delivered_mstamp ex_host_later - delivered_mstamp ex_sk
     < 4294967296 ->
     is_next2 =
       (delivered_mstamp ex_sk =? 0)
       || (delivered_mstamp ex_host_later - delivered_mstamp ex_sk
           >? min_rtt_us (inet_csk_ca sk2))) /\
    (4294967296
     <= delivered_mstamp ex_host_later - delivered_mstamp ex_sk
     < 9223372036854775808 ->
     is_next2 =
       (delivered_mstamp ex_sk =? 0)
       || ((delivered_mstamp ex_host_later - delivered_mstamp ex_sk)
             mod 4294967296
           >? min_rtt_us (inet_csk_ca sk2))).
Proof.
  eexists _, _, _, _, _, _, _. split_first_part.
  { split; [by_computation|]. split; [by_computation|].
    split; [by_computation|by_computation]. }
  destruct H as (K & C & E & E2).
  exact (window_lasts_min_rtt ex_max_tcp_header ex_g ex_sk ex_rs _ _ _ _
           ex_host_later ex_rs_faster _ _ _ K C E E2).
Defined.

Example window_lasts_min_rtt_scenario :
  exists g' sk' sk2 bwm2,
    tcp_caohejing_cong_control ex_max_tcp_header ex_g ex_sk ex_rs
      = Ok (g', sk') /\
    cc_estimate (set_ca (inet_csk_ca sk') ex_host_later) ex_rs_faster
      = Ok (sk2, false, bwm2).
Proof. eexists _, _, _, _. split; [by_computation|by_computation]. Qed.

(** A second call [2^32 + 5] us after the first, far more than the
    minimum RTT of 1000 us: the elapsed time counts as 5 us and the call
    is not at a boundary. *)
Example window_outlasts_long_pause :
  exists g' sk' sk2 bwm2,
    tcp_caohejing_cong_control ex_max_tcp_header ex_g ex_sk ex_rs
      = Ok (g', sk') /\
    delivered_mstamp ex_host_after_pause - delivered_mstamp ex_sk
      = 4294967296 + 5 /\
    cc_estimate (set_ca (inet_csk_ca sk') ex_host_after_pause) ex_rs_faster
      = Ok (sk2, false, bwm2) /\
    min_rtt_us (inet_csk_ca sk2) = 1000.
Proof.
  eexists _, _, _, _. split; [by_computation|]. split; [by_computation|].
  split; [by_computation|by_computation].
Qed.

(** X9 on the second call of a socket, in the middle of its first
    window. *)
Lemma round_counting_witness :
  exists g sk g' sk' sk1 is_next bwm,
    run ex_max_tcp_header ex_g ex_sk ex_first_window = Ok (g, sk) /\
    (tcp_caohejing_cong_control ex_max_tcp_header g sk ex_rs_faster
       = Ok (g', sk') /\
     cc_estimate sk ex_rs_faster = Ok (sk1, is_next, bwm)) /\
    rtt_cnt (inet_csk_ca sk') =
      (if is_next then 0
       else if u32 (rs_prior_delivered ex_rs_faster
                    - next_rtt_delivered (inet_csk_ca sk)) <? 2147483648
            then u32 (rtt_cnt (inet_csk_ca sk) + 1)
            else rtt_cnt (inet_csk_ca sk)) /\
    next_rtt_delivered (inet_csk_ca sk') =
      (if (u32 (rs_prior_delivered ex_rs_faster
                - next_rtt_delivered (inet_csk_ca sk)) <? 2147483648)
          || (negb (conservation g =? 0) && recovery_entry sk)
       then delivered sk else next_rtt_delivered (inet_csk_ca sk)).
Proof.
  eexists _, _, _, _, _, _, _. split; [by_computation|]. split_first_part.
  { split; [by_computation|by_computation]. }
  destruct H as (C & E).
  exact (round_counting ex_max_tcp_header _ _ ex_rs_faster _ _ _ _ _ C E).
Defined.

(** The first call ends round 0 and is at a boundary; the second, whose
    sample started at the marker 10, ends a round in the middle of the
    window: the count is 1 and the marker 30. *)
Example round_counting_scenario :
  exists g sk g' sk',
    run ex_max_tcp_header ex_g ex_sk ex_first_window = Ok (g, sk) /\
    tcp_caohejing_cong_control ex_max_tcp_header g sk ex_rs_faster
      = Ok (g', sk') /\
    rtt_cnt (inet_csk_ca sk) = 0 /\ next_rtt_delivered (inet_csk_ca sk) = 10 /\
    rtt_cnt (inet_csk_ca sk') = 1 /\ next_rtt_delivered (inet_csk_ca sk') = 30.
Proof.
  eexists _, _, _, _. split; [by_computation|]. split; [by_computation|].
  by_computation.
Qed.

(** X10 on a socket that has just entered Recovery. *)
Lemma packet_conservation_flag_witness :
  exists g' sk',
    tcp_caohejing_cong_control ex_max_tcp_header ex_g ex_sk_entering
      ex_rs_acked2 = Ok (g', sk') /\
    packet_conservation (inet_csk_ca sk') =
      (if conservation ex_g =? 0
       then packet_conservation (inet_csk_ca ex_sk_entering)
       else if recovery_entry ex_sk_entering then 1
       else if recovery_exit ex_sk_entering then 0
       else packet_conservation (inet_csk_ca ex_sk_entering)) /\
    prev_ca_state (inet_csk_ca sk') = bits3 (u8 (icsk_ca_state ex_sk_entering)).
Proof.
  eexists _, _. split_first_part.
  { by_computation. }
  exact (packet_conservation_flag ex_max_tcp_header ex_g ex_sk_entering
           ex_rs_acked2 _ _ H).
Defined.

(** X11 on a socket that has just entered Recovery and stays there. *)
Lemma recovery_edge_seen_once_witness :
  exists g' sk',
    (tcp_caohejing_cong_control ex_max_tcp_header ex_g ex_sk_entering
       ex_rs_acked2 = Ok (g', sk') /\
     0 <= icsk_ca_state ex_sk_entering < 8 /\
     icsk_ca_state (ex_host_in TCP_CA_Recovery 9)
       = icsk_ca_state ex_sk_entering) /\
    recovery_entry
      (set_ca (inet_csk_ca sk') (ex_host_in TCP_CA_Recovery 9)) = false /\
    recovery_exit
      (set_ca (inet_csk_ca sk') (ex_host_in TCP_CA_Recovery 9)) = false.
Proof.
  eexists _, _. split_first_part.
  { split; [by_computation|]. split; [by_computation|by_computation]. }
  destruct H as (C & R & S).
  exact (recovery_edge_seen_once ex_max_tcp_header ex_g ex_sk_entering
           ex_rs_acked2 _ _ (ex_host_in TCP_CA_Recovery 9) C R S).
Defined.

(** X12 in the middle of Recovery: window 10, 3 losses, 4 packets in
    flight and 2 acknowledged. *)
Lemma packet_conservation_window_witness :
  (conservation ex_g <> 0 /\
   packet_conservation (inet_csk_ca ex_sk_recovering) = 1 /\
   recovery_entry ex_sk_recovering = false /\
   recovery_exit ex_sk_recovering = false /\
   no_fault ex_sk_recovering ex_rs_lossy /\
   0 <= snd_cwnd ex_sk_recovering < 2147483648 /\
   0 <= rs_losses ex_rs_lossy < 2147483648) /\
  exists g' sk',
    tcp_caohejing_cong_control ex_max_tcp_header ex_g ex_sk_recovering
      ex_rs_lossy = Ok (g', sk') /\
    packet_conservation (inet_csk_ca sk') = 1 /\
    state (inet_csk_ca sk') = DOWN /\
    gain (inet_csk_ca sk') = 192 /\
    snd_cwnd sk' =
      Z.min
        (Z.max
           (if rs_losses ex_rs_lossy =? 0 then snd_cwnd ex_sk_recovering
            else Z.max (snd_cwnd ex_sk_recovering - rs_losses ex_rs_lossy) 1)
           (u32 (tcp_packets_in_flight ex_sk_recovering
                 + rs_acked_sacked ex_rs_lossy)))
        (snd_cwnd_clamp ex_sk_recovering).
Proof.
  split_first_part.
  { split; [by_computation|]. split; [by_computation|].
    split; [by_computation|]. split; [by_computation|].
    split; [by_computation|]. split; [by_computation|by_computation]. }
  destruct H as (Hc & Hp & Hen & Hex & NF & Rc & Rl).
  exact (packet_conservation_window ex_max_tcp_header ex_g ex_sk_recovering
           ex_rs_lossy Hc Hp Hen Hex NF Rc Rl).
Defined.

(** Window 10 less 3 losses is 7, above the 6 of packets in flight plus
    acknowledged: the call stores 7. *)
Example packet_conservation_scenario :
  exists g' sk',
    tcp_caohejing_cong_control ex_max_tcp_header ex_g ex_sk_recovering
      ex_rs_lossy = Ok (g', sk') /\
    snd_cwnd sk' = 7.
Proof. eexists _, _. split; [by_computation|by_computation]. Qed.

(** X13 on the first call of a socket. *)
Lemma call_writes_window_and_rate_witness :
  exists g' sk',
    tcp_caohejing_cong_control ex_max_tcp_header ex_g ex_sk ex_rs
      = Ok (g', sk') /\
    sk' = set_snd_cwnd (snd_cwnd sk')
            (set_sk_pacing_rate (sk_pacing_rate sk')
               (set_ca (inet_csk_ca sk') ex_sk)) /\
    snd_cwnd sk' <= snd_cwnd_clamp ex_sk /\
    0 <= sk_pacing_rate sk' <= u64 (sk_max_pacing_rate ex_sk).
Proof.
  eexists _, _. split_first_part.
  { by_computation. }
  exact (call_writes_window_and_rate ex_max_tcp_header ex_g ex_sk ex_rs _ _ H).
Defined.

(** X14 at bandwidth 1000, segments of 1460 bytes and gain 320. *)
Lemma pacing_rate_under_paces_witness :
  (0 <= 1000 /\ 0 <= 320 /\
   Z.shiftr (1000 * u32 (mss_cache ex_sk) * 320) 8 * 990000
     < 18446744073709551616) /\
  0 <= caohejing_rate_bytes_per_sec ex_sk 1000 320 /\
  caohejing_rate_bytes_per_sec ex_sk 1000 320 * 4294967296
    <= 990000 * (1000 * u32 (mss_cache ex_sk) * 320) /\
  990000 * (1000 * u32 (mss_cache ex_sk) * 320)
    < (caohejing_rate_bytes_per_sec ex_sk 1000 320 + 1) * 4294967296
      + 255 * 990000.
Proof.
  split_first_part.
  { split; [by_computation|]. split; [by_computation|by_computation]. }
  destruct H as (Hb & Hg & Hf).
  exact (pacing_rate_under_paces ex_sk 1000 320 Hb Hg Hf).
Defined.

(** X15 at bandwidth 1000 and segments of 1460 bytes, from gain 192 to
    gain 320. *)
Lemma pacing_rate_monotone_witness :
  (0 <= 1000 <= 1000 /\ 0 <= 192 <= 320 /\
   Z.shiftr (1000 * u32 (mss_cache ex_sk) * 320) 8 * 990000
     < 18446744073709551616) /\
  caohejing_rate_bytes_per_sec ex_sk 1000 192
  <= caohejing_rate_bytes_per_sec ex_sk 1000 320.
Proof.
  split_first_part.
  { split; [by_computation|]. split; [by_computation|by_computation]. }
  destruct H as (Hb & Hg & Hf).
  exact (pacing_rate_monotone ex_sk 1000 1000 192 320 Hb Hg Hf).
Defined.

(** X16 on a socket that has no pacing rate yet. *)
Lemma tso_segs_goal_bounds_witness :
  exists segs,
    caohejing_tso_segs_goal ex_max_tcp_header ex_sk = Ok segs /\
    1 <= segs <= 127 /\
    (150000 <= sk_pacing_rate ex_sk -> 2 <= segs) /\
    (is_u64 (sk_pacing_rate ex_sk) ->
     Z.shiftr (sk_pacing_rate ex_sk) (sk_pacing_shift ex_sk)
       < u32 (mss_cache ex_sk) ->
     segs = caohejing_min_tso_segs ex_sk).
Proof.
  eexists. split_first_part.
  { by_computation. }
  exact (tso_segs_goal_bounds ex_max_tcp_header ex_sk _ H).
Defined.

(** X17 on the first call of a socket, after its lines 153-169. *)
Lemma base_cwnd_bounds_witness :
  exists sk1 is_next bwm base,
    cc_estimate ex_sk ex_rs = Ok (sk1, is_next, bwm) /\
    (cc_base_cwnd ex_max_tcp_header sk1 bwm = Ok base /\
     is_u32 bwm /\ is_u32 (min_rtt_us (inet_csk_ca sk1)) /\
     bwm * min_rtt_us (inet_csk_ca sk1) <= max_exact_bdp) /\
    6 <= base /\
    ceil_div (bwm * min_rtt_us (inet_csk_ca sk1)) BW_UNIT + 3 <= base
      <= Z.max 2 (ceil_div (bwm * min_rtt_us (inet_csk_ca sk1)) BW_UNIT) + 382.
Proof.
  eexists _, _, _, _. split; [by_computation|]. split_first_part.
  { split; [by_computation|]. split; [by_computation|].
    split; [by_computation|by_computation]. }
  destruct H as (B & Rb & Rm & Hb).
  exact (base_cwnd_bounds ex_max_tcp_header _ _ _ B Rb Rm Hb).
Defined.

(** X22 from a window of 10, through a call, a pause and a change to
    state Loss. *)
Lemma undo_restores_snapshot_witness :
  exists g' sk',
    (~ In Ev_ssthresh ex_after_ssthresh /\
     run ex_max_tcp_header ex_g (snd (tcp_caohejing_ssthresh ex_sk))
       ex_after_ssthresh = Ok (g', sk')) /\
    fst (tcp_caohejing_ssthresh ex_sk) = snd_ssthresh ex_sk /\
    snd_cwnd (snd (tcp_caohejing_ssthresh ex_sk)) = snd_cwnd ex_sk /\
    tcp_caohejing_undo_cwnd sk' = Z.max 2 (u32 (snd_cwnd ex_sk)) /\
    (is_u32 (snd_cwnd ex_sk) ->
     tcp_caohejing_undo_cwnd sk' = Z.max 2 (snd_cwnd ex_sk)).
Proof.
  eexists _, _. split_first_part.
  { split; [|by_computation].
    cbn. intros [H|[H|[H|[]]]]; discriminate H. }
  destruct H as (N & R).
  exact (undo_restores_snapshot ex_max_tcp_header ex_after_ssthresh
           ex_g ex_sk _ _ N R).
Defined.

(** The change to state Loss leaves the window at 1;
    [tcp_caohejing_undo_cwnd] gives the 10 of the snapshot. *)
Example undo_restores_snapshot_scenario :
  exists g' sk',
    run ex_max_tcp_header ex_g (snd (tcp_caohejing_ssthresh ex_sk))
      ex_after_ssthresh = Ok (g', sk') /\
    snd_cwnd sk' = 1 /\ tcp_caohejing_undo_cwnd sk' = 10.
Proof. eexists _, _. split; [by_computation|by_computation]. Qed.

(** X18 on a socket in state Open with nothing in flight. *)
Lemma loss_window_not_kept_witness :
  recovery_quiet ex_g ex_sk = true /\
  (u8 TCP_CA_Loss <> TCP_CA_Loss ->
   tcp_caohejing_state ex_sk TCP_CA_Loss = ex_sk) /\
  (u8 TCP_CA_Loss = TCP_CA_Loss ->
   tcp_caohejing_state ex_sk TCP_CA_Loss =
   set_snd_cwnd (u32 (tcp_packets_in_flight ex_sk + 1)) ex_sk) /\
  tcp_caohejing_cong_control ex_max_tcp_header ex_g
    (tcp_caohejing_state ex_sk TCP_CA_Loss) ex_rs =
  tcp_caohejing_cong_control ex_max_tcp_header ex_g ex_sk ex_rs.
Proof.
  split_first_part.
  { by_computation. }
  exact (loss_window_not_kept ex_max_tcp_header ex_g ex_sk ex_rs
           TCP_CA_Loss H).
Defined.

(** X19 on a socket set up after the module has served four calls. *)
Lemma first_call_after_init_witness :
  exists g' sk',
    tcp_caohejing_cong_control ex_max_tcp_header ex_g_warm
      (tcp_caohejing_init ex_host) ex_rs = Ok (g', sk') /\
    exists sk1 bwm,
      cc_estimate (tcp_caohejing_init ex_host) ex_rs = Ok (sk1, true, bwm) /\
      cycle_mstamp (inet_csk_ca sk') = delivered_mstamp ex_host /\
      last_bw (inet_csk_ca sk') = bwm /\
      curr_bw (inet_csk_ca sk') = bwm /\
      (3 < start ex_g_warm ->
       recovery_quiet ex_g_warm (tcp_caohejing_init ex_host) = true ->
       state (inet_csk_ca sk') = DOWN /\ gain (inet_csk_ca sk') = 192).
Proof.
  eexists _, _. split_first_part.
  { by_computation. }
  exact (first_call_after_init ex_max_tcp_header ex_g_warm ex_host ex_rs
           _ _ H).
Defined.

(** X20 on a socket that has just entered Recovery. *)
Lemma packet_conservation_pins_drain_down_witness :
  exists g' sk',
    (tcp_caohejing_cong_control ex_max_tcp_header ex_g ex_sk_entering
       ex_rs_acked2 = Ok (g', sk') /\
     conservation ex_g <> 0 /\
     packet_conservation (inet_csk_ca sk') = 1) /\
    state (inet_csk_ca sk') = DOWN /\
    gain (inet_csk_ca sk') = 192 /\
    Z.min (u32 (tcp_packets_in_flight ex_sk_entering
                + rs_acked_sacked ex_rs_acked2))
          (snd_cwnd_clamp ex_sk_entering)
    <= snd_cwnd sk'.
Proof.
  eexists _, _. split_first_part.
  { split; [by_computation|]. split; [by_computation|by_computation]. }
  destruct H as (C & Hc & P).
  exact (packet_conservation_pins_drain_down ex_max_tcp_header ex_g
           ex_sk_entering ex_rs_acked2 _ _ C Hc P).
Defined.

(** X21 on the second call of a socket, in the middle of its first window,
    with a sample of one packet in 20 s. *)
Lemma zero_bandwidth_stops_pacing_witness :
  exists g sk g' sk' sk1 is_next,
    run ex_max_tcp_header ex_g ex_sk ex_first_window = Ok (g, sk) /\
    (tcp_caohejing_cong_control ex_max_tcp_header g sk ex_rs_trickle
       = Ok (g', sk') /\
     cc_estimate sk ex_rs_trickle = Ok (sk1, is_next, 0)) /\
    sk_pacing_rate sk' = 0 /\ caohejing_min_tso_segs sk' = 1.
Proof.
  eexists _, _, _, _, _, _. split; [by_computation|]. split_first_part.
  { split; [by_computation|by_computation]. }
  destruct H as (C & E).
  exact (zero_bandwidth_stops_pacing ex_max_tcp_header _ _ ex_rs_trickle
           _ _ _ _ C E).
Defined.
